(** * backtest/ml/trainModel.py: the training pipeline, embedded and verified

    The script loads a feature dataset, z-score normalises it, fits a boosted
    tree classifier, evaluates it, cross-validates it and writes four JSON
    artifacts.  This development embeds the script function by function.

    Numbers.  float64 values are idealised as rationals ([Q]): sums, products,
    quotients and comparisons are exact, and nan and the infinities are not
    represented; where a library call would answer nan (a mean of nothing, a
    ROC curve of a single class) the text below says what the model does.
    The one irrational operation of the script, the square root behind a
    standard deviation, is the environment's [np_sqrt].

    Library code.  The script is glue around NumPy, scikit-learn and XGBoost.
    The deterministic numerical routines it calls (StandardScaler, the
    classification metrics, the ROC curve) are written out below after their
    documented behaviour; model fitting and cross-validation are oracles of
    the environment record. *)

From Stdlib Require Import String Ascii ZArith QArith Qround Qminmax Bool Lia Lqa.
From Stdlib Require Import List Sorting SetoidList.
Import ListNotations.

Set Implicit Arguments.
Set Warnings "-register-all".

(** ** Exceptions and fallible results *)

Inductive exn : Type :=
  | ImportError (msg : string)
  | FileNotFoundError (msg : string)
  | OSError (msg : string)
  | JSONDecodeError (msg : string)
  | KeyError (key : string)
  | TypeError (msg : string)
  | ValueError (msg : string)
  | IndexError (msg : string)
  | AttributeError (msg : string)
  | ZeroDivisionError (msg : string)
  | LibraryError (msg : string).

Definition is_ImportError (e : exn) : bool :=
  match e with ImportError _ => true | _ => false end.

(** A pure call that returns or raises. *)
Inductive result (A : Type) : Type :=
  | Ok (a : A)
  | Raise (e : exn).
Arguments Ok {A} a.
Arguments Raise {A} e.

Definition rbind {A B} (r : result A) (f : A -> result B) : result B :=
  match r with
  | Ok a => f a
  | Raise e => Raise e
  end.

Declare Scope result_scope.
Delimit Scope result_scope with result.
Notation "x <- r ;; k" := (rbind r (fun x => k))
  (at level 61, r at next level, right associativity) : result_scope.
Notation "' p <- r ;; k" := (rbind r (fun x => match x with p => k end))
  (at level 61, p pattern, r at next level, right associativity) : result_scope.

Fixpoint mapM {A B} (f : A -> result B) (l : list A) : result (list B) :=
  match l with
  | [] => Ok []
  | x :: rest =>
      (y <- f x ;;
       ys <- mapM f rest ;;
       Ok (y :: ys))%result
  end.

(** ** NumPy: the array operations the script uses *)

Module np.

Local Open Scope Q_scope.

Fixpoint sum (v : list Q) : Q :=
  match v with
  | [] => 0
  | x :: rest => x + sum rest
  end.

Definition len (v : list Q) : Q := inject_Z (Z.of_nat (length v)).

(** [np.mean], of an array that is not empty. *)
Definition mean (v : list Q) : Q := sum v / len v.

(** [np.var]: the population variance (ddof = 0). *)
Definition var (v : list Q) : Q :=
  let m := mean v in
  mean (map (fun x => (x - m) * (x - m)) v).

Definition maximum (a b : list Q) : list Q :=
  map (fun p => Qmax (fst p) (snd p)) (combine a b).

(** [mask.sum()] of a boolean array. *)
Definition count_true (mask : list bool) : nat :=
  length (filter (fun b => b) mask).

(** [arr[mask]] for a boolean mask of the length of [arr]. *)
Fixpoint index_mask {A} (arr : list A) (mask : list bool) : list A :=
  match arr, mask with
  | x :: arr', true :: mask' => x :: index_mask arr' mask'
  | _ :: arr', false :: mask' => index_mask arr' mask'
  | _, _ => []
  end.

(** [(cond(a, b)).sum()] for an elementwise condition on two arrays of one
    length, such as [(a == b).sum()]. *)
Definition count_where (cond : Q -> Q -> bool) (a b : list Q) : nat :=
  length (filter (fun p => cond (fst p) (snd p)) (combine a b)).

Definition Qlt_bool (a b : Q) : bool := negb (Qle_bool b a).

(** Stable ascending insertion; [argsort(kind="mergesort")] orders ties by
    position. *)
Fixpoint insert_by {A} (key : A -> Q) (x : A) (l : list A) : list A :=
  match l with
  | [] => [x]
  | h :: t => if Qle_bool (key x) (key h) then x :: l else h :: insert_by key x t
  end.

Definition sort_by {A} (key : A -> Q) (l : list A) : list A :=
  fold_right (insert_by key) [] l.

(** [np.unique]: the distinct values, ascending. *)
Fixpoint insert_unique (x : Q) (l : list Q) : list Q :=
  match l with
  | [] => [x]
  | h :: t =>
      if Qeq_bool x h then l
      else if Qle_bool x h then x :: l
      else h :: insert_unique x t
  end.

Definition unique (v : list Q) : list Q := fold_right insert_unique [] v.

(** [np.trapz(y, x)]. *)
Fixpoint trapz (y x : list Q) : Q :=
  match x, y with
  | x0 :: ((x1 :: _) as xs), y0 :: ((y1 :: _) as ys) =>
      (x1 - x0) * (y1 + y0) / 2 + trapz ys xs
  | _, _ => 0
  end.

(** [np.diff]. *)
Fixpoint diff (x : list Q) : list Q :=
  match x with
  | x0 :: ((x1 :: _) as xs) => (x1 - x0) :: diff xs
  | _ => []
  end.

End np.

(** ** scikit-learn: StandardScaler and the classification metrics *)

Module sklearn.

Local Open Scope Q_scope.

Definition of_nat (n : nat) : Q := inject_Z (Z.of_nat n).

(** *** Target checks shared by the metrics *)

Inductive target_type : Type := binary | multiclass | continuous.

Definition is_integral (v : Q) : bool := Qeq_bool v (inject_Z (Qfloor v)).

Definition type_of_target (y : list Q) : target_type :=
  if existsb (fun v => negb (is_integral v)) y then continuous
  else if (2 <? length (np.unique y))%nat then multiclass
  else binary.

(** [unique_labels(y_true, y_pred)]. *)
Definition unique_labels (y_true y_pred : list Q) : list Q :=
  np.unique (y_true ++ y_pred).

(** [_check_targets]: both arrays of one length and of a classification
    type; two binary arrays with more than two values between them are
    multiclass. *)
Definition check_targets (y_true y_pred : list Q) : result target_type :=
  if negb (length y_true =? length y_pred)%nat then
    Raise (ValueError "Found input variables with inconsistent numbers of samples")
  else
    match type_of_target y_true, type_of_target y_pred with
    | continuous, _ | _, continuous =>
        Raise (ValueError "Classification metrics can't handle continuous targets")
    | binary, binary =>
        if (2 <? length (unique_labels y_true y_pred))%nat then Ok multiclass
        else Ok binary
    | _, _ => Ok multiclass
    end.

Definition pos_label : Q := 1.

(** [_check_set_wise_labels] with [average='binary'] and [pos_label=1]. *)
Definition check_set_wise_labels (y_true y_pred : list Q) : result unit :=
  (t <- check_targets y_true y_pred ;;
   match t with
   | binary =>
       let present_labels := unique_labels y_true y_pred in
       if negb (existsb (Qeq_bool pos_label) present_labels)
          && (2 <=? length present_labels)%nat
       then Raise (ValueError "pos_label=1 is not a valid label")
       else Ok tt
   | _ => Raise (ValueError "Target is multiclass but average='binary'")
   end)%result.

(** *** accuracy, precision, recall, F1 *)

Definition accuracy_score (y_true y_pred : list Q) : result Q :=
  (_ <- check_targets y_true y_pred ;;
   Ok (of_nat (np.count_where Qeq_bool y_true y_pred) / of_nat (length y_true)))%result.

Definition tp_sum (y_true y_pred : list Q) : nat :=
  np.count_where (fun t p => Qeq_bool t pos_label && Qeq_bool p pos_label) y_true y_pred.

Definition pred_sum (y_true y_pred : list Q) : nat :=
  np.count_where (fun _ p => Qeq_bool p pos_label) y_true y_pred.

Definition true_sum (y_true y_pred : list Q) : nat :=
  np.count_where (fun t _ => Qeq_bool t pos_label) y_true y_pred.

(** [_prf_divide]: the quotient, or [zero_division] where the denominator
    is zero. *)
Definition prf_divide (numerator denominator : nat) (zero_division : Q) : Q :=
  if (denominator =? 0)%nat then zero_division
  else of_nat numerator / of_nat denominator.

Definition precision_score (y_true y_pred : list Q) (zero_division : Q) : result Q :=
  (_ <- check_set_wise_labels y_true y_pred ;;
   Ok (prf_divide (tp_sum y_true y_pred) (pred_sum y_true y_pred) zero_division))%result.

Definition recall_score (y_true y_pred : list Q) (zero_division : Q) : result Q :=
  (_ <- check_set_wise_labels y_true y_pred ;;
   Ok (prf_divide (tp_sum y_true y_pred) (true_sum y_true y_pred) zero_division))%result.

(** F-beta with beta = 1: 2 tp / (true_sum + pred_sum). *)
Definition f1_score (y_true y_pred : list Q) (zero_division : Q) : result Q :=
  (_ <- check_set_wise_labels y_true y_pred ;;
   Ok (prf_divide (2 * tp_sum y_true y_pred)
                  (true_sum y_true y_pred + pred_sum y_true y_pred)
                  zero_division))%result.

(** *** Confusion matrix: rows are true labels, columns predicted labels,
    both in ascending label order *)

Definition confusion_matrix (y_true y_pred : list Q) : result (list (list nat)) :=
  (_ <- check_targets y_true y_pred ;;
   let labels := unique_labels y_true y_pred in
   Ok (map (fun lt =>
              map (fun lp =>
                     np.count_where (fun t p => Qeq_bool t lt && Qeq_bool p lp)
                                    y_true y_pred)
                  labels)
           labels))%result.

(** *** ROC curve and its area

    [roc_auc_score] on a binary target binarises the labels (the greater
    label is the positive class), has no score for a target with a single
    class, and integrates the ROC curve by the trapezoidal rule.  For a
    single class scikit-learn raises ValueError up to version 1.5 and from
    1.6 on warns and returns nan; either way the evaluation has no AUC, and
    the model raises. *)

(** The walk of [_binary_clf_curve] over the samples in decreasing score
    order: [tps] is the running count of positives, and a point
    [(fps, tps) = (1 + idx - tps, tps)] is produced at the last sample of
    every run of equal scores. *)
Fixpoint clf_points (l : list (Q * bool)) (idx tps : Z) : list (Z * Z) :=
  match l with
  | [] => []
  | (s, y) :: rest =>
      let tps' := (tps + (if y then 1 else 0))%Z in
      let here := ((1 + idx - tps')%Z, tps') in
      match rest with
      | [] => [here]
      | (s', _) :: _ =>
          if Qeq_bool s s' then clf_points rest (idx + 1) tps'
          else here :: clf_points rest (idx + 1) tps'
      end
  end.

(** Decreasing scores: the stable ascending order, reversed. *)
Definition sort_desc (l : list (Q * bool)) : list (Q * bool) :=
  rev (np.sort_by fst l).

Definition binary_clf_curve (y_true : list bool) (y_score : list Q)
  : result (list (Z * Z)) :=
  if negb (length y_true =? length y_score)%nat then
    Raise (ValueError "Found input variables with inconsistent numbers of samples")
  else Ok (clf_points (sort_desc (combine y_score y_true)) 0 0).

(** [drop_intermediate]: an inner point is kept when the second difference
    of [fps] or of [tps] around it is not zero; both ends are kept. *)
Fixpoint keep_turns (prev : Z * Z) (l : list (Z * Z)) : list (Z * Z) :=
  match l with
  | [] => []
  | cur :: rest =>
      match rest with
      | [] => [cur]
      | next :: _ =>
          if ((fst next - 2 * fst cur + fst prev =? 0)
              && (snd next - 2 * snd cur + snd prev =? 0))%Z
          then keep_turns cur rest
          else cur :: keep_turns cur rest
      end
  end.

Definition drop_intermediate (pts : list (Z * Z)) : list (Z * Z) :=
  match pts with
  | first :: rest => if (2 <? length pts)%nat then first :: keep_turns first rest else pts
  | [] => []
  end.

(** [roc_curve]: the curve starts at (0, 0) and both coordinates are
    divided by their last value.  (A last value of zero, an empty class,
    makes scikit-learn return nan; [binary_roc_auc_score] calls this only
    with both classes present, when both last values are positive.) *)
Definition roc_curve (y_true : list bool) (y_score : list Q)
  : result (list Q * list Q) :=
  (pts <- binary_clf_curve y_true y_score ;;
   let pts := (0%Z, 0%Z) :: drop_intermediate pts in
   let fps := map fst pts in
   let tps := map snd pts in
   let fpr := map (fun v => inject_Z v / inject_Z (last fps 0%Z)) fps in
   let tpr := map (fun v => inject_Z v / inject_Z (last tps 0%Z)) tps in
   Ok (fpr, tpr))%result.

(** [auc(x, y)]: the trapezoidal area, for [x] monotonic. *)
Definition auc (x y : list Q) : result Q :=
  if (length x <? 2)%nat then
    Raise (ValueError "At least 2 points are needed to compute area under curve")
  else
    let dx := np.diff x in
    if existsb (fun d => np.Qlt_bool d 0) dx then
      if forallb (fun d => Qle_bool d 0) dx then Ok (- (1) * np.trapz y x)
      else Raise (ValueError "x is neither increasing nor decreasing")
    else Ok (1 * np.trapz y x).

Definition binary_roc_auc_score (y_true : list bool) (y_score : list Q) : result Q :=
  if negb (existsb (fun b => b) y_true && existsb negb y_true) then
    Raise (ValueError "Only one class present in y_true. ROC AUC score is not defined")
  else
    ('(fpr, tpr) <- roc_curve y_true y_score ;;
     auc fpr tpr)%result.

(** [label_binarize(y, classes=labels)[:, 0]]: with two classes, the
    indicator of the second; with fewer, all zero. *)
Definition label_binarize (y labels : list Q) : list bool :=
  match labels with
  | [_; pos] => map (fun v => Qeq_bool v pos) y
  | _ => map (fun _ => false) y
  end.

Definition roc_auc_score (y_true y_score : list Q) : result Q :=
  match type_of_target y_true with
  | binary =>
      let labels := np.unique y_true in
      binary_roc_auc_score (label_binarize y_true labels) y_score
  | multiclass => Raise (ValueError "multi_class must be in ('ovo', 'ovr')")
  | continuous => Raise (ValueError "continuous format is not supported")
  end.

(** *** StandardScaler *)

Definition matrix : Type := list (list Q).

Definition n_features (X : matrix) : nat := length (hd [] X).

Definition column (j : nat) (X : matrix) : list Q := map (fun row => nth j row 0) X.

Definition columns (X : matrix) : list (list Q) :=
  map (fun j => column j X) (seq 0 (n_features X)).

Record StandardScaler : Type := {
  mean_ : list Q;
  var_ : list Q;
  scale_ : list Q;
  n_features_in_ : nat;
}.

(** [_handle_zeros_in_scale(np.sqrt(var_), constant_mask)]: the scale is
    the square root of the variance, except that a feature that is constant
    on the fitted data (its variance is zero) gets the scale 1, "giving a
    scaling factor of 1" in the words of the class documentation. *)
Definition handle_zeros_in_scale (sqrt : Q -> Q) (v : Q) : Q :=
  if Qeq_bool v 0 then 1 else sqrt v.

(** [StandardScaler().fit(X)]; a matrix without a column is refused. *)
Definition fit (sqrt : Q -> Q) (X : matrix) : result StandardScaler :=
  if (n_features X =? 0)%nat then
    Raise (ValueError "Found array with 0 feature(s) while a minimum of 1 is required")
  else
    let cols := columns X in
    Ok {| mean_ := map np.mean cols;
          var_ := map np.var cols;
          scale_ := map (fun c => handle_zeros_in_scale sqrt (np.var c)) cols;
          n_features_in_ := n_features X |}.

Definition transform_row (scaler : StandardScaler) (row : list Q) : list Q :=
  map (fun p => (fst (fst p) - snd (fst p)) / snd p)
      (combine (combine row (mean_ scaler)) (scale_ scaler)).

(** [scaler.transform(X)]: the fitted statistics are read, not updated. *)
Definition transform (scaler : StandardScaler) (X : matrix) : result matrix :=
  if negb (n_features X =? n_features_in_ scaler)%nat then
    Raise (ValueError "X has a different number of features than StandardScaler is expecting")
  else Ok (map (transform_row scaler) X).

Definition fit_transform (sqrt : Q -> Q) (X : matrix) : result (StandardScaler * matrix) :=
  (scaler <- fit sqrt X ;;
   X' <- transform scaler X ;;
   Ok (scaler, X'))%result.

End sklearn.

(** ** JSON values, as [json.load] returns them and [json.dump] writes them *)

Inductive json : Type :=
  | JNull
  | JBool (b : bool)
  | JInt (z : Z)
  | JFloat (q : Q)
  | JStr (s : string)
  | JArr (items : list json)
  | JObj (fields : list (string * json)).

Fixpoint lookup (key : string) (fields : list (string * json)) : option json :=
  match fields with
  | [] => None
  | (k, v) :: rest => if String.eqb key k then Some v else lookup key rest
  end.

(** [obj.get(key)] on a written artifact. *)
Definition field (key : string) (v : json) : option json :=
  match v with
  | JObj fields => lookup key fields
  | _ => None
  end.

Definition keys (v : json) : list string :=
  match v with
  | JObj fields => map fst fields
  | _ => []
  end.

(** [data[key]] with a string key. *)
Definition getitem (data : json) (key : string) : result json :=
  match data with
  | JObj fields =>
      match lookup key fields with
      | Some v => Ok v
      | None => Raise (KeyError key)
      end
  | _ => Raise (TypeError "indices must be integers or the object is not subscriptable")
  end.

(** [np.array(v, dtype=np.float64)].

    Modelling boundary: a feature array is a non-empty list of rows of
    numbers of one length and a label array a list of numbers, a number
    being a JSON number or boolean.  Any other value is refused here, where
    NumPy may still build an array (of another rank, or holding nan) that a
    later call refuses. *)
Definition as_float (v : json) : result Q :=
  match v with
  | JInt z => Ok (inject_Z z)
  | JFloat q => Ok q
  | JBool b => Ok (if b then 1 else 0)%Q
  | _ => Raise (ValueError "could not convert to float")
  end.

Definition np_array1 (v : json) : result (list Q) :=
  match v with
  | JArr items => mapM as_float items
  | _ => Raise (ValueError "array of rank 1 expected")
  end.

Definition np_array2 (v : json) : result sklearn.matrix :=
  match v with
  | JArr rows =>
      (X <- mapM np_array1 rows ;;
       match X with
       | [] => Raise (IndexError "tuple index out of range")
       | row0 :: _ =>
           if forallb (fun row => (length row =? length row0)%nat) X then Ok X
           else Raise (ValueError "setting an array element with a sequence: inhomogeneous shape")
       end)%result
  | _ => Raise (IndexError "tuple index out of range")
  end.

(** ** XGBoost: hyperparameters and a fitted classifier *)

Record XGBParams : Type := {
  n_estimators : nat;
  max_depth : nat;
  learning_rate : Q;
  subsample : Q;
  colsample_bytree : Q;
  min_child_weight : Q;
  gamma : Q;
  reg_alpha : Q;
  reg_lambda : Q;
  scale_pos_weight : option Q;
  eval_metric : option string;
  early_stopping_rounds : option nat;
  random_state : Z;
  n_jobs : Z;
  tree_method : string;
  base_score : option Q;
}.

(** What the script reads from a fitted [XGBClassifier]. *)
Record XGBClassifier : Type := {
  get_params : XGBParams;
  best_iteration : option nat;       (* an attribute only after early stopping *)
  predict_row : list Q -> Q;         (* [predict]: the class of one sample *)
  predict_proba_row : list Q -> Q;   (* [predict_proba(...)[:, 1]] of one sample *)
  feature_importances_ : list Q;
  n_features_in_ : nat;
  get_dump : list string;            (* [get_booster().get_dump(dump_format='json')] *)
}.

Definition predict (model : XGBClassifier) (X : sklearn.matrix) : list Q :=
  map (predict_row model) X.

Definition predict_proba1 (model : XGBClassifier) (X : sklearn.matrix) : list Q :=
  map (predict_proba_row model) X.

(** ** The environment of a run *)

Inductive package : Type :=
  | numpy
  | xgboost
  | sklearn_metrics
  | sklearn_model_selection
  | sklearn_preprocessing.

Record Env : Type := {
  argv : list string;                       (* [sys.argv] *)
  script_dir : string;                      (* [os.path.dirname(__file__)] *)
  import_module : package -> result unit;
  read_text : string -> result string;      (* [open(path, 'r')] and read *)
  json_loads : string -> result json;
  makedirs : string -> result unit;         (* [os.makedirs(path, exist_ok=True)] *)
  open_write : string -> result unit;       (* [open(path, 'w')] *)
  now_isoformat : nat -> string;            (* the n-th reading of the clock *)
  np_sqrt : Q -> Q;
  np_argsort : list Q -> list nat;
  xgb_fit : XGBParams -> sklearn.matrix -> list Q ->
            list (sklearn.matrix * list Q) -> result XGBClassifier;
  cross_val_score : XGBParams -> sklearn.matrix -> list Q -> nat -> result (list Q);
}.

(** ** Effects: what a run does, in order

    A computation yields the events it performed and how it ended.  Besides
    the I/O of the script, the trace records the entry and exit of each
    pipeline stage, the two calls into the training library and each
    exception at the point where it is raised.  Console lines that only
    display values already computed (array shapes, class balance, training
    time, the evaluation report, the closing banner) are left out. *)

Inductive stage : Type := Load | Normalize | Fit | Evaluate | CrossValidate | Export.

Inductive message : Type :=
  | MsgMissingPackage (e : exn)      (* "Missing package: {e}" *)
  | MsgInstallHint (* "Run: pip install scikit-learn xgboost numpy" *)
  | MsgUsage       (* "Usage: python backtest/ml/trainModel.py <features-file.json>" *)
  | MsgBanner
  | MsgLoading (filepath : string)
  | MsgNormalizing
  | MsgTraining
  | MsgBestIteration (n : nat)
  | MsgCrossValidating
  | MsgCVAccuracy (mean std : Q)
  | MsgModelExported (path : string)
  | MsgNormalizationSaved (path : string)
  | MsgBrowserNormalizationSaved (path : string)
  | MsgReportSaved (path : string)
  | MsgTrainingComplete (accuracy auc_roc : Q).

Inductive event : Type :=
  | EvPrint (m : message)
  | EvBegin (s : stage)
  | EvEnd (s : stage)
  | EvOpenRead (path : string)
  | EvMakedirs (path : string)
  | EvWrite (path : string) (content : json)
  | EvXgbFit (params : XGBParams) (X : sklearn.matrix) (y : list Q)
             (eval_set : list (sklearn.matrix * list Q))
  | EvCrossValScore (params : XGBParams) (X : sklearn.matrix) (y : list Q) (cv : nat)
  | EvRaised (e : exn).

Inductive outcome (A : Type) : Type :=
  | Returned (a : A)
  | Raised (e : exn)            (* an exception is propagating *)
  | Exited (status : Z).        (* [sys.exit(status)] *)
Arguments Returned {A} a.
Arguments Raised {A} e.
Arguments Exited {A} status.

Definition M (A : Type) : Type := (list event * outcome A)%type.

Definition ret {A} (a : A) : M A := ([], Returned a).

Definition bind {A B} (m : M A) (f : A -> M B) : M B :=
  match m with
  | (t, Returned a) => let (t', o) := f a in (t ++ t', o)
  | (t, Raised e) => (t, Raised e)
  | (t, Exited c) => (t, Exited c)
  end.

Declare Scope monad_scope.
Delimit Scope monad_scope with monad.
Notation "x <- m ;; k" := (bind m (fun x => k))
  (at level 61, m at next level, right associativity) : monad_scope.
Notation "' p <- m ;; k" := (bind m (fun x => match x with p => k end))
  (at level 61, p pattern, m at next level, right associativity) : monad_scope.
Notation "m ;; k" := (bind m (fun _ => k))
  (at level 61, right associativity) : monad_scope.

Definition emit (ev : event) : M unit := ([ev], Returned tt).
Definition print (m : message) : M unit := emit (EvPrint m).
Definition raise {A} (e : exn) : M A := ([EvRaised e], Raised e).
Definition sys_exit {A} (status : Z) : M A := ([], Exited status).

(** A pure call made by the script: its exception, if any, is raised here. *)
Definition lift {A} (r : result A) : M A :=
  match r with
  | Ok a => ret a
  | Raise e => raise e
  end.

(** [try: body except ImportError as e: handler(e)]. *)
Definition try_except_ImportError {A} (body : M A) (handler : exn -> M A) : M A :=
  match body with
  | (t, Raised e) =>
      if is_ImportError e then let (t', o) := handler e in (t ++ t', o)
      else (t, Raised e)
  | other => other
  end.

Definition in_stage {A} (s : stage) (body : M A) : M A :=
  (emit (EvBegin s) ;;
   a <- body ;;
   emit (EvEnd s) ;;
   ret a)%monad.

(** The exit status of the interpreter: 0 at the end of the script, the
    argument of [sys.exit], 1 for an uncaught exception. *)
Definition exit_status {A} (o : outcome A) : Z :=
  match o with
  | Returned _ => 0
  | Raised _ => 1
  | Exited status => status
  end.

(** ** The script *)

Local Open Scope string_scope.

Definition FEATURE_NAMES : list string := [
  "ptb_distance_pct"; "rsi"; "rsi_slope"; "macd_histogram"; "macd_line";
  "vwap_distance_pct"; "vwap_slope"; "ha_consecutive"; "delta_1m_pct";
  "delta_3m_pct"; "volume_ratio"; "minutes_left"; "rule_prob_up";
  "rule_confidence"; "vwap_cross_count"; "edge_best";
  "regime_trending"; "regime_choppy"; "regime_mean_rev"; "regime_moderate";
  "session_asia"; "session_europe"; "session_us"; "session_overlap"; "session_off";
  "ha_color_green"; "multi_tf_agree"; "failed_vwap"
].

(** [os.path.join] of a directory and a relative file name. *)
Definition ends_with_slash (a : string) : bool :=
  match String.get (String.length a - 1) a with
  | Some c => Ascii.eqb c "/"%char
  | None => false
  end.

Definition path_join (a b : string) : string :=
  if String.eqb a "" then b
  else if ends_with_slash a then a ++ b
  else a ++ "/" ++ b.

(** [l[i]] on a list. *)
Definition list_getitem {A} (l : list A) (i : nat) : result A :=
  match nth_error l i with
  | Some x => Ok x
  | None => Raise (IndexError "index out of range")
  end.

(** A quotient the script takes itself.  NumPy answers a zero divisor with
    inf or nan and a warning, which the rationals do not hold; the zero
    divisor is an error here, so that its absence can be stated. *)
Definition true_divide (a b : Q) : result Q :=
  if Qeq_bool b 0 then Raise (ZeroDivisionError "division by zero")
  else Ok (a / b)%Q.

Record CalibrationEntry : Type := {
  cal_range : string;
  cal_total : nat;
  cal_correct : nat;
  cal_accuracy : Q;
}.

Record TradingEntry : Type := {
  threshold : Q;
  trades : nat;
  wins : nat;
  trade_accuracy : Q;
  coverage : Q;
}.

Record Metrics : Type := {
  accuracy : Q;
  precision : Q;
  recall : Q;
  f1 : Q;
  auc_roc : Q;
  confusion_matrix : list (list nat);
  calibration : list CalibrationEntry;
  trading_simulation : list TradingEntry;
  feature_importance : list (string * Q);
}.

Definition buckets : list (string * Q * Q) := [
  ("50-55%", 50 # 100, 55 # 100);
  ("55-60%", 55 # 100, 60 # 100);
  ("60-65%", 60 # 100, 65 # 100);
  ("65-70%", 65 # 100, 70 # 100);
  ("70-80%", 70 # 100, 80 # 100);
  ("80-90%", 80 # 100, 90 # 100);
  ("90%+  ", 90 # 100, 101 # 100)
]%Q.

Definition thresholds : list Q :=
  [55 # 100; 60 # 100; 65 # 100; 70 # 100; 75 # 100; 80 # 100; 85 # 100; 90 # 100]%Q.

(** [np.maximum(y_proba, 1 - y_proba)]. *)
Definition prob_max (y_proba : list Q) : list Q :=
  np.maximum y_proba (map (fun p => 1 - p)%Q y_proba).

(** [(y_pred[mask] == y_test[mask]).sum()]. *)
Definition correct_in (mask : list bool) (y_pred y_test : list Q) : nat :=
  np.count_where Qeq_bool (np.index_mask y_pred mask) (np.index_mask y_test mask).

(** One turn of the calibration loop: the entries it appends. *)
Definition calibration_step (y_proba y_pred y_test : list Q) (bucket : string * Q * Q)
  : result (list CalibrationEntry) :=
  let '(label, lo, hi) := bucket in
  let mask := map (fun v => Qle_bool lo v && np.Qlt_bool v hi) (prob_max y_proba) in
  let total := np.count_true mask in
  if (0 <? total)%nat then
    let correct := correct_in mask y_pred y_test in
    (q <- true_divide (sklearn.of_nat correct) (sklearn.of_nat total) ;;
     let pct := (q * 100)%Q in
     Ok [{| cal_range := label; cal_total := total; cal_correct := correct;
            cal_accuracy := pct |}])%result
  else Ok [].

(** The bar that ends a line of the calibration report,
    ['█' * round(pct / 5)].  [round] takes a float to the nearest integer
    and a tie to the even one; a string repeated a negative number of times
    is empty. *)

Definition py_round (x : Q) : Z :=
  let f := Qfloor x in
  let r := (x - inject_Z f)%Q in
  if np.Qlt_bool r (1 # 2) then f
  else if np.Qlt_bool (1 # 2) r then (f + 1)%Z
  else if Z.even f then f
  else (f + 1)%Z.

(** The number of blocks of the bar. *)
Definition bar_blocks (pct : Q) : nat := Z.to_nat (py_round (pct / 5)).

(** The mask of the simulated-trading loop: [prob_max >= threshold]. *)
Definition trade_mask (y_proba : list Q) (threshold : Q) : list bool :=
  map (fun v => Qle_bool threshold v) (prob_max y_proba).

(** One turn of the simulated-trading loop: the entries it appends. *)
Definition trading_step (y_proba y_pred y_test : list Q) (threshold : Q)
  : result (list TradingEntry) :=
  let mask := trade_mask y_proba threshold in
  let total := np.count_true mask in
  if (0 <? total)%nat then
    let correct := correct_in mask y_pred y_test in
    (q <- true_divide (sklearn.of_nat correct) (sklearn.of_nat total) ;;
     let pct := (q * 100)%Q in
     c <- true_divide (sklearn.of_nat total) (sklearn.of_nat (length y_test)) ;;
     let coverage := (c * 100)%Q in
     Ok [{| threshold := threshold; trades := total; wins := correct;
            trade_accuracy := pct; coverage := coverage |}])%result
  else Ok [].

(** A [for] loop that appends to a list. *)
Definition for_append {A B} (body : A -> result (list B)) (items : list A)
  : result (list B) :=
  (steps <- mapM body items ;; Ok (concat steps))%result.

(** [cm[i][j]]. *)
Definition cm_getitem (cm : list (list nat)) (i j : nat) : result nat :=
  (row <- list_getitem cm i ;; list_getitem row j)%result.

Section Script.

Variable env : Env.

Definition load_dataset (filepath : string)
  : M (sklearn.matrix * list Q * sklearn.matrix * list Q * json) :=
  (print (MsgLoading filepath) ;;
   emit (EvOpenRead filepath) ;;
   text <- lift (read_text env filepath) ;;
   data <- lift (json_loads env text) ;;
   X_train <- lift (v <- getitem data "trainFeatures" ;; np_array2 v)%result ;;
   y_train <- lift (v <- getitem data "trainLabels" ;; np_array1 v)%result ;;
   X_test <- lift (v <- getitem data "testFeatures" ;; np_array2 v)%result ;;
   y_test <- lift (v <- getitem data "testLabels" ;; np_array1 v)%result ;;
   ret (X_train, y_train, X_test, y_test, data))%monad.

Definition normalize_data (X_train X_test : sklearn.matrix)
  : result (sklearn.matrix * sklearn.matrix * sklearn.StandardScaler) :=
  ('(scaler, X_train_norm) <- sklearn.fit_transform (np_sqrt env) X_train ;;
   X_test_norm <- sklearn.transform scaler X_test ;;
   Ok (X_train_norm, X_test_norm, scaler))%result.

(** The class weight of [train_xgboost]. *)
Definition class_weight (y_train : list Q) : result Q :=
  let n_pos := np.sum y_train in
  let n_neg := (np.len y_train - n_pos)%Q in
  if np.Qlt_bool 0 n_pos then true_divide n_neg n_pos else Ok 1%Q.

Definition classifier_params (scale_pos_weight : Q) : XGBParams :=
  {| n_estimators := 500;
     max_depth := 6;
     learning_rate := 5 # 100;
     subsample := 8 # 10;
     colsample_bytree := 8 # 10;
     min_child_weight := 5;
     gamma := 1 # 10;
     reg_alpha := 1 # 10;
     reg_lambda := 1;
     scale_pos_weight := Some scale_pos_weight;
     eval_metric := Some "logloss";
     early_stopping_rounds := Some 30%nat;
     random_state := 42;
     n_jobs := -1;
     tree_method := "hist";
     base_score := None |}.

(** [model.best_iteration]: an AttributeError without early stopping. *)
Definition get_best_iteration (model : XGBClassifier) : result nat :=
  match best_iteration model with
  | Some n => Ok n
  | None => Raise (AttributeError "best_iteration is only defined when early stopping is used")
  end.

Definition train_xgboost (X_train : sklearn.matrix) (y_train : list Q)
                         (X_test : sklearn.matrix) (y_test : list Q)
  : M XGBClassifier :=
  (print MsgTraining ;;
   scale_pos_weight <- lift (class_weight y_train) ;;
   let params := classifier_params scale_pos_weight in
   let eval_set := [(X_train, y_train); (X_test, y_test)] in
   emit (EvXgbFit params X_train y_train eval_set) ;;
   model <- lift (xgb_fit env params X_train y_train eval_set) ;;
   n <- lift (get_best_iteration model) ;;
   print (MsgBestIteration n) ;;
   ret model)%monad.

(** [evaluate_model]; its console report, which displays the values
    computed here, is left out, except that the confusion-matrix lines read
    [cm[1][1]], [cm[0][1]], [cm[0][0]] and [cm[1][0]]. *)
Definition evaluate_model (model : XGBClassifier) (X_test : sklearn.matrix)
                          (y_test : list Q) : result Metrics :=
  (let y_pred := predict model X_test in
   let y_proba := predict_proba1 model X_test in
   acc <- sklearn.accuracy_score y_test y_pred ;;
   precision <- sklearn.precision_score y_test y_pred 0 ;;
   recall <- sklearn.recall_score y_test y_pred 0 ;;
   f1 <- sklearn.f1_score y_test y_pred 0 ;;
   auc <- sklearn.roc_auc_score y_test y_proba ;;
   cm <- sklearn.confusion_matrix y_test y_pred ;;
   _ <- cm_getitem cm 1 1 ;;
   _ <- cm_getitem cm 0 1 ;;
   _ <- cm_getitem cm 0 0 ;;
   _ <- cm_getitem cm 1 0 ;;
   calibration_data <- for_append (calibration_step y_proba y_pred y_test) buckets ;;
   trading_results <- for_append (trading_step y_proba y_pred y_test) thresholds ;;
   let importance := feature_importances_ model in
   let indices := rev (np_argsort env importance) in
   feature_importance <-
     mapM (fun idx =>
             name <- list_getitem FEATURE_NAMES idx ;;
             imp <- list_getitem importance idx ;;
             Ok (name, imp))
          (firstn 10 indices) ;;
   Ok {| accuracy := acc;
         precision := precision;
         recall := recall;
         f1 := f1;
         auc_roc := auc;
         confusion_matrix := cm;
         calibration := calibration_data;
         trading_simulation := trading_results;
         feature_importance := feature_importance |})%result.

(** [with open(path, 'w') as f: json.dump(obj, f)], where [obj] is
    evaluated once the file is open. *)
Definition write_json_of (path : string) (obj : result json) : M unit :=
  (lift (open_write env path) ;;
   content <- lift obj ;;
   emit (EvWrite path content))%monad.

Definition write_json (path : string) (content : json) : M unit :=
  write_json_of path (Ok content).

(** [float(model.get_params().get('base_score') or 0.5)]. *)
Definition base_score_or_default (params : XGBParams) : Q :=
  match base_score params with
  | Some b => if Qeq_bool b 0 then (5 # 10)%Q else b
  | None => (5 # 10)%Q
  end.

Definition export_xgboost_to_json (model : XGBClassifier) (output_path : string)
  : M json :=
  (let trees_json := get_dump model in
   trees <- lift (mapM (json_loads env) trees_json) ;;
   let model_export := JObj [
     ("type", JStr "xgboost");
     ("version", JInt 1);
     ("num_trees", JInt (Z.of_nat (length trees)));
     ("num_features", JInt (Z.of_nat (n_features_in_ model)));
     ("base_score", JFloat (base_score_or_default (get_params model)));
     ("learning_rate", JFloat (learning_rate (get_params model)));
     ("trees", JArr trees);
     ("feature_names", JArr (map JStr FEATURE_NAMES));
     ("exported_at", JStr (now_isoformat env 0))
   ] in
   write_json output_path model_export ;;
   print (MsgModelExported output_path) ;;
   ret model_export)%monad.

(** *** The artifacts as JSON *)

Definition json_nat (n : nat) : json := JInt (Z.of_nat n).

Definition json_option {A} (f : A -> json) (o : option A) : json :=
  match o with
  | Some a => f a
  | None => JNull
  end.

Definition calibration_json (e : CalibrationEntry) : json :=
  JObj [("range", JStr (cal_range e)); ("total", json_nat (cal_total e));
        ("correct", json_nat (cal_correct e)); ("accuracy", JFloat (cal_accuracy e))].

Definition trading_json (e : TradingEntry) : json :=
  JObj [("threshold", JFloat (threshold e)); ("trades", json_nat (trades e));
        ("wins", json_nat (wins e)); ("accuracy", JFloat (trade_accuracy e));
        ("coverage", JFloat (coverage e))].

Definition importance_json (e : string * Q) : json :=
  JObj [("name", JStr (fst e)); ("importance", JFloat (snd e))].

Definition metrics_json (m : Metrics) : json :=
  JObj [("accuracy", JFloat (accuracy m));
        ("precision", JFloat (precision m));
        ("recall", JFloat (recall m));
        ("f1", JFloat (f1 m));
        ("auc_roc", JFloat (auc_roc m));
        ("confusion_matrix", JArr (map (fun row => JArr (map json_nat row)) (confusion_matrix m)));
        ("calibration", JArr (map calibration_json (calibration m)));
        ("trading_simulation", JArr (map trading_json (trading_simulation m)));
        ("feature_importance", JArr (map importance_json (feature_importance m)))].

Definition params_json (p : XGBParams) : json :=
  JObj [("n_estimators", json_nat (n_estimators p));
        ("max_depth", json_nat (max_depth p));
        ("learning_rate", JFloat (learning_rate p));
        ("subsample", JFloat (subsample p));
        ("colsample_bytree", JFloat (colsample_bytree p));
        ("min_child_weight", JFloat (min_child_weight p));
        ("gamma", JFloat (gamma p));
        ("reg_alpha", JFloat (reg_alpha p));
        ("reg_lambda", JFloat (reg_lambda p));
        ("scale_pos_weight", json_option JFloat (scale_pos_weight p));
        ("eval_metric", json_option JStr (eval_metric p));
        ("early_stopping_rounds", json_option json_nat (early_stopping_rounds p));
        ("random_state", JInt (random_state p));
        ("n_jobs", JInt (n_jobs p));
        ("tree_method", JStr (tree_method p));
        ("base_score", json_option JFloat (base_score p))].

(** [norm_data] of [main]. *)
Definition norm_data (scaler : sklearn.StandardScaler) : json :=
  JObj [("means", JArr (map JFloat (sklearn.mean_ scaler)));
        ("stds", JArr (map JFloat (sklearn.scale_ scaler)));
        ("feature_names", JArr (map JStr FEATURE_NAMES))].

(** The object written to norm_browser.json, built from [norm_data]. *)
Definition norm_browser (norm_data : json) : result json :=
  (means <- getitem norm_data "means" ;;
   stds <- getitem norm_data "stds" ;;
   Ok (JObj [("means", means); ("stds", stds)]))%result.

(** [np.std]. *)
Definition np_std (v : list Q) : Q := np_sqrt env (np.var v).

(** The classifier that is cross-validated: the rounds found by early
    stopping, no class weight, no early stopping. *)
Definition cv_params (model : XGBClassifier) : XGBParams :=
  {| n_estimators :=
       match best_iteration model with
       | Some n => n + 1
       | None => 300
       end;
     max_depth := 6;
     learning_rate := 5 # 100;
     subsample := 8 # 10;
     colsample_bytree := 8 # 10;
     min_child_weight := 5;
     gamma := 1 # 10;
     reg_alpha := 1 # 10;
     reg_lambda := 1;
     scale_pos_weight := None;
     eval_metric := None;
     early_stopping_rounds := None;
     random_state := 42;
     n_jobs := -1;
     tree_method := "hist";
     base_score := None |}.

Definition models_dir : string := path_join (script_dir env) "models".
Definition model_path : string := path_join models_dir "xgboost_model.json".
Definition norm_path : string := path_join models_dir "normalization.json".
Definition norm_browser_path : string := path_join models_dir "norm_browser.json".
Definition report_path : string := path_join models_dir "training_report.json".

Definition report (metrics : Metrics) (cv_scores : list Q)
                  (X_train : sklearn.matrix) (y_train y_test : list Q)
                  (model : XGBClassifier) (num_trees : nat) : json :=
  JObj [("metrics", metrics_json metrics);
        ("cv_accuracy_mean", JFloat (np.mean cv_scores));
        ("cv_accuracy_std", JFloat (np_std cv_scores));
        ("train_samples", json_nat (length y_train));
        ("test_samples", json_nat (length y_test));
        ("num_features", json_nat (sklearn.n_features X_train));
        ("num_trees", json_nat num_trees);
        ("hyperparameters", params_json (get_params model));
        ("trained_at", JStr (now_isoformat env 1))].

(** The artifacts, in the order [main] writes them. *)
Definition save_artifacts (metrics : Metrics) (cv_scores : list Q)
                          (X_train : sklearn.matrix) (y_train y_test : list Q)
                          (scaler : sklearn.StandardScaler)
                          (model : XGBClassifier) : M unit :=
  (emit (EvMakedirs models_dir) ;;
   lift (makedirs env models_dir) ;;
   export_xgboost_to_json model model_path ;;
   let norm_data := norm_data scaler in
   write_json norm_path norm_data ;;
   print (MsgNormalizationSaved norm_path) ;;
   write_json_of norm_browser_path (norm_browser norm_data) ;;
   print (MsgBrowserNormalizationSaved norm_browser_path) ;;
   num_trees <- lift (n <- get_best_iteration model ;; Ok (n + 1)%nat)%result ;;
   write_json report_path
     (report metrics cv_scores X_train y_train y_test model num_trees) ;;
   print (MsgReportSaved report_path))%monad.

Definition main : M unit :=
  ((if (length (argv env) <? 2)%nat
    then print MsgUsage ;; sys_exit 1
    else ret tt) ;;
   features_file <- lift (list_getitem (argv env) 1) ;;
   print MsgBanner ;;
   '(X_train, y_train, X_test, y_test, raw_data) <-
     in_stage Load (load_dataset features_file) ;;
   print MsgNormalizing ;;
   '(X_train_norm, X_test_norm, scaler) <-
     in_stage Normalize (lift (normalize_data X_train X_test)) ;;
   model <- in_stage Fit (train_xgboost X_train_norm y_train X_test_norm y_test) ;;
   metrics <- in_stage Evaluate (lift (evaluate_model model X_test_norm y_test)) ;;
   print MsgCrossValidating ;;
   cv_scores <-
     in_stage CrossValidate
       (let cv_model := cv_params model in
        emit (EvCrossValScore cv_model X_train_norm y_train 5) ;;
        lift (cross_val_score env cv_model X_train_norm y_train 5)) ;;
   print (MsgCVAccuracy (np.mean cv_scores) (np_std cv_scores)) ;;
   in_stage Export
     (save_artifacts metrics cv_scores X_train y_train y_test scaler model) ;;
   print (MsgTrainingComplete (accuracy metrics) (auc_roc metrics)))%monad.

(** The import block at the head of the module: [numpy] is imported
    outside the guard, [xgboost] and the three scikit-learn modules inside
    it. *)
Definition import_guard : M unit :=
  try_except_ImportError
    (lift (import_module env xgboost) ;;
     lift (import_module env sklearn_metrics) ;;
     lift (import_module env sklearn_model_selection) ;;
     lift (import_module env sklearn_preprocessing))%monad
    (fun e =>
       print (MsgMissingPackage e) ;;
       print MsgInstallHint ;;
       sys_exit 1)%monad.

(** The script run as [__main__]. *)
Definition program : M unit :=
  (lift (import_module env numpy) ;;
   import_guard ;;
   main)%monad.

End Script.

(** ** A concrete run, used to exercise the definitions

    A dataset of ten training and two test samples with two features, the
    first of them constant; the training library is replaced by a fixed
    classifier that reads the second feature. *)

Module Example.

Definition dataset : json :=
  let row (a b : Z) := JArr [JInt a; JInt b] in
  JObj [
    ("trainFeatures", JArr [row 1 1; row 1 1; row 1 1; row 1 1; row 1 1;
                            row 1 3; row 1 3; row 1 3; row 1 3; row 1 3]%Z);
    ("trainLabels", JArr (map JInt [0; 0; 0; 0; 0; 1; 1; 1; 1; 1]%Z));
    ("testFeatures", JArr [row 1 1; row 1 3]%Z);
    ("testLabels", JArr (map JInt [0; 1]%Z))
  ].

Definition tree : json :=
  JObj [("nodeid", JInt 0); ("leaf", JFloat (1 # 10))].

(** A square root that is exact on the squares of rationals. *)
Definition sqrt (v : Q) : Q :=
  Z.sqrt (Qnum v * Zpos (Qden v)) # Qden v.

Definition argsort (v : list Q) : list nat :=
  map fst (np.sort_by snd (combine (seq 0 (length v)) v)).

Definition classifier (params : XGBParams) : XGBClassifier :=
  {| get_params := params;
     best_iteration := Some 0%nat;
     predict_row := fun row => if np.Qlt_bool 0 (nth 1 row 0%Q) then 1%Q else 0%Q;
     predict_proba_row :=
       fun row => if np.Qlt_bool 0 (nth 1 row 0%Q) then (9 # 10)%Q else (2 # 10)%Q;
     feature_importances_ := [0; 1]%Q;
     n_features_in_ := 2;
     get_dump := ["tree0"] |}.

Definition env (args : list string) : Env :=
  {| argv := args;
     script_dir := "backtest/ml";
     import_module := fun _ => Ok tt;
     read_text := fun path =>
       if String.eqb path "features.json" then Ok "dataset"
       else Raise (FileNotFoundError path);
     json_loads := fun text =>
       if String.eqb text "dataset" then Ok dataset
       else if String.eqb text "tree0" then Ok tree
       else Raise (JSONDecodeError text);
     makedirs := fun _ => Ok tt;
     open_write := fun _ => Ok tt;
     now_isoformat := fun n =>
       if (n =? 0)%nat then "2026-01-01T00:00:00" else "2026-01-01T00:00:01";
     np_sqrt := sqrt;
     np_argsort := argsort;
     xgb_fit := fun params _ _ _ => Ok (classifier params);
     cross_val_score := fun _ _ _ _ => Ok [1; 1; 1; 1; 1]%Q |}.

Definition args : list string := ["backtest/ml/trainModel.py"; "features.json"].

(** The arrays of the example dataset and what the run makes of them. *)
Definition X_train : sklearn.matrix :=
  [[1; 1]; [1; 1]; [1; 1]; [1; 1]; [1; 1]; [1; 3]; [1; 3]; [1; 3]; [1; 3]; [1; 3]]%Q.
Definition y_train : list Q := [0; 0; 0; 0; 0; 1; 1; 1; 1; 1]%Q.
Definition X_test_norm : sklearn.matrix := [[0; -1]; [0; 1]]%Q.
Definition y_test : list Q := [0; 1]%Q.
Definition model : XGBClassifier := classifier (classifier_params 1).

(** The same environment with xgboost not installed. *)
Definition env_without_xgboost : Env :=
  {| argv := args;
     script_dir := script_dir (env args);
     import_module := fun p =>
       match p with
       | xgboost => Raise (ImportError "No module named 'xgboost'")
       | _ => Ok tt
       end;
     read_text := read_text (env args);
     json_loads := json_loads (env args);
     makedirs := makedirs (env args);
     open_write := open_write (env args);
     now_isoformat := now_isoformat (env args);
     np_sqrt := np_sqrt (env args);
     np_argsort := np_argsort (env args);
     xgb_fit := xgb_fit (env args);
     cross_val_score := cross_val_score (env args) |}.

End Example.

(** ** Further runs, used to exercise the properties *)

Module Scenario.

(** [env] with another behaviour of [import]. *)
Definition with_imports (env : Env) (import : package -> result unit) : Env :=
  {| argv := argv env;
     script_dir := script_dir env;
     import_module := import;
     read_text := read_text env;
     json_loads := json_loads env;
     makedirs := makedirs env;
     open_write := open_write env;
     now_isoformat := now_isoformat env;
     np_sqrt := np_sqrt env;
     np_argsort := np_argsort env;
     xgb_fit := xgb_fit env;
     cross_val_score := cross_val_score env |}.

(** [env] with another behaviour of [open(path, 'w')]. *)
Definition with_open_write (env : Env) (open : string -> result unit) : Env :=
  {| argv := argv env;
     script_dir := script_dir env;
     import_module := import_module env;
     read_text := read_text env;
     json_loads := json_loads env;
     makedirs := makedirs env;
     open_write := open;
     now_isoformat := now_isoformat env;
     np_sqrt := np_sqrt env;
     np_argsort := np_argsort env;
     xgb_fit := xgb_fit env;
     cross_val_score := cross_val_score env |}.

(** [env] with another dataset file behind [json.load]. *)
Definition with_json_loads (env : Env) (loads : string -> result json) : Env :=
  {| argv := argv env;
     script_dir := script_dir env;
     import_module := import_module env;
     read_text := read_text env;
     json_loads := loads;
     makedirs := makedirs env;
     open_write := open_write env;
     now_isoformat := now_isoformat env;
     np_sqrt := np_sqrt env;
     np_argsort := np_argsort env;
     xgb_fit := xgb_fit env;
     cross_val_score := cross_val_score env |}.

(** The example run without numpy. *)
Definition without_numpy : Env :=
  with_imports (Example.env Example.args)
    (fun p => match p with
              | numpy => Raise (ImportError "No module named 'numpy'")
              | _ => Ok tt
              end).

(** The example run with an xgboost whose shared library does not load. *)
Definition broken_xgboost : Env :=
  with_imports (Example.env Example.args)
    (fun p => match p with
              | xgboost => Raise (OSError "libxgboost.so: cannot open shared object file")
              | _ => Ok tt
              end).

(** The example run in a models directory where only the first artifact
    can be opened for writing. *)
Definition disk_full : Env :=
  with_open_write (Example.env Example.args)
    (fun path =>
       if String.eqb path "backtest/ml/models/xgboost_model.json" then Ok tt
       else Raise (OSError "No space left on device")).

(** The example run on a dataset file without test labels. *)
Definition without_test_labels : Env :=
  with_json_loads (Example.env Example.args)
    (fun text =>
       if String.eqb text "dataset" then
         Ok (JObj [("trainFeatures", JArr [JArr [JInt 1; JInt 2]]);
                   ("trainLabels", JArr [JInt 1]);
                   ("testFeatures", JArr [JArr [JInt 1; JInt 2]])])
       else Raise (JSONDecodeError text)).

(** The example run on a tree dump that is not JSON. *)
Definition bad_dump : Env :=
  with_json_loads (Example.env Example.args)
    (fun text =>
       if String.eqb text "dataset" then Ok Example.dataset
       else Raise (JSONDecodeError text)).


End Scenario.

(** * Specification vocabulary

    The notions in which the properties below are stated. *)

Local Open Scope list_scope.

(** ** Counting *)

(** The closed unit interval. *)
Definition in01 (q : Q) : Prop := (0 <= q /\ q <= 1)%Q.

(** How often [x] occurs among [labels]. *)
Definition hits (x : Q) (labels : list Q) : nat :=
  list_sum (map (fun l => if Qeq_bool x l then 1%nat else 0%nat) labels).

(** A table of counts indexed by [labels] x [labels]: the samples with
    true label [lt] and predicted label [lp], and the sum of all cells. *)
Definition cell (samples : list (Q * Q)) (lt lp : Q) : nat :=
  length (filter (fun s => Qeq_bool (fst s) lt && Qeq_bool (snd s) lp) samples).

Definition table_total (samples : list (Q * Q)) (labels : list Q) : nat :=
  list_sum (map (fun lt => list_sum (map (cell samples lt) labels)) labels).

(** The number of labels equal to [c]. *)
Definition count_label (c : Q) (y : list Q) : nat :=
  length (filter (fun v => Qeq_bool v c) y).

Definition binary_labels (y : list Q) : Prop :=
  Forall (fun v => v == 0 \/ v == 1)%Q y.

(** Every sample selected by the first mask is selected by the second. *)
Definition mask_subset (mask2 mask1 : list bool) : Prop :=
  Forall2 (fun b2 b1 => b2 = true -> b1 = true) mask2 mask1.

(** ** The ROC walk *)

Definition positives (l : list (Q * bool)) : Z :=
  Z.of_nat (length (filter (fun s => snd s) l)).

Definition size (l : list (Q * bool)) : Z := Z.of_nat (length l).

(** A point between the counts [(f0, t0)] and [(f1, t1)]. *)
Definition within (f0 t0 f1 t1 : Z) (p : Z * Z) : Prop :=
  (f0 <= fst p <= f1 /\ t0 <= snd p <= t1)%Z.

(** The order of the points of the walk: neither count decreases. *)
Definition point_le (p q : Z * Z) : Prop :=
  (fst p <= fst q /\ snd p <= snd q)%Z.

(** The points handed to the normalisation of [roc_curve], the origin
    first. *)
Definition curve (l : list (Q * bool)) : list (Z * Z) :=
  (0%Z, 0%Z) :: sklearn.drop_intermediate (sklearn.clf_points l 0 0).

(** ** Statistics of a fitted scaler *)




(** ** Runs *)

(** The packages the import block needs. *)
Definition imports_ok (env : Env) : Prop :=
  import_module env numpy = Ok tt
  /\ import_module env xgboost = Ok tt
  /\ import_module env sklearn_metrics = Ok tt
  /\ import_module env sklearn_model_selection = Ok tt
  /\ import_module env sklearn_preprocessing = Ok tt.

(** The first import of the guarded block to fail raises [e]. *)
Definition guarded_import_fails (env : Env) (e : exn) : Prop :=
  import_module env xgboost = Raise e
  \/ (import_module env xgboost = Ok tt
      /\ import_module env sklearn_metrics = Raise e)
  \/ (import_module env xgboost = Ok tt
      /\ import_module env sklearn_metrics = Ok tt
      /\ import_module env sklearn_model_selection = Raise e)
  \/ (import_module env xgboost = Ok tt
      /\ import_module env sklearn_metrics = Ok tt
      /\ import_module env sklearn_model_selection = Ok tt
      /\ import_module env sklearn_preprocessing = Raise e).

(** A run whose imports succeed and whose command line names [file]. *)
Definition ready (env : Env) (file : string) : Prop :=
  imports_ok env /\ list_getitem (argv env) 1 = Ok file.

Definition dataset_keys : list string :=
  ["trainFeatures"; "trainLabels"; "testFeatures"; "testLabels"].

(** The training feature matrix of a run: [data['trainFeatures']] of the
    dataset named on the command line. *)
Definition training_matrix (env : Env) (X_train : sklearn.matrix) : Prop :=
  exists file text data,
    list_getitem (argv env) 1 = Ok file
    /\ read_text env file = Ok text
    /\ json_loads env text = Ok data
    /\ rbind (getitem data "trainFeatures") np_array2 = Ok X_train.

(** Kinds of events. *)
Definition bracket (ev : event) : bool :=
  match ev with
  | EvBegin _ | EvEnd _ => true
  | _ => false
  end.

Definition is_write (ev : event) : bool :=
  match ev with
  | EvWrite _ _ => true
  | _ => false
  end.

Definition touches_files (ev : event) : bool :=
  match ev with
  | EvOpenRead _ | EvMakedirs _ | EvWrite _ _ => true
  | _ => false
  end.

Definition is_raised (ev : event) : bool :=
  match ev with
  | EvRaised _ => true
  | _ => false
  end.

Definition no_raise (t : list event) : Prop := forall e, ~ In (EvRaised e) t.

(** An exception raised in [m] is its last event and its outcome: nothing
    ran after the raise. *)
Definition propagates {A} (m : M A) : Prop :=
  match m with
  | (t, Raised e) => exists pre, t = pre ++ [EvRaised e] /\ no_raise pre
  | (t, _) => no_raise t
  end.

(** The object of norm_browser.json. *)
Definition norm_browser_data (scaler : sklearn.StandardScaler) : json :=
  JObj [("means", JArr (map JFloat (sklearn.mean_ scaler)));
        ("stds", JArr (map JFloat (sklearn.scale_ scaler)))].

(** The object of xgboost_model.json. *)
Definition model_export_data (env : Env) (model : XGBClassifier) (trees : list json) : json :=
  JObj [("type", JStr "xgboost");
        ("version", JInt 1);
        ("num_trees", JInt (Z.of_nat (length trees)));
        ("num_features", JInt (Z.of_nat (n_features_in_ model)));
        ("base_score", JFloat (base_score_or_default (get_params model)));
        ("learning_rate", JFloat (learning_rate (get_params model)));
        ("trees", JArr trees);
        ("feature_names", JArr (map JStr FEATURE_NAMES));
        ("exported_at", JStr (now_isoformat env 0))].

(** The events of the export stage of a run that returned. *)
Definition export_trace (env : Env) (metrics : Metrics) (cv_scores : list Q)
    (X_train : sklearn.matrix) (y_train y_test : list Q)
    (scaler : sklearn.StandardScaler) (model : XGBClassifier)
    (trees : list json) (n : nat) : list event :=
  [EvMakedirs (models_dir env);
   EvWrite (model_path env) (model_export_data env model trees);
   EvPrint (MsgModelExported (model_path env));
   EvWrite (norm_path env) (norm_data scaler);
   EvPrint (MsgNormalizationSaved (norm_path env));
   EvWrite (norm_browser_path env) (norm_browser_data scaler);
   EvPrint (MsgBrowserNormalizationSaved (norm_browser_path env));
   EvWrite (report_path env)
           (report env metrics cv_scores X_train y_train y_test model (n + 1));
   EvPrint (MsgReportSaved (report_path env))].

(** The values [main] binds in a run that reaches its end. *)
Record Run : Type := {
  run_file : string;
  run_data : json;
  run_X_train : sklearn.matrix;
  run_y_train : list Q;
  run_X_test : sklearn.matrix;
  run_y_test : list Q;
  run_X_train_norm : sklearn.matrix;
  run_X_test_norm : sklearn.matrix;
  run_scaler : sklearn.StandardScaler;
  run_weight : Q;
  run_model : XGBClassifier;
  run_rounds : nat;
  run_metrics : Metrics;
  run_cv_scores : list Q;
  run_trees : list json;
}.

(** How those values were obtained. *)
Definition completed (env : Env) (r : Run) : Prop :=
  list_getitem (argv env) 1 = Ok (run_file r)
  /\ (exists text, read_text env (run_file r) = Ok text
                   /\ json_loads env text = Ok (run_data r))
  /\ rbind (getitem (run_data r) "trainFeatures") np_array2 = Ok (run_X_train r)
  /\ rbind (getitem (run_data r) "trainLabels") np_array1 = Ok (run_y_train r)
  /\ rbind (getitem (run_data r) "testFeatures") np_array2 = Ok (run_X_test r)
  /\ rbind (getitem (run_data r) "testLabels") np_array1 = Ok (run_y_test r)
  /\ normalize_data env (run_X_train r) (run_X_test r)
     = Ok (run_X_train_norm r, run_X_test_norm r, run_scaler r)
  /\ class_weight (run_y_train r) = Ok (run_weight r)
  /\ xgb_fit env (classifier_params (run_weight r))
             (run_X_train_norm r) (run_y_train r)
             [(run_X_train_norm r, run_y_train r); (run_X_test_norm r, run_y_test r)]
     = Ok (run_model r)
  /\ best_iteration (run_model r) = Some (run_rounds r)
  /\ evaluate_model env (run_model r) (run_X_test_norm r) (run_y_test r)
     = Ok (run_metrics r)
  /\ cross_val_score env (cv_params (run_model r))
                     (run_X_train_norm r) (run_y_train r) 5
     = Ok (run_cv_scores r)
  /\ mapM (json_loads env) (get_dump (run_model r)) = Ok (run_trees r).

(** The events of such a run, in order. *)
Definition run_trace (env : Env) (r : Run) : list event :=
  [EvPrint MsgBanner;
   EvBegin Load;
   EvPrint (MsgLoading (run_file r));
   EvOpenRead (run_file r);
   EvEnd Load;
   EvPrint MsgNormalizing;
   EvBegin Normalize;
   EvEnd Normalize;
   EvBegin Fit;
   EvPrint MsgTraining;
   EvXgbFit (classifier_params (run_weight r))
            (run_X_train_norm r) (run_y_train r)
            [(run_X_train_norm r, run_y_train r); (run_X_test_norm r, run_y_test r)];
   EvPrint (MsgBestIteration (run_rounds r));
   EvEnd Fit;
   EvBegin Evaluate;
   EvEnd Evaluate;
   EvPrint MsgCrossValidating;
   EvBegin CrossValidate;
   EvCrossValScore (cv_params (run_model r)) (run_X_train_norm r) (run_y_train r) 5;
   EvEnd CrossValidate;
   EvPrint (MsgCVAccuracy (np.mean (run_cv_scores r)) (np_std env (run_cv_scores r)));
   EvBegin Export]
  ++ export_trace env (run_metrics r) (run_cv_scores r) (run_X_train r)
                  (run_y_train r) (run_y_test r) (run_scaler r) (run_model r)
                  (run_trees r) (run_rounds r)
  ++ [EvEnd Export;
      EvPrint (MsgTrainingComplete (accuracy (run_metrics r)) (auc_roc (run_metrics r)))].


(** ** Shapes *)

(** Every row of [X] has the width of its first row. *)
Definition rectangular (X : sklearn.matrix) : Prop :=
  Forall (fun row => length row = sklearn.n_features X) X.

(** The entry of row [i] and column [j]. *)
Definition entry (X : sklearn.matrix) (i j : nat) : Q := nth j (nth i X []) 0%Q.


(** The statistics [StandardScaler] keeps for feature [j] of the matrix it
    was fitted on. *)
Definition feature_mean (X : sklearn.matrix) (j : nat) : Q :=
  np.mean (sklearn.column j X).

Definition feature_scale (sqrt : Q -> Q) (X : sklearn.matrix) (j : nat) : Q :=
  sklearn.handle_zeros_in_scale sqrt (np.var (sklearn.column j X)).

(** ** Orders *)

(** The indices [idx] are in ascending order of the values they point at. *)
Definition ascending_by (values : list Q) (idx : list nat) : Prop :=
  StronglySorted (fun i j => (nth i values 0 <= nth j values 0)%Q) idx.

(** ** What a run has written *)

(** The paths of the writes of a trace, in order. *)
Definition written (t : list event) : list string :=
  flat_map (fun ev => match ev with EvWrite path _ => [path] | _ => [] end) t.

(** The four artifacts, in the order [main] writes them. *)
Definition artifact_paths (env : Env) : list string :=
  [model_path env; norm_path env; norm_browser_path env; report_path env].

(** A scan of a trace: every write comes after an event that satisfies
    [p]; [seen] tells whether such an event lies before the trace. *)
Fixpoint preceded (p : event -> bool) (seen : bool) (t : list event) : bool :=
  match t with
  | [] => true
  | ev :: rest => (negb (is_write ev) || seen) && preceded p (seen || p ev) rest
  end.

Definition ends_evaluation (ev : event) : bool :=
  match ev with
  | EvEnd Evaluate => true
  | _ => false
  end.

Definition ends_cross_validation (ev : event) : bool :=
  match ev with
  | EvEnd CrossValidate => true
  | _ => false
  end.

Definition is_makedirs (ev : event) : bool :=
  match ev with
  | EvMakedirs _ => true
  | _ => false
  end.

(** The three ways the program goes before [main] is entered or instead of
    it: [main] runs, an import raises an exception that is not handled, or
    the import guard prints its two lines and exits. *)
Definition import_outcome (env : Env) : Prop :=
  (imports_ok env /\ program env = main env)
  \/ (exists e, program env = ([EvRaised e], Raised e))
  \/ (exists e, program env
                = ([EvRaised e; EvPrint (MsgMissingPackage e); EvPrint MsgInstallHint],
                   Exited 1%Z)).

(** [Q] holds of the trace and the outcome of [m]. *)
Definition holds {A} (Q : list event -> outcome A -> Prop) (m : M A) : Prop :=
  Q (fst m) (snd m).

(** The stage brackets of a run that reaches its end. *)
Definition stage_brackets : list event :=
  [EvBegin Load; EvEnd Load;
   EvBegin Normalize; EvEnd Normalize;
   EvBegin Fit; EvEnd Fit;
   EvBegin Evaluate; EvEnd Evaluate;
   EvBegin CrossValidate; EvEnd CrossValidate;
   EvBegin Export; EvEnd Export].

(** * Properties *)

(** ** Fallible results *)

Lemma rbind_Ok_inv {A B} (r : result A) (f : A -> result B) (b : B) :
  rbind r f = Ok b -> exists a, r = Ok a /\ f a = Ok b.
Proof.
  destruct r as [a|e]; simpl; intros H.
  - exists a; split; [reflexivity | exact H].
  - discriminate H.
Qed.

(** Inversion of a chain of [rbind]s that returned. *)
Ltac rinv H :=
  repeat match type of H with
  | rbind ?r ?f = Ok ?b =>
      let a := fresh "v" in
      let Ha := fresh "E" in
      destruct (rbind_Ok_inv r f H) as (a & Ha & H'); clear H; rename H' into H;
      cbv beta in H
  end.

Lemma mapM_Ok_inv {A B} (f : A -> result B) (l : list A) (rs : list B) :
  mapM f l = Ok rs -> Forall2 (fun x r => f x = Ok r) l rs.
Proof.
  revert rs; induction l as [|x l IH]; simpl; intros rs H.
  - injection H as <-. constructor.
  - destruct (f x) as [y|e] eqn:Ey; simpl in H; [|discriminate].
    destruct (mapM f l) as [ys|e] eqn:Eys; simpl in H; [|discriminate].
    injection H as <-. constructor; auto.
Qed.

(** ** NumPy *)

Section NumPy.

Local Open Scope Q_scope.



(** [np.unique] returns a strictly ascending list with the values of its
    argument. *)
Lemma insert_unique_InA (x z : Q) (l : list Q) :
  InA Qeq z (np.insert_unique x l) <-> z == x \/ InA Qeq z l.
Proof.
  induction l as [|h t IH]; simpl.
  - rewrite InA_cons, InA_nil. tauto.
  - destruct (Qeq_bool x h) eqn:E1.
    + apply Qeq_bool_eq in E1. rewrite InA_cons. split; [tauto|].
      intros [H|H]; [left; rewrite H; exact E1 | exact H].
    + destruct (Qle_bool x h) eqn:E2.
      * rewrite InA_cons. tauto.
      * rewrite !InA_cons, IH. tauto.
Qed.

Lemma insert_unique_sorted (x : Q) (l : list Q) :
  StronglySorted Qlt l -> StronglySorted Qlt (np.insert_unique x l).
Proof.
  induction 1 as [|h t Hs IH Hh]; simpl.
  - repeat constructor.
  - destruct (Qeq_bool x h) eqn:E1; [constructor; assumption|].
    apply Qeq_bool_neq in E1.
    destruct (Qle_bool x h) eqn:E2.
    + apply Qle_bool_imp_le in E2.
      assert (Hlt : x < h) by (apply Qle_lteq in E2; tauto).
      constructor; [constructor; assumption|].
      constructor; [exact Hlt|].
      eapply Forall_impl; [|exact Hh]. intros y Hy. eapply Qlt_trans; eassumption.
    + assert (Hlt : h < x).
      { apply Qnot_le_lt. intros Hle. apply Qle_bool_iff in Hle. congruence. }
      constructor; [exact IH|].
      rewrite Forall_forall. intros y Hy.
      assert (Hy' : InA Qeq y (np.insert_unique x t))
        by (apply In_InA; [apply Q_Setoid | exact Hy]).
      apply insert_unique_InA in Hy'. destruct Hy' as [Hy'|Hy'].
      * rewrite Hy'. exact Hlt.
      * apply InA_alt in Hy'. destruct Hy' as (y' & Hyy' & Hin).
        rewrite Forall_forall in Hh. rewrite Hyy'. apply Hh. exact Hin.
Qed.

Lemma unique_sorted (v : list Q) : StronglySorted Qlt (np.unique v).
Proof.
  induction v as [|x v IH]; simpl; [constructor|].
  apply insert_unique_sorted. exact IH.
Qed.

Lemma unique_InA (v : list Q) (z : Q) : InA Qeq z (np.unique v) <-> InA Qeq z v.
Proof.
  induction v as [|x v IH]; simpl; [reflexivity|].
  rewrite insert_unique_InA, InA_cons, IH. reflexivity.
Qed.

Lemma hits_none (x : Q) (labels : list Q) :
  Forall (Qlt x) labels -> hits x labels = 0%nat.
Proof.
  unfold hits. induction 1 as [|h t Hh _ IH]; simpl; [reflexivity|].
  rewrite IH. destruct (Qeq_bool x h) eqn:E; [|reflexivity].
  apply Qeq_bool_eq in E. rewrite E in Hh. exfalso. eapply Qlt_irrefl; eassumption.
Qed.

Lemma hits_once (x : Q) (labels : list Q) :
  StronglySorted Qlt labels -> InA Qeq x labels -> hits x labels = 1%nat.
Proof.
  induction 1 as [|h t Hs IH Hh]; intros Hin.
  - inversion Hin.
  - unfold hits in *. simpl. destruct (Qeq_bool x h) eqn:E.
    + apply Qeq_bool_eq in E.
      fold (hits x t). rewrite hits_none; [reflexivity|].
      eapply Forall_impl; [|exact Hh]. intros y Hy. rewrite E. exact Hy.
    + apply Qeq_bool_neq in E. apply InA_cons in Hin.
      destruct Hin as [Hin|Hin]; [contradiction|]. simpl. apply IH. exact Hin.
Qed.

Lemma list_sum_map_add {A} (f g : A -> nat) (l : list A) :
  list_sum (map (fun x => (f x + g x)%nat) l) = (list_sum (map f l) + list_sum (map g l))%nat.
Proof. induction l as [|x l IH]; simpl; lia. Qed.

Lemma list_sum_map_zero {A} (l : list A) : list_sum (map (fun _ => 0%nat) l) = 0%nat.
Proof. induction l; simpl; auto. Qed.

Lemma sum_if_hits (t : Q) (k : nat) (labels : list Q) :
  list_sum (map (fun lt => if Qeq_bool t lt then k else 0%nat) labels)
  = (hits t labels * k)%nat.
Proof.
  unfold hits. induction labels as [|l ls IH]; simpl; [reflexivity|].
  rewrite IH. destruct (Qeq_bool t l); simpl; lia.
Qed.

Lemma table_total_nil (labels : list Q) : table_total [] labels = 0%nat.
Proof.
  unfold table_total, cell. simpl.
  erewrite map_ext; [apply list_sum_map_zero|].
  intros lt. simpl. apply list_sum_map_zero.
Qed.

Lemma table_total_cons (t p : Q) (samples : list (Q * Q)) (labels : list Q) :
  table_total ((t, p) :: samples) labels
  = (hits t labels * hits p labels + table_total samples labels)%nat.
Proof.
  unfold table_total.
  erewrite map_ext with (g := fun lt =>
    ((if Qeq_bool t lt then hits p labels else 0) + list_sum (map (cell samples lt) labels))%nat).
  - rewrite list_sum_map_add. f_equal. apply sum_if_hits.
  - intros lt.
    erewrite map_ext with (g := fun lp =>
      ((if Qeq_bool t lt && Qeq_bool p lp then 1 else 0) + cell samples lt lp)%nat).
    + rewrite list_sum_map_add. f_equal.
      destruct (Qeq_bool t lt); simpl; [reflexivity | apply list_sum_map_zero].
    + intros lp. unfold cell. simpl.
      destruct (Qeq_bool t lt && Qeq_bool p lp); reflexivity.
Qed.

Lemma table_total_length (samples : list (Q * Q)) (labels : list Q) :
  StronglySorted Qlt labels ->
  Forall (fun s => InA Qeq (fst s) labels /\ InA Qeq (snd s) labels) samples ->
  table_total samples labels = length samples.
Proof.
  intros Hs. induction 1 as [|[t p] samples [Ht Hp] _ IH].
  - apply table_total_nil.
  - rewrite table_total_cons, IH. simpl in Ht, Hp.
    rewrite (hits_once Hs Ht), (hits_once Hs Hp). reflexivity.
Qed.

End NumPy.

(** ** scikit-learn: the ROC curve stays in the unit square *)

Section ROC.

Local Open Scope Z_scope.

Lemma positives_cons (s : Q) (y : bool) (l : list (Q * bool)) :
  positives ((s, y) :: l) = (if y then 1 else 0) + positives l.
Proof. unfold positives. destruct y; simpl filter; simpl length; lia. Qed.

Lemma positives_bounds (l : list (Q * bool)) : 0 <= positives l <= size l.
Proof.
  unfold positives, size. pose proof (filter_length_le (fun s => snd s) l). lia.
Qed.

Lemma size_cons (p : Q * bool) (l : list (Q * bool)) : size (p :: l) = 1 + size l.
Proof. unfold size. simpl length. lia. Qed.

Lemma clf_points_cons (s : Q) (y : bool) (rest : list (Q * bool)) (idx tps : Z) :
  sklearn.clf_points ((s, y) :: rest) idx tps =
  let tps' := tps + (if y then 1 else 0) in
  let here := (1 + idx - tps', tps') in
  match rest with
  | [] => [here]
  | (s', _) :: _ =>
      if Qeq_bool s s' then sklearn.clf_points rest (idx + 1) tps'
      else here :: sklearn.clf_points rest (idx + 1) tps'
  end.
Proof. reflexivity. Qed.

Lemma clf_points_within (l : list (Q * bool)) :
  forall idx tps,
    Forall (within (idx - tps) tps
                   (idx + size l - tps - positives l) (tps + positives l))
           (sklearn.clf_points l idx tps).
Proof.
  induction l as [|[s y] rest IH]; intros idx tps; [constructor|].
  rewrite clf_points_cons. cbv zeta.
  pose proof (positives_bounds rest) as Hb.
  assert (Hhere : within (idx - tps) tps
            (idx + size ((s, y) :: rest) - tps - positives ((s, y) :: rest))
            (tps + positives ((s, y) :: rest))
            (1 + idx - (tps + (if y then 1 else 0)), tps + (if y then 1 else 0))).
  { rewrite positives_cons, size_cons. unfold within; cbn [fst snd]. destruct y; lia. }
  assert (Hrest : Forall (within (idx - tps) tps
            (idx + size ((s, y) :: rest) - tps - positives ((s, y) :: rest))
            (tps + positives ((s, y) :: rest)))
            (sklearn.clf_points rest (idx + 1) (tps + (if y then 1 else 0)))).
  { eapply Forall_impl; [|apply IH]. intros [f t].
    rewrite positives_cons, size_cons. unfold within; cbn [fst snd]. destruct y; lia. }
  destruct rest as [|[s' y'] rest'].
  - constructor; [exact Hhere | constructor].
  - destruct (Qeq_bool s s'); [exact Hrest | constructor; assumption].
Qed.

Lemma clf_points_nonempty (l : list (Q * bool)) :
  forall idx tps, l <> [] -> sklearn.clf_points l idx tps <> [].
Proof.
  induction l as [|[s y] rest IH]; intros idx tps Hne; [congruence|].
  rewrite clf_points_cons. cbv zeta.
  destruct rest as [|[s' y'] rest']; [discriminate|].
  destruct (Qeq_bool s s'); [apply IH|]; discriminate.
Qed.

Lemma last_cons_nonempty {A} (x d : A) (l : list A) : l <> [] -> last (x :: l) d = last l d.
Proof. destruct l; [congruence | reflexivity]. Qed.

(** The walk ends at the totals. *)
Lemma clf_points_last (l : list (Q * bool)) :
  forall idx tps d,
    l <> [] ->
    last (sklearn.clf_points l idx tps) d
    = (idx + size l - tps - positives l, tps + positives l).
Proof.
  induction l as [|[s y] rest IH]; intros idx tps d Hne; [congruence|].
  rewrite clf_points_cons. cbv zeta.
  destruct rest as [|[s' y'] rest'].
  - cbn [last]. rewrite positives_cons, size_cons. unfold positives, size. cbn [filter length].
    f_equal; destruct y; lia.
  - assert (Hne' : (s', y') :: rest' <> []) by discriminate.
    assert (Hgoal : last (sklearn.clf_points ((s', y') :: rest') (idx + 1)
                            (tps + (if y then 1 else 0))) d
                    = (idx + size ((s, y) :: (s', y') :: rest') - tps
                         - positives ((s, y) :: (s', y') :: rest'),
                       tps + positives ((s, y) :: (s', y') :: rest'))).
    { rewrite (IH _ _ d Hne'). rewrite (positives_cons s y), (size_cons (s, y)).
      f_equal; destruct y; lia. }
    destruct (Qeq_bool s s'); [exact Hgoal|].
    rewrite last_cons_nonempty; [exact Hgoal|].
    apply clf_points_nonempty. exact Hne'.
Qed.

(** Dropping intermediate points keeps a sublist and its last point. *)
Lemma keep_turns_Forall (P : Z * Z -> Prop) (l : list (Z * Z)) :
  forall prev, Forall P l -> Forall P (sklearn.keep_turns prev l).
Proof.
  induction l as [|cur rest IH]; intros prev H; [constructor|].
  inversion H as [|? ? Hcur Hrest]; subst.
  simpl. destruct rest as [|next rest']; [constructor; [assumption | constructor]|].
  destruct (_ && _); [apply IH; assumption | constructor; [assumption | apply IH; assumption]].
Qed.

Lemma keep_turns_nonempty (l : list (Z * Z)) :
  forall prev, l <> [] -> sklearn.keep_turns prev l <> [].
Proof.
  induction l as [|cur rest IH]; intros prev Hne; [congruence|].
  simpl. destruct rest as [|next rest']; [discriminate|].
  destruct (_ && _); [apply IH|]; discriminate.
Qed.

Lemma keep_turns_last (l : list (Z * Z)) :
  forall prev d, last (sklearn.keep_turns prev l) d = last l d.
Proof.
  induction l as [|cur rest IH]; intros prev d; [reflexivity|].
  destruct rest as [|next rest']; [reflexivity|].
  change (sklearn.keep_turns prev (cur :: next :: rest'))
    with (if ((fst next - 2 * fst cur + fst prev =? 0)
              && (snd next - 2 * snd cur + snd prev =? 0))
          then sklearn.keep_turns cur (next :: rest')
          else cur :: sklearn.keep_turns cur (next :: rest')).
  rewrite (@last_cons_nonempty _ cur d (next :: rest')) by discriminate.
  destruct (_ && _).
  - apply IH.
  - rewrite last_cons_nonempty; [apply IH|].
    apply keep_turns_nonempty. discriminate.
Qed.

Lemma drop_intermediate_Forall (P : Z * Z -> Prop) (pts : list (Z * Z)) :
  Forall P pts -> Forall P (sklearn.drop_intermediate pts).
Proof.
  intros H. unfold sklearn.drop_intermediate.
  destruct pts as [|first rest]; [constructor|].
  destruct (2 <? length (first :: rest))%nat; [|exact H].
  inversion H; subst. constructor; [assumption|].
  apply keep_turns_Forall. assumption.
Qed.

Lemma drop_intermediate_last (pts : list (Z * Z)) (d : Z * Z) :
  last (sklearn.drop_intermediate pts) d = last pts d.
Proof.
  unfold sklearn.drop_intermediate.
  destruct pts as [|first rest]; [reflexivity|].
  destruct (2 <? length (first :: rest))%nat eqn:E; [|reflexivity].
  destruct rest as [|second rest']; [discriminate E|].
  rewrite (@last_cons_nonempty _ first d (second :: rest')) by discriminate.
  rewrite last_cons_nonempty.
  - apply keep_turns_last.
  - apply keep_turns_nonempty. discriminate.
Qed.

Lemma drop_intermediate_nonempty (pts : list (Z * Z)) :
  pts <> [] -> sklearn.drop_intermediate pts <> [].
Proof.
  unfold sklearn.drop_intermediate. destruct pts as [|first rest]; [congruence|].
  intros _. destruct (2 <? _)%nat; discriminate.
Qed.

Lemma curve_last (l : list (Q * bool)) :
  last (curve l) (0, 0) = (size l - positives l, positives l).
Proof.
  unfold curve. destruct l as [|p l'].
  - reflexivity.
  - rewrite last_cons_nonempty.
    + rewrite drop_intermediate_last, clf_points_last by discriminate. f_equal; lia.
    + apply drop_intermediate_nonempty, clf_points_nonempty. discriminate.
Qed.


Lemma last_map {A B} (f : A -> B) (l : list A) (d : A) :
  last (map f l) (f d) = f (last l d).
Proof.
  induction l as [|x l IH]; [reflexivity|].
  destruct l; [reflexivity|]. exact IH.
Qed.

End ROC.

Section UnitInterval.

Local Open Scope Q_scope.

Lemma Qdiv_0_r (a : Q) : a / 0 == 0.
Proof. unfold Qdiv. change (/ 0) with 0. ring. Qed.

Lemma ratio_in01 (a b : Z) :
  (0 <= a <= b)%Z -> in01 (inject_Z a / inject_Z b).
Proof.
  intros H. unfold in01.
  destruct (Z.eq_dec b 0) as [->|Hb].
  - change (inject_Z 0) with 0. rewrite Qdiv_0_r. lra.
  - assert (0 < inject_Z b) by (change 0 with (inject_Z 0); rewrite <- Zlt_Qlt; lia).
    assert (inject_Z a <= inject_Z b) by (rewrite <- Zle_Qle; lia).
    assert (0 <= inject_Z a) by (change 0 with (inject_Z 0); rewrite <- Zle_Qle; lia).
    split; [apply Qle_shift_div_l | apply Qle_shift_div_r]; lra.
Qed.

Lemma of_nat_ratio_in01 (a b : nat) :
  (a <= b)%nat -> in01 (sklearn.of_nat a / sklearn.of_nat b).
Proof. intros H. unfold sklearn.of_nat. apply ratio_in01. lia. Qed.





Lemma diff_cons2 (x0 x1 : Q) (xs : list Q) :
  np.diff (x0 :: x1 :: xs) = (x1 - x0) :: np.diff (x1 :: xs).
Proof. reflexivity. Qed.










(** ** scikit-learn: the target checks *)

Lemma check_targets_length (y_true y_pred : list Q) (t : sklearn.target_type) :
  sklearn.check_targets y_true y_pred = Ok t -> length y_true = length y_pred.
Proof.
  unfold sklearn.check_targets. destruct (length y_true =? length y_pred)%nat eqn:E.
  - intros _. apply Nat.eqb_eq. exact E.
  - discriminate.
Qed.

Lemma check_targets_binary (y_true y_pred : list Q) :
  sklearn.check_targets y_true y_pred = Ok sklearn.binary ->
  (length (sklearn.unique_labels y_true y_pred) <= 2)%nat.
Proof.
  unfold sklearn.check_targets. destruct (negb _); [discriminate|].
  destruct (sklearn.type_of_target y_true), (sklearn.type_of_target y_pred);
    try discriminate.
  destruct (2 <? _)%nat eqn:E; [discriminate|].
  intros _. apply Nat.ltb_ge in E. exact E.
Qed.

Lemma check_set_wise_labels_binary (y_true y_pred : list Q) :
  sklearn.check_set_wise_labels y_true y_pred = Ok tt ->
  sklearn.check_targets y_true y_pred = Ok sklearn.binary.
Proof.
  unfold sklearn.check_set_wise_labels. intros H.
  destruct (sklearn.check_targets y_true y_pred) as [[| |]|e]; simpl in H;
    try discriminate.
  reflexivity.
Qed.

(** ** scikit-learn: the four ratios *)







End UnitInterval.

(** ** scikit-learn: the confusion matrix *)

Lemma combine_labels (y_true y_pred : list Q) :
  Forall (fun s => InA Qeq (fst s) (sklearn.unique_labels y_true y_pred)
                   /\ InA Qeq (snd s) (sklearn.unique_labels y_true y_pred))
         (combine y_true y_pred).
Proof.
  apply Forall_forall. intros [t p] Hin. cbn [fst snd]. unfold sklearn.unique_labels.
  rewrite !unique_InA, !InA_app_iff.
  split; [left | right]; apply In_InA; try apply Q_Setoid.
  - eapply in_combine_l; eassumption.
  - eapply in_combine_r; eassumption.
Qed.

Lemma confusion_matrix_total (y_true y_pred : list Q) (cm : list (list nat)) :
  sklearn.confusion_matrix y_true y_pred = Ok cm ->
  cm = map (fun lt => map (cell (combine y_true y_pred) lt)
                          (sklearn.unique_labels y_true y_pred))
           (sklearn.unique_labels y_true y_pred)
  /\ table_total (combine y_true y_pred) (sklearn.unique_labels y_true y_pred)
     = length y_true.
Proof.
  unfold sklearn.confusion_matrix. intros H. rinv H. injection H as <-.
  split; [reflexivity|].
  rewrite table_total_length.
  - rewrite length_combine, (check_targets_length _ _ E). apply Nat.min_id.
  - apply unique_sorted.
  - apply combine_labels.
Qed.

(** ** [evaluate_model] *)

(** What a returning [evaluate_model] has computed. *)
Lemma evaluate_model_inv (env : Env) (model : XGBClassifier)
    (X_test : sklearn.matrix) (y_test : list Q) (m : Metrics) :
  evaluate_model env model X_test y_test = Ok m ->
  let y_pred := predict model X_test in
  let y_proba := predict_proba1 model X_test in
  sklearn.accuracy_score y_test y_pred = Ok (accuracy m)
  /\ sklearn.precision_score y_test y_pred 0 = Ok (precision m)
  /\ sklearn.recall_score y_test y_pred 0 = Ok (recall m)
  /\ sklearn.f1_score y_test y_pred 0 = Ok (f1 m)
  /\ sklearn.roc_auc_score y_test y_proba = Ok (auc_roc m)
  /\ sklearn.confusion_matrix y_test y_pred = Ok (confusion_matrix m)
  /\ (exists tp, cm_getitem (confusion_matrix m) 1 1 = Ok tp)
  /\ for_append (calibration_step y_proba y_pred y_test) buckets = Ok (calibration m)
  /\ for_append (trading_step y_proba y_pred y_test) thresholds = Ok (trading_simulation m).
Proof.
  intros H y_pred y_proba. unfold evaluate_model in H. cbv zeta in H.
  fold y_pred y_proba in H. rinv H. injection H as <-. cbn.
  repeat split; try assumption. eexists; eassumption.
Qed.

Lemma precision_score_binary (y_true y_pred : list Q) (p : Q) :
  sklearn.precision_score y_true y_pred 0 = Ok p ->
  sklearn.check_targets y_true y_pred = Ok sklearn.binary.
Proof.
  unfold sklearn.precision_score. intros H. rinv H.
  destruct v. apply check_set_wise_labels_binary. exact E.
Qed.

Lemma cm_getitem_rows (cm : list (list nat)) (i j n : nat) :
  cm_getitem cm i j = Ok n -> (i < length cm)%nat.
Proof.
  unfold cm_getitem, list_getitem. intros H.
  destruct (nth_error cm i) eqn:E; [|discriminate].
  apply nth_error_Some. congruence.
Qed.

(** C7: in every evaluated run the confusion matrix is 2 x 2 and its four
    entries, TN, FP, FN and TP, add up to the number of test samples. *)
Theorem confusion_matrix_sums_to_test_size
    (env : Env) (model : XGBClassifier) (X_test : sklearn.matrix)
    (y_test : list Q) (m : Metrics) :
  evaluate_model env model X_test y_test = Ok m ->
  exists tn fp fn tp : nat,
    confusion_matrix m = [[tn; fp]; [fn; tp]]
    /\ cm_getitem (confusion_matrix m) 1 1 = Ok tp
    /\ cm_getitem (confusion_matrix m) 0 1 = Ok fp
    /\ cm_getitem (confusion_matrix m) 0 0 = Ok tn
    /\ cm_getitem (confusion_matrix m) 1 0 = Ok fn
    /\ (tp + fp + tn + fn = length y_test)%nat.
Proof.
  intros Heval.
  apply evaluate_model_inv in Heval. cbv zeta in Heval.
  destruct Heval as (_ & Hp & _ & _ & _ & Hcm & [tp Htp] & _).
  apply precision_score_binary, check_targets_binary in Hp.
  apply confusion_matrix_total in Hcm. destruct Hcm as [Hcm Htotal].
  apply cm_getitem_rows in Htp. rewrite Hcm, length_map in Htp.
  set (y_pred := predict model X_test) in *.
  destruct (sklearn.unique_labels y_test y_pred) as [|l0 [|l1 [|l2 ls]]] eqn:El;
    simpl in Hp, Htp; try lia.
  unfold table_total in Htotal. simpl in Htotal.
  rewrite Hcm. simpl.
  do 4 eexists. repeat split. lia.
Qed.


(** ** The simulated-trading loop *)

Lemma trade_mask_subset (y_proba : list Q) (t1 t2 : Q) :
  (t1 <= t2)%Q -> mask_subset (trade_mask y_proba t2) (trade_mask y_proba t1).
Proof.
  intros Hle. unfold mask_subset, trade_mask.
  induction (prob_max y_proba) as [|v l IH]; simpl; constructor; [|exact IH].
  intros H. apply Qle_bool_iff in H. apply Qle_bool_iff.
  eapply Qle_trans; eassumption.
Qed.

Lemma count_true_subset (mask2 mask1 : list bool) :
  mask_subset mask2 mask1 -> (np.count_true mask2 <= np.count_true mask1)%nat.
Proof.
  unfold np.count_true.
  induction 1 as [|b2 b1 l2 l1 Hb _ IH]; simpl; [lia|].
  destruct b2; [rewrite (Hb eq_refl); simpl; lia | destruct b1; simpl; lia].
Qed.

Lemma correct_in_subset (mask2 mask1 : list bool) :
  mask_subset mask2 mask1 ->
  forall y_pred y_test : list Q,
    (correct_in mask2 y_pred y_test <= correct_in mask1 y_pred y_test)%nat.
Proof.
  unfold correct_in, np.count_where.
  induction 1 as [|b2 b1 l2 l1 Hb _ IH]; intros y_pred y_test.
  - destruct y_pred; simpl; lia.
  - destruct y_pred as [|p y_pred]; [simpl; lia|].
    destruct y_test as [|t y_test].
    + destruct b2, b1; simpl; try lia;
        rewrite ?combine_nil; simpl; lia.
    + specialize (IH y_pred y_test).
      destruct b2.
      * rewrite (Hb eq_refl). simpl. destruct (Qeq_bool p t); simpl; lia.
      * destruct b1; simpl; [destruct (Qeq_bool p t); simpl; lia | lia].
Qed.

Lemma Forall2_In_l {A B} (R : A -> B -> Prop) (l : list A) (rs : list B) (x : A) :
  Forall2 R l rs -> In x l -> exists r, In r rs /\ R x r.
Proof.
  induction 1 as [|a b l rs Hab _ IH]; intros Hin; [contradiction|].
  destruct Hin as [<-|Hin].
  - exists b. split; [left; reflexivity | exact Hab].
  - destruct (IH Hin) as (r & Hr & HR). exists r. split; [right; exact Hr | exact HR].
Qed.

Lemma Forall2_In_r {A B} (R : A -> B -> Prop) (l : list A) (rs : list B) (r : B) :
  Forall2 R l rs -> In r rs -> exists x, In x l /\ R x r.
Proof.
  induction 1 as [|a b l rs Hab _ IH]; intros Hin; [contradiction|].
  destruct Hin as [<-|Hin].
  - exists a. split; [left; reflexivity | exact Hab].
  - destruct (IH Hin) as (x & Hx & HR). exists x. split; [right; exact Hx | exact HR].
Qed.

(** The entries a returning loop has appended are those of its turns. *)
Lemma for_append_In {A B} (body : A -> result (list B)) (items : list A)
    (out : list B) (e : B) :
  for_append body items = Ok out ->
  (In e out <-> exists x step, In x items /\ body x = Ok step /\ In e step).
Proof.
  unfold for_append. intros H. rinv H. injection H as <-.
  apply mapM_Ok_inv in E. rewrite in_concat. split.
  - intros (step & Hstep & He).
    destruct (Forall2_In_r _ E Hstep) as (x & Hx & Hbody).
    exists x, step. auto.
  - intros (x & step & Hx & Hbody & He).
    destruct (Forall2_In_l _ E Hx) as (step' & Hstep' & Hbody').
    exists step'. split; [exact Hstep'|]. congruence.
Qed.

Lemma for_append_total {A B} (body : A -> result (list B)) (items : list A)
    (out : list B) (x : A) :
  for_append body items = Ok out -> In x items -> exists step, body x = Ok step.
Proof.
  unfold for_append. intros H Hx. rinv H.
  apply mapM_Ok_inv in E.
  destruct (Forall2_In_l _ E Hx) as (step & _ & Hbody). eauto.
Qed.

(** What one turn of the trading loop appends. *)
Lemma trading_step_inv (y_proba y_pred y_test : list Q) (t : Q)
    (step : list TradingEntry) (e : TradingEntry) :
  trading_step y_proba y_pred y_test t = Ok step -> In e step ->
  threshold e = t
  /\ trades e = np.count_true (trade_mask y_proba t)
  /\ wins e = correct_in (trade_mask y_proba t) y_pred y_test
  /\ (0 < trades e)%nat.
Proof.
  unfold trading_step. cbv zeta. intros H He.
  destruct (0 <? np.count_true (trade_mask y_proba t))%nat eqn:Epos.
  - rinv H. injection H as <-. destruct He as [<-|[]]. cbn.
    apply Nat.ltb_lt in Epos. auto.
  - injection H as <-. contradiction.
Qed.

Lemma trading_step_entry (y_proba y_pred y_test : list Q) (t : Q)
    (step : list TradingEntry) :
  trading_step y_proba y_pred y_test t = Ok step ->
  (0 < np.count_true (trade_mask y_proba t))%nat ->
  exists e, In e step.
Proof.
  unfold trading_step. cbv zeta. intros H Hpos.
  apply Nat.ltb_lt in Hpos. rewrite Hpos in H.
  rinv H. injection H as <-. eexists. left. reflexivity.
Qed.

(** C10: for thresholds t1 <= t2 of the simulated-trading loop, the
    samples selected at t2 are selected at t1, and an entry recorded at t2
    comes with an entry recorded at t1 whose trades and wins are at least
    as large. *)
Theorem trades_nonincreasing_in_threshold
    (env : Env) (model : XGBClassifier) (X_test : sklearn.matrix)
    (y_test : list Q) (m : Metrics) (t1 t2 : Q) :
  evaluate_model env model X_test y_test = Ok m ->
  In t1 thresholds -> In t2 thresholds -> (t1 <= t2)%Q ->
  mask_subset (trade_mask (predict_proba1 model X_test) t2)
              (trade_mask (predict_proba1 model X_test) t1)
  /\ (np.count_true (trade_mask (predict_proba1 model X_test) t2)
      <= np.count_true (trade_mask (predict_proba1 model X_test) t1))%nat
  /\ (correct_in (trade_mask (predict_proba1 model X_test) t2) (predict model X_test) y_test
      <= correct_in (trade_mask (predict_proba1 model X_test) t1) (predict model X_test) y_test)%nat
  /\ forall e2, In e2 (trading_simulation m) -> threshold e2 = t2 ->
       exists e1, In e1 (trading_simulation m) /\ threshold e1 = t1
                  /\ (trades e2 <= trades e1)%nat /\ (wins e2 <= wins e1)%nat.
Proof.
  intros Heval Ht1 Ht2 Hle.
  apply evaluate_model_inv in Heval. cbv zeta in Heval.
  destruct Heval as (_ & _ & _ & _ & _ & _ & _ & _ & Hloop).
  pose proof (trade_mask_subset (predict_proba1 model X_test) Hle) as Hsub.
  split; [exact Hsub|].
  split; [apply count_true_subset; exact Hsub|].
  split; [apply correct_in_subset; exact Hsub|].
  intros e2 He2 Hthr.
  apply (for_append_In _ _ e2 Hloop) in He2.
  destruct He2 as (t & step2 & _ & Hstep2 & Hin2).
  destruct (trading_step_inv _ _ _ _ e2 Hstep2 Hin2) as (Et & Etr2 & Ew2 & Hpos2).
  rewrite Hthr in Et. rewrite <- Et in Hstep2, Etr2, Ew2. clear Et t.
  destruct (for_append_total _ _ t1 Hloop Ht1) as (step1 & Hstep1).
  pose proof (count_true_subset Hsub) as Hcount.
  assert (Hpos1 : (0 < np.count_true (trade_mask (predict_proba1 model X_test) t1))%nat).
  { rewrite Etr2 in Hpos2. lia. }
  destruct (trading_step_entry _ _ _ _ Hstep1 Hpos1) as (e1 & Hin1).
  destruct (trading_step_inv _ _ _ _ e1 Hstep1 Hin1) as (Et1 & Etr1 & Ew1 & _).
  exists e1. split.
  - apply (for_append_In _ _ e1 Hloop). exists t1, step1. auto.
  - split; [exact Et1|]. rewrite Etr1, Etr2, Ew1, Ew2.
    split; [exact Hcount | apply correct_in_subset; exact Hsub].
Qed.

(** ** The class weight of [train_xgboost] *)

Section ClassWeight.

Local Open Scope Q_scope.

Lemma of_nat_S (n : nat) : sklearn.of_nat (S n) == 1 + sklearn.of_nat n.
Proof.
  unfold sklearn.of_nat. rewrite Nat2Z.inj_succ, <- Z.add_1_l, inject_Z_plus.
  reflexivity.
Qed.

Lemma of_nat_pos (n : nat) : (0 < n)%nat -> 0 < sklearn.of_nat n.
Proof.
  intros H. unfold sklearn.of_nat. change 0 with (inject_Z 0).
  rewrite <- Zlt_Qlt. lia.
Qed.

Lemma len_cons (x : Q) (y : list Q) : np.len (x :: y) == 1 + np.len y.
Proof. apply of_nat_S. Qed.

(** On 0/1 labels the sum counts the ones, and the rest are the zeros. *)
Lemma binary_sum (y : list Q) :
  binary_labels y ->
  np.sum y == sklearn.of_nat (count_label 1 y)
  /\ np.len y - np.sum y == sklearn.of_nat (count_label 0 y).
Proof.
  induction 1 as [|x y Hx _ [IH1 IH0]].
  - split; reflexivity.
  - unfold count_label in *. cbn [np.sum filter]. rewrite len_cons.
    destruct Hx as [Hx|Hx].
    + assert (E1 : Qeq_bool x 1 = false).
      { destruct (Qeq_bool x 1) eqn:E; [|reflexivity].
        apply Qeq_bool_eq in E. rewrite Hx in E. discriminate E. }
      rewrite E1, (Qeq_eq_bool _ _ Hx). cbn [length]. rewrite of_nat_S, Hx.
      split; [rewrite <- IH1 | rewrite <- IH0]; ring.
    + assert (E0 : Qeq_bool x 0 = false).
      { destruct (Qeq_bool x 0) eqn:E; [|reflexivity].
        apply Qeq_bool_eq in E. rewrite Hx in E. discriminate E. }
      rewrite E0, (Qeq_eq_bool _ _ Hx). cbn [length]. rewrite of_nat_S, Hx.
      split; [rewrite <- IH1 | rewrite <- IH0]; ring.
Qed.

(** The guarded quotient never meets a zero divisor. *)
Lemma class_weight_returns (y_train : list Q) :
  exists w, class_weight y_train = Ok w.
Proof.
  unfold class_weight, true_divide. cbv zeta.
  destruct (np.Qlt_bool 0 (np.sum y_train)) eqn:E; [|eauto].
  unfold np.Qlt_bool in E. apply negb_true_iff in E.
  destruct (Qeq_bool (np.sum y_train) 0) eqn:E0; [|eauto].
  apply Qeq_bool_eq in E0.
  assert (Hle : Qle_bool (np.sum y_train) 0 = true) by (apply Qle_bool_iff; lra).
  congruence.
Qed.

End ClassWeight.

(** C9: the class weight is computed without a division by zero; on 0/1
    labels it is 1 when no label is positive and otherwise the number of
    negative labels divided by the number of positive labels; it is the
    [scale_pos_weight] the classifier is fitted with. *)
Theorem class_weight_never_divides_by_zero
    (env : Env) (X_train X_test : sklearn.matrix) (y_train y_test : list Q) :
  exists w : Q,
    class_weight y_train = Ok w
    /\ In (EvXgbFit (classifier_params w) X_train y_train
                    [(X_train, y_train); (X_test, y_test)])
          (fst (train_xgboost env X_train y_train X_test y_test))
    /\ (binary_labels y_train ->
        (count_label 1 y_train = 0%nat -> w = 1%Q)
        /\ (count_label 1 y_train <> 0%nat ->
            (w == sklearn.of_nat (count_label 0 y_train)
                  / sklearn.of_nat (count_label 1 y_train))%Q)).
Proof.
  destruct (class_weight_returns y_train) as [w Hw].
  exists w. split; [exact Hw|]. split.
  - unfold train_xgboost. rewrite Hw. cbn.
    destruct (xgb_fit env _ _ _ _) as [model|e]; cbn.
    + destruct (get_best_iteration model); cbn; right; left; reflexivity.
    + right; left; reflexivity.
  - intros Hbin. destruct (binary_sum Hbin) as [Hpos Hneg].
    unfold class_weight, true_divide in Hw. cbv zeta in Hw.
    destruct (np.Qlt_bool 0 (np.sum y_train)) eqn:E.
    + unfold np.Qlt_bool in E. apply negb_true_iff in E.
      assert (H0 : (0 < np.sum y_train)%Q).
      { apply Qnot_le_lt. intros Hle. apply Qle_bool_iff in Hle. congruence. }
      destruct (Qeq_bool (np.sum y_train) 0); [discriminate|].
      injection Hw as <-. split.
      * intros Hz. rewrite Hpos, Hz in H0. exfalso. revert H0. apply Qlt_irrefl.
      * intros _. rewrite Hneg, Hpos. reflexivity.
    + injection Hw as <-. split; [reflexivity|].
      intros Hnz. exfalso.
      unfold np.Qlt_bool in E. apply negb_false_iff, Qle_bool_iff in E.
      rewrite Hpos in E.
      assert (0 < sklearn.of_nat (count_label 1 y_train))%Q by (apply of_nat_pos; lia).
      lra.
Qed.

(** ** Effects: computations that return *)

Lemma bind_Returned_inv {A B} (m : M A) (f : A -> M B) (t : list event) (b : B) :
  bind m f = (t, Returned b) ->
  exists t1 a t2, m = (t1, Returned a) /\ f a = (t2, Returned b) /\ t = t1 ++ t2.
Proof.
  destruct m as [t1 [a|e|c]]; simpl; intros H; try discriminate.
  destruct (f a) as [t2 o] eqn:Ef. injection H as <- ->.
  exists t1, a, t2. auto.
Qed.

Lemma lift_Returned_inv {A} (r : result A) (t : list event) (a : A) :
  lift r = (t, Returned a) -> r = Ok a /\ t = [].
Proof.
  destruct r as [a'|e]; simpl; intros H; [|discriminate].
  injection H as <- <-. auto.
Qed.

Lemma emit_Returned_inv (ev : event) (t : list event) (u : unit) :
  emit ev = (t, Returned u) -> t = [ev].
Proof. intros H. injection H as <-. reflexivity. Qed.

Lemma in_stage_Returned_inv {A} (s : stage) (body : M A) (t : list event) (a : A) :
  in_stage s body = (t, Returned a) ->
  exists tb, body = (tb, Returned a) /\ t = EvBegin s :: tb ++ [EvEnd s].
Proof.
  unfold in_stage. destruct body as [tb [a'|e|c]]; simpl; intros H; try discriminate.
  injection H as <- <-. exists tb. auto.
Qed.

(** Inversion of a chain of [bind]s that returned: the pieces are left in
    the context, the trace is rewritten as their concatenation. *)
Ltac minv H :=
  repeat match type of H with
  | bind ?m ?f = (?t, Returned ?b) =>
      let t1 := fresh "t" in
      let a := fresh "v" in
      let t2 := fresh "t" in
      let Hm := fresh "Hm" in
      let Ht := fresh "Et" in
      let H' := fresh "H" in
      destruct (bind_Returned_inv m f H) as (t1 & a & t2 & Hm & H' & Ht);
      clear H; rename H' into H; cbv beta in H; subst t
  | (match ?p with pair _ _ => _ end) = _ => destruct p
  end.

Ltac pieces :=
  repeat match goal with
  | H : lift _ = (_, Returned _) |- _ =>
      apply lift_Returned_inv in H; destruct H as [H ->]
  | H : emit _ = (_, Returned _) |- _ =>
      apply emit_Returned_inv in H; subst
  | H : print _ = (_, Returned _) |- _ =>
      apply emit_Returned_inv in H; subst
  | H : ret _ = (_, Returned _) |- _ =>
      injection H as <- <-
  | H : in_stage _ _ = (_, Returned _) |- _ =>
      apply in_stage_Returned_inv in H; destruct H as (? & H & ->)
  end.

(** *** The stages of a run that returned *)

Lemma load_dataset_inv (env : Env) (filepath : string) (t : list event)
    (X_train : sklearn.matrix) (y_train : list Q)
    (X_test : sklearn.matrix) (y_test : list Q) (data : json) :
  load_dataset env filepath = (t, Returned (X_train, y_train, X_test, y_test, data)) ->
  t = [EvPrint (MsgLoading filepath); EvOpenRead filepath]
  /\ (exists text, read_text env filepath = Ok text /\ json_loads env text = Ok data)
  /\ rbind (getitem data "trainFeatures") np_array2 = Ok X_train
  /\ rbind (getitem data "trainLabels") np_array1 = Ok y_train
  /\ rbind (getitem data "testFeatures") np_array2 = Ok X_test
  /\ rbind (getitem data "testLabels") np_array1 = Ok y_test.
Proof.
  unfold load_dataset. intros H. minv H. pieces. subst.
  repeat split; try assumption. eauto.
Qed.

Lemma train_xgboost_inv (env : Env) (X_train : sklearn.matrix) (y_train : list Q)
    (X_test : sklearn.matrix) (y_test : list Q) (t : list event) (model : XGBClassifier) :
  train_xgboost env X_train y_train X_test y_test = (t, Returned model) ->
  exists w n,
    class_weight y_train = Ok w
    /\ xgb_fit env (classifier_params w) X_train y_train
               [(X_train, y_train); (X_test, y_test)] = Ok model
    /\ best_iteration model = Some n
    /\ t = [EvPrint MsgTraining;
            EvXgbFit (classifier_params w) X_train y_train
                     [(X_train, y_train); (X_test, y_test)];
            EvPrint (MsgBestIteration n)].
Proof.
  unfold train_xgboost. intros H. minv H. pieces. subst.
  match goal with
  | Hb : get_best_iteration ?mdl = Ok _ |- _ =>
      unfold get_best_iteration in Hb;
      destruct (best_iteration mdl) eqn:Eb; [injection Hb as ->|discriminate]
  end.
  do 2 eexists. repeat split; eauto.
Qed.

Lemma write_json_of_inv (env : Env) (path : string) (obj : result json)
    (t : list event) (u : unit) :
  write_json_of env path obj = (t, Returned u) ->
  exists content, obj = Ok content /\ open_write env path = Ok tt
                  /\ t = [EvWrite path content].
Proof.
  unfold write_json_of. intros H. minv H. pieces. subst.
  match goal with Hw : open_write _ _ = Ok ?x |- _ => destruct x end.
  eexists. repeat split; eauto.
Qed.

Lemma export_xgboost_to_json_inv (env : Env) (model : XGBClassifier)
    (output_path : string) (t : list event) (model_export : json) :
  export_xgboost_to_json env model output_path = (t, Returned model_export) ->
  exists trees,
    mapM (json_loads env) (get_dump model) = Ok trees
    /\ model_export = JObj [
         ("type", JStr "xgboost");
         ("version", JInt 1);
         ("num_trees", JInt (Z.of_nat (length trees)));
         ("num_features", JInt (Z.of_nat (n_features_in_ model)));
         ("base_score", JFloat (base_score_or_default (get_params model)));
         ("learning_rate", JFloat (learning_rate (get_params model)));
         ("trees", JArr trees);
         ("feature_names", JArr (map JStr FEATURE_NAMES));
         ("exported_at", JStr (now_isoformat env 0))]
    /\ t = [EvWrite output_path model_export; EvPrint (MsgModelExported output_path)].
Proof.
  unfold export_xgboost_to_json, write_json. cbv zeta. intros H. minv H. pieces.
  match goal with Hw : write_json_of _ _ _ = _ |- _ =>
    apply write_json_of_inv in Hw; destruct Hw as (content & Hc & _ & ->) end.
  injection Hc as <-. subst. eexists. repeat split; eauto.
Qed.

Lemma norm_browser_norm_data (scaler : sklearn.StandardScaler) :
  norm_browser (norm_data scaler) = Ok (norm_browser_data scaler).
Proof. reflexivity. Qed.

Lemma save_artifacts_inv (env : Env) (metrics : Metrics) (cv_scores : list Q)
    (X_train : sklearn.matrix) (y_train y_test : list Q)
    (scaler : sklearn.StandardScaler) (model : XGBClassifier)
    (t : list event) (u : unit) :
  save_artifacts env metrics cv_scores X_train y_train y_test scaler model
  = (t, Returned u) ->
  exists trees n,
    mapM (json_loads env) (get_dump model) = Ok trees
    /\ best_iteration model = Some n
    /\ t = export_trace env metrics cv_scores X_train y_train y_test scaler model trees n.
Proof.
  unfold save_artifacts, write_json. cbv zeta. intros H. minv H. pieces.
  repeat match goal with
  | Hw : write_json_of _ _ _ = _ |- _ =>
      apply write_json_of_inv in Hw; destruct Hw as (? & Hw & _ & ->)
  | He : export_xgboost_to_json _ _ _ = _ |- _ =>
      apply export_xgboost_to_json_inv in He; destruct He as (trees & Htrees & -> & ->)
  end.
  rewrite norm_browser_norm_data in *.
  repeat match goal with Hc : Ok _ = Ok _ |- _ => injection Hc as <- end.
  match goal with
  | Hb : rbind (get_best_iteration ?mdl) _ = Ok _ |- _ =>
      unfold get_best_iteration in Hb;
      destruct (best_iteration mdl) as [n|] eqn:Eb; [|discriminate];
      cbn in Hb; injection Hb as <-
  end.
  exists trees, n. repeat split; auto.
Qed.

(** *** A run that returned: its values and its trace *)

Lemma main_returns_inv (env : Env) (tr : list event) (u : unit) :
  main env = (tr, Returned u) ->
  exists r, completed env r /\ tr = run_trace env r.
Proof.
  unfold main. intros H. minv H.
  destruct (length (argv env) <? 2)%nat; [discriminate|].
  pieces.
  repeat match goal with
  | Hl : load_dataset _ _ = _ |- _ =>
      apply load_dataset_inv in Hl; destruct Hl as (-> & Hread & Hx & Hy & Hxt & Hyt)
  | Ht : train_xgboost _ _ _ _ _ = _ |- _ =>
      apply train_xgboost_inv in Ht; destruct Ht as (w & n & Hw & Hfit & Hbest & ->)
  | Hs : save_artifacts _ _ _ _ _ _ _ _ = _ |- _ =>
      apply save_artifacts_inv in Hs; destruct Hs as (trees & n' & Htrees & Hbest' & ->)
  end.
  assert (n' = n) by congruence. subst n'.
  match goal with
  | Hcv : bind (emit (EvCrossValScore _ _ _ _)) _ = _ |- _ => minv Hcv; pieces
  end.
  match goal with
  | Hf : list_getitem _ 1 = Ok ?file,
    Hd : rbind (getitem ?data "trainFeatures") _ = Ok _,
    Hn : normalize_data _ ?Xtr ?Xte = Ok (?Xn, ?Xtn, ?sc),
    He : evaluate_model _ ?mdl _ ?yte = Ok ?met,
    Hc : cross_val_score _ _ _ ?ytr _ = Ok ?cv |- _ =>
      exists {| run_file := file; run_data := data; run_X_train := Xtr;
                run_y_train := ytr; run_X_test := Xte; run_y_test := yte;
                run_X_train_norm := Xn; run_X_test_norm := Xtn; run_scaler := sc;
                run_weight := w; run_model := mdl; run_rounds := n;
                run_metrics := met; run_cv_scores := cv; run_trees := trees |}
  end.
  unfold completed, run_trace; cbn. repeat split; try assumption.
Qed.

Lemma import_guard_ok (env : Env) :
  import_module env xgboost = Ok tt ->
  import_module env sklearn_metrics = Ok tt ->
  import_module env sklearn_model_selection = Ok tt ->
  import_module env sklearn_preprocessing = Ok tt ->
  import_guard env = ([], Returned tt).
Proof.
  intros H1 H2 H3 H4. unfold import_guard. rewrite H1, H2, H3, H4. reflexivity.
Qed.

Lemma program_imports_ok (env : Env) :
  imports_ok env -> program env = main env.
Proof.
  intros (H0 & H1 & H2 & H3 & H4). unfold program.
  rewrite H0, (import_guard_ok env H1 H2 H3 H4). cbn.
  destruct (main env) as [t o]. reflexivity.
Qed.

Lemma import_guard_Returned_inv (env : Env) (t : list event) (u : unit) :
  import_guard env = (t, Returned u) ->
  t = []
  /\ import_module env xgboost = Ok tt
  /\ import_module env sklearn_metrics = Ok tt
  /\ import_module env sklearn_model_selection = Ok tt
  /\ import_module env sklearn_preprocessing = Ok tt.
Proof.
  unfold import_guard.
  destruct (import_module env xgboost) as [[]|e1]; cbn;
    [|destruct (is_ImportError e1); discriminate].
  destruct (import_module env sklearn_metrics) as [[]|e2]; cbn;
    [|destruct (is_ImportError e2); discriminate].
  destruct (import_module env sklearn_model_selection) as [[]|e3]; cbn;
    [|destruct (is_ImportError e3); discriminate].
  destruct (import_module env sklearn_preprocessing) as [[]|e4]; cbn;
    [|destruct (is_ImportError e4); discriminate].
  intros H. injection H as <-. auto.
Qed.

Lemma program_returns_inv (env : Env) (tr : list event) (u : unit) :
  program env = (tr, Returned u) ->
  imports_ok env /\ exists r, completed env r /\ tr = run_trace env r.
Proof.
  unfold program. intros H. minv H. pieces.
  match goal with Hg : import_guard _ = _ |- _ =>
    apply import_guard_Returned_inv in Hg; destruct Hg as (-> & H1 & H2 & H3 & H4) end.
  match goal with Hn : import_module _ numpy = Ok ?x |- _ => destruct x end.
  split; [unfold imports_ok; auto|].
  apply main_returns_inv in H. exact H.
Qed.

(** ** The order of the pipeline *)

(** C4: a run that reaches its end has gone through load, normalize, fit
    (with the test split as the last evaluation set and early stopping),
    evaluate, 5-fold cross-validation on the training split and export, in
    this order and once each, and every artifact is written after
    evaluation and cross-validation have ended. *)
Theorem pipeline_runs_in_order (env : Env) (tr : list event) (u : unit) :
  program env = (tr, Returned u) ->
  filter bracket tr
  = [EvBegin Load; EvEnd Load;
     EvBegin Normalize; EvEnd Normalize;
     EvBegin Fit; EvEnd Fit;
     EvBegin Evaluate; EvEnd Evaluate;
     EvBegin CrossValidate; EvEnd CrossValidate;
     EvBegin Export; EvEnd Export]
  /\ exists r pre post,
       completed env r
       /\ tr = run_trace env r
       /\ In (EvOpenRead (run_file r)) tr
       /\ In (EvXgbFit (classifier_params (run_weight r))
                       (run_X_train_norm r) (run_y_train r)
                       [(run_X_train_norm r, run_y_train r);
                        (run_X_test_norm r, run_y_test r)]) tr
       /\ early_stopping_rounds (classifier_params (run_weight r)) = Some 30%nat
       /\ In (EvCrossValScore (cv_params (run_model r))
                              (run_X_train_norm r) (run_y_train r) 5) tr
       /\ tr = pre ++ EvBegin Export :: post
       /\ In (EvEnd Evaluate) pre
       /\ In (EvEnd CrossValidate) pre
       /\ existsb is_write pre = false
       /\ map (fun ev => match ev with EvWrite path _ => path | _ => "" end)
              (filter is_write post)
          = [model_path env; norm_path env; norm_browser_path env; report_path env].
Proof.
  intros H. apply program_returns_inv in H. destruct H as (_ & r & Hr & ->).
  split; [reflexivity|].
  exists r.
  eexists. eexists.
  split; [exact Hr|]. split; [reflexivity|].
  split; [cbn; tauto|]. split; [cbn; tauto|]. split; [reflexivity|].
  split; [cbn; tauto|].
  split.
  - unfold run_trace.
    match goal with |- ?l ++ _ = _ =>
      replace l with (removelast l ++ [EvBegin Export]) by reflexivity end.
    rewrite <- app_assoc. reflexivity.
  - cbn. repeat split; tauto.
Qed.

(** ** The exported model *)

(** C5: the object written to xgboost_model.json holds the parsed tree
    dump of the fitted model under 'trees', a base score under
    'base_score', the learning rate under 'learning_rate', the 28 feature
    names under 'feature_names', and under 'num_trees' the length of
    'trees'. *)
Theorem model_export_contents (env : Env) (tr : list event) (u : unit) :
  program env = (tr, Returned u) ->
  exists (r : Run) (model_export : json) (trees : list json),
    completed env r
    /\ model_path env
       = path_join (path_join (script_dir env) "models") "xgboost_model.json"
    /\ In (EvWrite (model_path env) model_export) tr
    /\ mapM (json_loads env) (get_dump (run_model r)) = Ok trees
    /\ field "trees" model_export = Some (JArr trees)
    /\ field "num_trees" model_export = Some (JInt (Z.of_nat (length trees)))
    /\ field "base_score" model_export
       = Some (JFloat (base_score_or_default (get_params (run_model r))))
    /\ field "learning_rate" model_export
       = Some (JFloat (learning_rate (get_params (run_model r))))
    /\ field "feature_names" model_export = Some (JArr (map JStr FEATURE_NAMES))
    /\ length FEATURE_NAMES = 28%nat.
Proof.
  intros H. apply program_returns_inv in H. destruct H as (_ & r & Hr & ->).
  exists r, (model_export_data env (run_model r) (run_trees r)), (run_trees r).
  split; [exact Hr|]. split; [reflexivity|].
  split; [cbn; tauto|].
  split; [apply Hr|].
  repeat split.
Qed.

(** ** The normalization artifacts *)




Lemma length_columns (X : sklearn.matrix) :
  length (sklearn.columns X) = sklearn.n_features X.
Proof. unfold sklearn.columns. rewrite length_map, length_seq. reflexivity. Qed.


(** ** The two handled conditions *)

Lemma import_guard_fails (env : Env) (e : exn) :
  guarded_import_fails env e ->
  import_guard env
  = if is_ImportError e
    then ([EvRaised e; EvPrint (MsgMissingPackage e); EvPrint MsgInstallHint], Exited 1%Z)
    else ([EvRaised e], Raised e).
Proof.
  unfold import_guard.
  intros [H1|[(H1 & H2)|[(H1 & H2 & H3)|(H1 & H2 & H3 & H4)]]];
    rewrite ?H1, ?H2, ?H3, ?H4; cbn; destruct (is_ImportError e); reflexivity.
Qed.

(** C2: without a positional argument the program prints the usage line
    and exits with status 1; when xgboost or a scikit-learn module fails to
    import it prints the missing-package lines and exits with status 1; in
    both cases no file has been opened, created or written. *)
Theorem exits_with_status_1_before_any_file (env : Env) :
  (imports_ok env -> (length (argv env) < 2)%nat ->
   program env = ([EvPrint MsgUsage], Exited 1%Z)
   /\ exit_status (snd (program env)) = 1%Z
   /\ existsb touches_files (fst (program env)) = false)
  /\ (forall e,
        import_module env numpy = Ok tt ->
        guarded_import_fails env e -> is_ImportError e = true ->
        program env
        = ([EvRaised e; EvPrint (MsgMissingPackage e); EvPrint MsgInstallHint],
           Exited 1%Z)
        /\ exit_status (snd (program env)) = 1%Z
        /\ existsb touches_files (fst (program env)) = false).
Proof.
  split.
  - intros Hok Hlen.
    assert (E : program env = ([EvPrint MsgUsage], Exited 1%Z)).
    { rewrite (program_imports_ok Hok). unfold main.
      apply Nat.ltb_lt in Hlen. rewrite Hlen. reflexivity. }
    rewrite E. auto.
  - intros e Hnumpy Hfail Himp.
    assert (E : program env
                = ([EvRaised e; EvPrint (MsgMissingPackage e); EvPrint MsgInstallHint],
                   Exited 1%Z)).
    { unfold program. rewrite Hnumpy, (import_guard_fails Hfail), Himp. reflexivity. }
    rewrite E. auto.
Qed.

(** ** Exceptions *)

Lemma no_raise_nil : no_raise [].
Proof. intros e H. inversion H. Qed.

Lemma no_raise_app (t1 t2 : list event) :
  no_raise t1 -> no_raise t2 -> no_raise (t1 ++ t2).
Proof.
  intros H1 H2 e Hin. apply in_app_or in Hin. destruct Hin; [eapply H1 | eapply H2]; eassumption.
Qed.

Lemma no_raise_single (ev : event) : is_raised ev = false -> no_raise [ev].
Proof. intros H e [E|[]]. subst ev. discriminate H. Qed.

Lemma propagates_ret {A} (a : A) : propagates (ret a).
Proof. apply no_raise_nil. Qed.

Lemma propagates_emit (ev : event) : is_raised ev = false -> propagates (emit ev).
Proof. apply no_raise_single. Qed.

Lemma propagates_print (msg : message) : propagates (print msg).
Proof. apply propagates_emit. reflexivity. Qed.

Lemma propagates_raise {A} (e : exn) : propagates (@raise A e).
Proof. exists []. split; [reflexivity | apply no_raise_nil]. Qed.

Lemma propagates_sys_exit {A} (c : Z) : propagates (@sys_exit A c).
Proof. apply no_raise_nil. Qed.

Lemma propagates_lift {A} (r : result A) : propagates (lift r).
Proof. destruct r; [apply propagates_ret | apply propagates_raise]. Qed.

Lemma propagates_bind {A B} (m : M A) (f : A -> M B) :
  propagates m -> (forall a, propagates (f a)) -> propagates (bind m f).
Proof.
  destruct m as [t1 [a|e|c]]; simpl; intros Hm Hf; try exact Hm.
  specialize (Hf a). destruct (f a) as [t2 [b|e|c]]; simpl in *.
  - apply no_raise_app; assumption.
  - destruct Hf as (pre & -> & Hpre). exists (t1 ++ pre).
    split; [apply app_assoc | apply no_raise_app; assumption].
  - apply no_raise_app; assumption.
Qed.

Lemma propagates_in_stage {A} (s : stage) (body : M A) :
  propagates body -> propagates (in_stage s body).
Proof.
  intros H. unfold in_stage.
  apply propagates_bind; [apply propagates_emit; reflexivity|]. intros _.
  apply propagates_bind; [exact H|]. intros a.
  apply propagates_bind; [apply propagates_emit; reflexivity|]. intros _.
  apply propagates_ret.
Qed.

Create HintDb propagate.
#[local] Hint Resolve propagates_ret propagates_print propagates_raise
  propagates_sys_exit propagates_lift propagates_in_stage : propagate.

(** One step through a computation: a [bind], a pattern on a tuple, a
    conditional, or a primitive. *)
Ltac propagate :=
  repeat first
    [ progress auto with propagate
    | apply propagates_emit; reflexivity
    | apply propagates_bind
    | intros [[[[? ?] ?] ?] ?]
    | intros [[? ?] ?]
    | intro
    | match goal with |- propagates (if ?c then _ else _) => destruct c end ].

Lemma propagates_load_dataset (env : Env) (filepath : string) :
  propagates (load_dataset env filepath).
Proof. unfold load_dataset. propagate. Qed.

Lemma propagates_train_xgboost (env : Env) (X_train : sklearn.matrix) (y_train : list Q)
    (X_test : sklearn.matrix) (y_test : list Q) :
  propagates (train_xgboost env X_train y_train X_test y_test).
Proof. unfold train_xgboost. propagate. Qed.

Lemma propagates_write_json_of (env : Env) (path : string) (obj : result json) :
  propagates (write_json_of env path obj).
Proof. unfold write_json_of. propagate. Qed.

Lemma propagates_export (env : Env) (model : XGBClassifier) (output_path : string) :
  propagates (export_xgboost_to_json env model output_path).
Proof.
  unfold export_xgboost_to_json, write_json. cbv zeta.
  pose proof (@propagates_write_json_of env). propagate.
Qed.

Lemma propagates_save_artifacts (env : Env) (metrics : Metrics) (cv_scores : list Q)
    (X_train : sklearn.matrix) (y_train y_test : list Q)
    (scaler : sklearn.StandardScaler) (model : XGBClassifier) :
  propagates (save_artifacts env metrics cv_scores X_train y_train y_test scaler model).
Proof.
  unfold save_artifacts, write_json. cbv zeta.
  pose proof (@propagates_write_json_of env). pose proof (@propagates_export env).
  propagate.
Qed.

Lemma propagates_main (env : Env) : propagates (main env).
Proof.
  unfold main.
  pose proof (@propagates_load_dataset env). pose proof (@propagates_train_xgboost env).
  pose proof (@propagates_save_artifacts env).
  propagate.
Qed.

Lemma list_getitem_length {A} (l : list A) (i : nat) (x : A) :
  list_getitem l i = Ok x -> (i < length l)%nat.
Proof.
  unfold list_getitem. destruct (nth_error l i) eqn:E; [|discriminate].
  intros _. apply nth_error_Some. congruence.
Qed.

Lemma bind_ret_l {A B} (a : A) (f : A -> M B) : bind (ret a) f = f a.
Proof. unfold bind, ret. destruct (f a). reflexivity. Qed.

(** [main] reaches its banner once the command line has been read. *)
Ltac main_ready Hfile :=
  unfold main;
  let Hlen := fresh "Hlen" in
  pose proof (list_getitem_length _ _ Hfile) as Hlen;
  apply Nat.ltb_ge in Hlen; rewrite Hlen, Hfile; cbv iota;
  change (lift (Ok ?f)) with (ret f); rewrite !bind_ret_l.

Lemma main_load_fails (env : Env) (file : string) (t : list event) (e : exn) :
  ready env file ->
  load_dataset env file = (t, Raised e) ->
  program env = (EvPrint MsgBanner :: EvBegin Load :: t, Raised e).
Proof.
  intros [Hok Hfile] Hload. rewrite (program_imports_ok Hok). main_ready Hfile.
  unfold in_stage. rewrite Hload. reflexivity.
Qed.

Lemma main_normalize_fails (env : Env) (file : string) (t : list event) (e : exn)
    (X_train : sklearn.matrix) (y_train : list Q)
    (X_test : sklearn.matrix) (y_test : list Q) (data : json) :
  ready env file ->
  load_dataset env file = (t, Returned (X_train, y_train, X_test, y_test, data)) ->
  normalize_data env X_train X_test = Raise e ->
  program env
  = (EvPrint MsgBanner :: EvBegin Load :: t
       ++ [EvEnd Load; EvPrint MsgNormalizing; EvBegin Normalize; EvRaised e],
     Raised e).
Proof.
  intros [Hok Hfile] Hload Hnorm. rewrite (program_imports_ok Hok). main_ready Hfile.
  unfold in_stage. rewrite Hload. cbn. rewrite Hnorm. cbn.
  rewrite <- app_assoc. reflexivity.
Qed.

Lemma getitem_missing (data : json) (key : string) :
  field key data = None -> exists e, getitem data key = Raise e.
Proof.
  unfold field, getitem. destruct data; try (intros _; eexists; reflexivity).
  intros ->. eexists; reflexivity.
Qed.

Lemma filter_bracket_load (t : list event) :
  filter bracket t = [] ->
  filter bracket (EvPrint MsgBanner :: EvBegin Load :: t) = [EvBegin Load].
Proof. intros H. cbn. rewrite H. reflexivity. Qed.

(** What [load_dataset] does after the file has been read and parsed. *)
Lemma load_dataset_parsed (env : Env) (file text : string) (data : json) :
  read_text env file = Ok text ->
  json_loads env text = Ok data ->
  load_dataset env file
  = (let arrays :=
       (X_train <- rbind (getitem data "trainFeatures") np_array2 ;;
        y_train <- rbind (getitem data "trainLabels") np_array1 ;;
        X_test <- rbind (getitem data "testFeatures") np_array2 ;;
        y_test <- rbind (getitem data "testLabels") np_array1 ;;
        Ok (X_train, y_train, X_test, y_test, data))%result in
     match arrays with
     | Ok v => ([EvPrint (MsgLoading file); EvOpenRead file], Returned v)
     | Raise e => ([EvPrint (MsgLoading file); EvOpenRead file; EvRaised e], Raised e)
     end).
Proof.
  intros Hread Hload. unfold load_dataset. rewrite Hread. cbn. rewrite Hload. cbn.
  destruct (rbind (getitem data "trainFeatures") np_array2); cbn; [|reflexivity].
  destruct (rbind (getitem data "trainLabels") np_array1); cbn; [|reflexivity].
  destruct (rbind (getitem data "testFeatures") np_array2); cbn; [|reflexivity].
  destruct (rbind (getitem data "testLabels") np_array1); cbn; reflexivity.
Qed.

Lemma normalize_data_shape_mismatch (env : Env) (X_train X_test : sklearn.matrix) :
  sklearn.n_features X_test <> sklearn.n_features X_train ->
  exists msg, normalize_data env X_train X_test = Raise (ValueError msg).
Proof.
  intros Hne. unfold normalize_data, sklearn.fit_transform, sklearn.fit.
  destruct (sklearn.n_features X_train =? 0)%nat; [eexists; reflexivity|].
  cbn. unfold sklearn.transform at 1. cbn. rewrite Nat.eqb_refl. cbn.
  unfold sklearn.transform. cbn.
  apply Nat.eqb_neq in Hne. rewrite Hne. cbn. eexists; reflexivity.
Qed.

Lemma propagates_program (env : Env) :
  propagates (program env)
  \/ exists e, is_ImportError e = true /\ guarded_import_fails env e
               /\ program env
                  = ([EvRaised e; EvPrint (MsgMissingPackage e); EvPrint MsgInstallHint],
                     Exited 1%Z).
Proof.
  unfold program.
  destruct (import_module env numpy) as [[]|e0] eqn:E0;
    [|left; cbn; apply (@propagates_raise unit)].
  assert (Hcases : (import_module env xgboost = Ok tt
                    /\ import_module env sklearn_metrics = Ok tt
                    /\ import_module env sklearn_model_selection = Ok tt
                    /\ import_module env sklearn_preprocessing = Ok tt)
                   \/ exists e, guarded_import_fails env e).
  { unfold guarded_import_fails.
    destruct (import_module env xgboost) as [[]|e1]; [|right; eauto].
    destruct (import_module env sklearn_metrics) as [[]|e2]; [|right; eauto 6].
    destruct (import_module env sklearn_model_selection) as [[]|e3]; [|right; eauto 8].
    destruct (import_module env sklearn_preprocessing) as [[]|e4]; [|right; eauto 10].
    left. auto. }
  destruct Hcases as [(H1 & H2 & H3 & H4)|[e He]].
  - left. rewrite (import_guard_ok env H1 H2 H3 H4). cbn.
    pose proof (propagates_main env) as Hm. destruct (main env) as [t o]. exact Hm.
  - rewrite (import_guard_fails He). destruct (is_ImportError e) eqn:Ei.
    + right. exists e. auto.
    + left. cbn. apply (@propagates_raise unit).
Qed.

(** C3: an exception raised anywhere in a run is the last thing the run
    does and leaves the program uncaught, unless it is the ImportError of
    the guarded import block; in particular a file that cannot be read, a
    file that is not JSON, a dataset without one of its four keys and a
    test matrix whose width differs from the training matrix each end the
    run with the exception raised, in the stage where it was raised. *)
Theorem exceptions_propagate_uncaught (env : Env) :
  (forall e, In (EvRaised e) (fst (program env)) ->
     (snd (program env) = Raised e
      /\ exists pre, fst (program env) = pre ++ [EvRaised e] /\ no_raise pre)
     \/ (is_ImportError e = true /\ guarded_import_fails env e
         /\ snd (program env) = Exited 1%Z))
  /\ (forall file, ready env file ->
        (forall e, read_text env file = Raise e ->
           program env
           = ([EvPrint MsgBanner; EvBegin Load; EvPrint (MsgLoading file);
               EvOpenRead file; EvRaised e], Raised e))
        /\ (forall text e,
              read_text env file = Ok text -> json_loads env text = Raise e ->
              program env
              = ([EvPrint MsgBanner; EvBegin Load; EvPrint (MsgLoading file);
                  EvOpenRead file; EvRaised e], Raised e))
        /\ (forall text data key,
              read_text env file = Ok text -> json_loads env text = Ok data ->
              In key dataset_keys -> field key data = None ->
              exists e, snd (program env) = Raised e
                        /\ filter bracket (fst (program env)) = [EvBegin Load])
        /\ (forall text data X_train y_train X_test y_test,
              read_text env file = Ok text -> json_loads env text = Ok data ->
              rbind (getitem data "trainFeatures") np_array2 = Ok X_train ->
              rbind (getitem data "trainLabels") np_array1 = Ok y_train ->
              rbind (getitem data "testFeatures") np_array2 = Ok X_test ->
              rbind (getitem data "testLabels") np_array1 = Ok y_test ->
              sklearn.n_features X_test <> sklearn.n_features X_train ->
              exists msg, snd (program env) = Raised (ValueError msg)
                          /\ filter bracket (fst (program env))
                             = [EvBegin Load; EvEnd Load; EvBegin Normalize])).
Proof.
  split.
  - intros e Hin. destruct (propagates_program env) as [Hp|(e' & Hi & Hg & E)].
    + left. destruct (program env) as [t [u|e'|c]]; cbn in *.
      * exfalso. eapply Hp; eassumption.
      * destruct Hp as (pre & -> & Hpre).
        apply in_app_or in Hin. destruct Hin as [Hin|[Hin|[]]].
        -- exfalso. eapply Hpre; eassumption.
        -- injection Hin as ->. split; [reflexivity|]. exists pre. auto.
      * exfalso. eapply Hp; eassumption.
    + right. rewrite E in *. cbn in Hin.
      destruct Hin as [Hin|[Hin|[Hin|[]]]]; try discriminate.
      injection Hin as <-. auto.
  - intros file Hready. repeat split.
    + intros e Hread. apply main_load_fails with (file := file); [exact Hready|].
      unfold load_dataset. rewrite Hread. reflexivity.
    + intros text e Hread Hload. apply main_load_fails with (file := file); [exact Hready|].
      unfold load_dataset. rewrite Hread. cbn. rewrite Hload. reflexivity.
    + intros text data key Hread Hload Hkey Hmissing.
      destruct (getitem_missing _ _ Hmissing) as [e0 He0].
      pose proof (load_dataset_parsed env file Hread Hload) as Hl. cbv zeta in Hl.
      match type of Hl with _ = match ?arrays with _ => _ end =>
        destruct arrays as [v|e] eqn:Earr end.
      * exfalso. rinv Earr.
        destruct Hkey as [<-|[<-|[<-|[<-|[]]]]];
          match goal with
          | Hg : rbind (getitem data ?k) _ = Ok _, Hr : getitem data ?k = Raise _ |- _ =>
              rewrite Hr in Hg; discriminate Hg
          end.
      * exists e. rewrite (main_load_fails Hready Hl). split; reflexivity.
    + intros text data X_train y_train X_test y_test Hread Hload Hx Hy Hxt Hyt Hne.
      pose proof (load_dataset_parsed env file Hread Hload) as Hl. cbv zeta in Hl.
      rewrite Hx, Hy, Hxt, Hyt in Hl. cbn in Hl.
      destruct (normalize_data_shape_mismatch env X_train X_test Hne) as [msg Hn].
      exists msg. rewrite (main_normalize_fails Hready Hl Hn). split; reflexivity.
Qed.

(** ** The ROC curve is normalised by positive counts

[roc_curve] divides by the last [fps] and the last [tps]; under the
    guard of [binary_roc_auc_score] both are positive. *)

Section Denominators.

Local Open Scope Z_scope.

Lemma positives_insert_by (x : Q * bool) (l : list (Q * bool)) :
  positives (np.insert_by fst x l) = positives (x :: l)
  /\ size (np.insert_by fst x l) = size (x :: l).
Proof.
  induction l as [|h t [IHp IHs]]; [split; reflexivity|].
  simpl np.insert_by. destruct (Qle_bool (fst x) (fst h)); [split; reflexivity|].
  destruct x as [sx yx], h as [sh yh].
  rewrite (positives_cons sh yh), (size_cons (sh, yh)), IHp, IHs.
  rewrite !positives_cons, !size_cons. split; lia.
Qed.

Lemma positives_sort_by (l : list (Q * bool)) :
  positives (np.sort_by fst l) = positives l /\ size (np.sort_by fst l) = size l.
Proof.
  induction l as [|[s y] t [IHp IHs]]; [split; reflexivity|].
  unfold np.sort_by in *. simpl fold_right.
  destruct (positives_insert_by (s, y) (fold_right (np.insert_by fst) [] t)) as [Ep Es].
  rewrite Ep, Es, !positives_cons, !size_cons, IHp, IHs. split; reflexivity.
Qed.

Lemma positives_sort_desc (l : list (Q * bool)) :
  positives (sklearn.sort_desc l) = positives l /\ size (sklearn.sort_desc l) = size l.
Proof.
  unfold sklearn.sort_desc. destruct (positives_sort_by l) as [Ep Es].
  unfold positives, size in *. rewrite filter_rev, !length_rev. auto.
Qed.

Lemma positives_combine (y_score : list Q) :
  forall y_true : list bool,
    length y_true = length y_score ->
    positives (combine y_score y_true) = Z.of_nat (length (filter (fun b => b) y_true))
    /\ size (combine y_score y_true) = Z.of_nat (length y_true).
Proof.
  induction y_score as [|s ss IH]; intros [|y ys] Hlen; try discriminate.
  - split; reflexivity.
  - injection Hlen as Hlen. destruct (IH ys Hlen) as [IHp IHs].
    simpl combine. rewrite positives_cons, size_cons, IHp, IHs.
    destruct y; simpl filter; simpl length; split; lia.
Qed.

Lemma existsb_filter_positive {A} (f : A -> bool) (l : list A) :
  existsb f l = true -> (0 < length (filter f l))%nat.
Proof.
  induction l as [|x l IH]; simpl; [discriminate|].
  destruct (f x); simpl; [lia | exact IH].
Qed.

Lemma filter_bool_length (l : list bool) :
  (length (filter (fun b => b) l) + length (filter negb l) = length l)%nat.
Proof.
  induction l as [|x l IH]; simpl; [reflexivity|].
  destruct x; simpl; lia.
Qed.

Lemma roc_curve_denominators (y_true : list bool) (y_score : list Q) :
  existsb (fun b => b) y_true && existsb negb y_true = true ->
  length y_true = length y_score ->
  0 < last (map fst (curve (sklearn.sort_desc (combine y_score y_true)))) 0
  /\ 0 < last (map snd (curve (sklearn.sort_desc (combine y_score y_true)))) 0.
Proof.
  intros Hboth Hlen. apply andb_true_iff in Hboth. destruct Hboth as [Hpos Hneg].
  set (l := sklearn.sort_desc (combine y_score y_true)).
  change (last (map fst (curve l)) 0) with (last (map fst (curve l)) (fst (0, 0))).
  change (last (map snd (curve l)) 0) with (last (map snd (curve l)) (snd (0, 0))).
  rewrite !last_map, curve_last. cbn [fst snd].
  destruct (positives_sort_desc (combine y_score y_true)) as [Ep Es].
  destruct (positives_combine y_score y_true Hlen) as [Ep' Es'].
  fold l in Ep, Es. rewrite Ep, Es, Ep', Es'.
  apply existsb_filter_positive in Hpos, Hneg.
  pose proof (filter_bool_length y_true).
  lia.
Qed.

End Denominators.

(** ** Runs that return, and the seed *)

(** The seed of both classifiers is the constant 42. *)
Lemma random_state_fixed (w : Q) (model : XGBClassifier) :
  random_state (classifier_params w) = 42%Z
  /\ random_state (cv_params model) = 42%Z.
Proof. split; reflexivity. Qed.

(** One step of a run whose next call is known. *)
Ltac go := cbn [bind lift ret emit print app rbind].

(** Conversely, the values of [completed] and a writable models directory
    make the run return with the trace [run_trace]. *)
Lemma completed_run_returns (env : Env) (r : Run) :
  imports_ok env ->
  completed env r ->
  makedirs env (models_dir env) = Ok tt ->
  (forall path,
      In path [model_path env; norm_path env; norm_browser_path env; report_path env] ->
      open_write env path = Ok tt) ->
  program env = (run_trace env r, Returned tt).
Proof.
  intros Hok Hr Hmk Hw.
  destruct Hr as (Hfile & (text & Hread & Hjson) & Hx & Hy & Hxt & Hyt & Hnorm & Hcw
                  & Hfit & Hbest & Heval & Hcv & Htrees).
  rewrite (program_imports_ok Hok). main_ready Hfile.
  rewrite (load_dataset_parsed env (run_file r) Hread Hjson). cbv zeta.
  rewrite Hx, Hy, Hxt, Hyt.
  unfold in_stage, train_xgboost, save_artifacts, export_xgboost_to_json,
    write_json, write_json_of, get_best_iteration.
  go. rewrite Hnorm. go. rewrite Hcw. go. rewrite Hfit. go. rewrite Hbest. go.
  rewrite Heval. go. rewrite Hcv. go. rewrite Hmk. go. rewrite Htrees. go.
  rewrite (Hw (model_path env)) by (cbn; tauto). go.
  rewrite (Hw (norm_path env)) by (cbn; tauto). go.
  rewrite (Hw (norm_browser_path env)) by (cbn; tauto). go.
  rewrite norm_browser_norm_data. go.
  rewrite Hbest. go.
  rewrite (Hw (report_path env)) by (cbn; tauto).
  reflexivity.
Qed.

(** ** The ROC area is defined for two classes

    With labels 0 and 1 both present and one score per label,
    [roc_auc_score] returns: the abscissae of the curve increase, so [auc]
    neither refuses them nor integrates backwards. *)

Section Monotone.

Local Open Scope Z_scope.

Lemma clf_points_sorted (l : list (Q * bool)) :
  forall idx tps, StronglySorted point_le (sklearn.clf_points l idx tps).
Proof.
  induction l as [|[s y] rest IH]; intros idx tps; [constructor|].
  rewrite clf_points_cons. cbv zeta.
  destruct rest as [|[s' y'] rest']; [repeat constructor|].
  destruct (Qeq_bool s s'); [apply IH|].
  constructor; [apply IH|].
  eapply Forall_impl; [|apply clf_points_within].
  intros [f t] [Hf Ht]. unfold point_le. cbn [fst snd] in *. destruct y; lia.
Qed.

Lemma keep_turns_sorted (l : list (Z * Z)) :
  forall prev, StronglySorted point_le l -> StronglySorted point_le (sklearn.keep_turns prev l).
Proof.
  induction l as [|cur rest IH]; intros prev H; [constructor|].
  apply StronglySorted_inv in H. destruct H as [Hrest Hcur].
  simpl. destruct rest as [|next rest']; [repeat constructor|].
  destruct (_ && _); [apply IH; exact Hrest|].
  constructor; [apply IH; exact Hrest | apply keep_turns_Forall; exact Hcur].
Qed.

Lemma drop_intermediate_sorted (pts : list (Z * Z)) :
  StronglySorted point_le pts -> StronglySorted point_le (sklearn.drop_intermediate pts).
Proof.
  intros H. unfold sklearn.drop_intermediate.
  destruct pts as [|first rest]; [constructor|].
  destruct (2 <? length (first :: rest))%nat; [|exact H].
  apply StronglySorted_inv in H. destruct H as [Hrest Hfirst].
  constructor; [apply keep_turns_sorted; exact Hrest | apply keep_turns_Forall; exact Hfirst].
Qed.

Lemma curve_sorted (l : list (Q * bool)) : StronglySorted point_le (curve l).
Proof.
  unfold curve. constructor.
  - apply drop_intermediate_sorted, clf_points_sorted.
  - apply drop_intermediate_Forall.
    eapply Forall_impl; [|apply clf_points_within].
    intros [f t] [Hf Ht]. unfold point_le. cbn [fst snd] in *. lia.
Qed.

End Monotone.

Section Defined.

Local Open Scope Q_scope.

Lemma map_sorted {A B} (R : A -> A -> Prop) (R' : B -> B -> Prop) (f : A -> B)
    (l : list A) :
  (forall a b, R a b -> R' (f a) (f b)) ->
  StronglySorted R l -> StronglySorted R' (map f l).
Proof.
  intros Hf. induction 1 as [|a l _ IH Ha]; simpl; constructor; [exact IH|].
  apply Forall_map. eapply Forall_impl; [|exact Ha]. intros b. apply Hf.
Qed.

Lemma rate_le (a b F : Z) :
  (0 <= F)%Z -> (a <= b)%Z -> inject_Z a / inject_Z F <= inject_Z b / inject_Z F.
Proof.
  intros HF Hab. destruct (Z.eq_dec F 0) as [->|Hne].
  - change (inject_Z 0) with 0. rewrite !Qdiv_0_r. apply Qle_refl.
  - unfold Qdiv. apply Qmult_le_compat_r; [rewrite <- Zle_Qle; exact Hab|].
    apply Qinv_le_0_compat. change 0 with (inject_Z 0). rewrite <- Zle_Qle. exact HF.
Qed.

Lemma diff_sorted (x : list Q) :
  StronglySorted Qle x -> existsb (fun d => np.Qlt_bool d 0) (np.diff x) = false.
Proof.
  induction 1 as [|x0 xs _ IH Hx0]; [reflexivity|].
  destruct xs as [|x1 xs]; [reflexivity|].
  rewrite diff_cons2. cbn [existsb]. rewrite IH, orb_false_r.
  inversion Hx0 as [|? ? Hle _]; subst.
  unfold np.Qlt_bool. apply negb_false_iff, Qle_bool_iff. lra.
Qed.

Lemma auc_returns (x y : list Q) :
  (2 <= length x)%nat -> StronglySorted Qle x -> exists a, sklearn.auc x y = Ok a.
Proof.
  intros Hlen Hs. unfold sklearn.auc.
  apply Nat.ltb_ge in Hlen. rewrite Hlen, (diff_sorted Hs). eauto.
Qed.

Lemma curve_length (l : list (Q * bool)) : l <> [] -> (2 <= length (curve l))%nat.
Proof.
  intros Hne. unfold curve.
  pose proof (drop_intermediate_nonempty (clf_points_nonempty 0 0 Hne)) as Hd.
  destruct (sklearn.drop_intermediate _); [congruence | simpl; lia].
Qed.

Lemma sort_desc_nonempty (l : list (Q * bool)) : l <> [] -> sklearn.sort_desc l <> [].
Proof.
  intros Hne Hnil. destruct (positives_sort_desc l) as [_ Hs].
  rewrite Hnil in Hs. unfold size in Hs. destruct l; [congruence | discriminate Hs].
Qed.

Lemma binary_roc_auc_score_returns (y_true : list bool) (y_score : list Q) :
  existsb (fun b => b) y_true && existsb negb y_true = true ->
  length y_true = length y_score ->
  exists a, sklearn.binary_roc_auc_score y_true y_score = Ok a.
Proof.
  intros Hboth Hlen. unfold sklearn.binary_roc_auc_score. rewrite Hboth. cbn [negb].
  unfold sklearn.roc_curve, sklearn.binary_clf_curve.
  rewrite Hlen, Nat.eqb_refl. cbn [negb rbind].
  set (l := sklearn.sort_desc (combine y_score y_true)).
  fold (curve l).
  assert (Hne : l <> []).
  { apply sort_desc_nonempty. destruct y_true as [|b bs]; [discriminate Hboth|].
    destruct y_score; discriminate. }
  apply auc_returns.
  - rewrite !length_map. apply curve_length. exact Hne.
  - destruct (roc_curve_denominators y_true y_score Hboth Hlen) as [HF _].
    fold l in HF.
    apply map_sorted with (R := Z.le).
    + intros a b Hab. apply rate_le; [lia | exact Hab].
    + apply map_sorted with (R := point_le); [intros p q [H _]; exact H|].
      apply curve_sorted.
Qed.

End Defined.

Section BinaryLabels.

Local Open Scope Q_scope.

Lemma count_label_InA (c : Q) (y : list Q) :
  count_label c y <> 0%nat -> InA Qeq c y.
Proof.
  unfold count_label. induction y as [|v y IH]; simpl; [congruence|].
  destruct (Qeq_bool v c) eqn:E.
  - intros _. apply InA_cons_hd. symmetry. apply Qeq_bool_eq. exact E.
  - intros H. apply InA_cons_tl, IH, H.
Qed.

Lemma binary_labels_InA (y : list Q) (z : Q) :
  binary_labels y -> InA Qeq z y -> z == 0 \/ z == 1.
Proof.
  intros Hbin Hin. apply InA_alt in Hin. destruct Hin as (v & Hzv & Hv).
  unfold binary_labels in Hbin. rewrite Forall_forall in Hbin.
  destruct (Hbin v Hv) as [E|E]; [left | right]; rewrite Hzv; exact E.
Qed.

Lemma binary_labels_integral (y : list Q) :
  binary_labels y -> existsb (fun v => negb (sklearn.is_integral v)) y = false.
Proof.
  induction 1 as [|v y Hv _ IH]; [reflexivity|].
  simpl. rewrite IH, orb_false_r. apply negb_false_iff.
  unfold sklearn.is_integral. apply Qeq_eq_bool.
  destruct Hv as [E|E]; rewrite E; reflexivity.
Qed.

(** A strictly ascending list of zeros and ones. *)
Lemma sorted_binary (l : list Q) :
  StronglySorted Qlt l ->
  (forall z, InA Qeq z l -> z == 0 \/ z == 1) ->
  l = [] \/ (exists a, l = [a]) \/ (exists a b, l = [a; b] /\ a == 0 /\ b == 1).
Proof.
  intros Hs Hbin.
  destruct l as [|a [|b [|c l]]]; [auto | eauto | |].
  - right. right. exists a, b.
    apply StronglySorted_inv in Hs. destruct Hs as [_ Hab].
    inversion Hab as [|? ? Hlt _]; subst.
    destruct (Hbin a) as [Ea|Ea]; [apply InA_cons_hd; reflexivity | |];
      (destruct (Hbin b) as [Eb|Eb]; [apply InA_cons_tl, InA_cons_hd; reflexivity | |]);
      rewrite Ea, Eb in Hlt; try (exfalso; revert Hlt; unfold Qlt; simpl; lia).
    split; [reflexivity|]. split; assumption.
  - exfalso.
    apply StronglySorted_inv in Hs. destruct Hs as [Hs Ha].
    apply StronglySorted_inv in Hs. destruct Hs as [_ Hb].
    inversion Ha as [|? ? Hab _]; subst. inversion Hb as [|? ? Hbc _]; subst.
    destruct (Hbin a) as [Ea|Ea]; [apply InA_cons_hd; reflexivity | |];
      (destruct (Hbin b) as [Eb|Eb]; [apply InA_cons_tl, InA_cons_hd; reflexivity | |]);
      (destruct (Hbin c) as [Ec|Ec];
         [apply InA_cons_tl, InA_cons_tl, InA_cons_hd; reflexivity | |]);
      rewrite Ea, Eb in Hab; rewrite Eb, Ec in Hbc;
      revert Hab Hbc; unfold Qlt; simpl; lia.
Qed.

Lemma unique_binary_length (y : list Q) :
  binary_labels y -> (length (np.unique y) <= 2)%nat.
Proof.
  intros Hbin.
  destruct (@sorted_binary (np.unique y) (unique_sorted y)) as [E|[[a E]|(a & b & E & _)]];
    try (rewrite E; simpl; lia).
  intros z Hz. apply (proj1 (unique_InA y z)) in Hz. exact (binary_labels_InA Hbin Hz).
Qed.

Lemma unique_two_classes (y : list Q) :
  binary_labels y -> count_label 0 y <> 0%nat -> count_label 1 y <> 0%nat ->
  exists a b, np.unique y = [a; b] /\ a == 0 /\ b == 1.
Proof.
  intros Hbin H0 H1.
  apply count_label_InA in H0, H1.
  apply (proj2 (unique_InA y 0)) in H0. apply (proj2 (unique_InA y 1)) in H1.
  destruct (@sorted_binary (np.unique y) (unique_sorted y)) as [E|[[a E]|H]].
  - intros z Hz. apply (proj1 (unique_InA y z)) in Hz. exact (binary_labels_InA Hbin Hz).
  - rewrite E in H0. inversion H0.
  - rewrite E in H0, H1. apply InA_singleton in H0, H1.
    assert (Hc : 0 == 1) by (eapply Qeq_trans; [exact H0 | symmetry; exact H1]).
    discriminate Hc.
  - exact H.
Qed.

Lemma type_of_target_binary (y : list Q) :
  binary_labels y -> sklearn.type_of_target y = sklearn.binary.
Proof.
  intros Hbin. unfold sklearn.type_of_target.
  rewrite (binary_labels_integral Hbin).
  pose proof (unique_binary_length Hbin) as Hlen.
  apply Nat.ltb_ge in Hlen. rewrite Hlen. reflexivity.
Qed.

Lemma existsb_map_label (c : Q) (y : list Q) :
  count_label c y <> 0%nat -> existsb (fun b => b) (map (fun v => Qeq_bool v c) y) = true.
Proof.
  unfold count_label. induction y as [|v y IH]; simpl; [congruence|].
  destruct (Qeq_bool v c); simpl; [reflexivity | exact IH].
Qed.

Lemma existsb_map_other (c d : Q) (y : list Q) :
  ~ c == d -> count_label c y <> 0%nat ->
  existsb negb (map (fun v => Qeq_bool v d) y) = true.
Proof.
  intros Hne. unfold count_label. induction y as [|v y IH]; simpl; [congruence|].
  destruct (Qeq_bool v c) eqn:Ec.
  - intros _. apply Qeq_bool_eq in Ec.
    destruct (Qeq_bool v d) eqn:Ed; [|reflexivity].
    apply Qeq_bool_eq in Ed. exfalso. apply Hne. rewrite <- Ec, <- Ed. reflexivity.
  - intros H. rewrite (IH H). apply orb_true_r.
Qed.

(** On 0/1 labels with both classes present and one score per label the
    ROC area is defined. *)
Lemma roc_auc_score_returns (y_true y_score : list Q) :
  binary_labels y_true ->
  count_label 0 y_true <> 0%nat -> count_label 1 y_true <> 0%nat ->
  length y_true = length y_score ->
  exists a, sklearn.roc_auc_score y_true y_score = Ok a.
Proof.
  intros Hbin H0 H1 Hlen. unfold sklearn.roc_auc_score.
  rewrite (type_of_target_binary Hbin).
  destruct (unique_two_classes Hbin H0 H1) as (a & b & E & Ea & Eb).
  rewrite E. unfold sklearn.label_binarize.
  apply binary_roc_auc_score_returns; [|rewrite length_map; exact Hlen].
  assert (Hext : map (fun v => Qeq_bool v b) y_true = map (fun v => Qeq_bool v 1) y_true).
  { apply map_ext. intros v. apply Qeqb_comp; [reflexivity | exact Eb]. }
  rewrite Hext, (existsb_map_label 1 y_true H1).
  rewrite (@existsb_map_other 0 1 y_true); [reflexivity | | exact H0].
  intros Hc. discriminate Hc.
Qed.

End BinaryLabels.

(** ** [evaluate_model] returns on a two-class test set *)

Section Returns.

Lemma mapM_returns {A B} (f : A -> result B) (l : list A) :
  (forall x, In x l -> exists y, f x = Ok y) -> exists ys, mapM f l = Ok ys.
Proof.
  induction l as [|x l IH]; intros H; [eexists; reflexivity|].
  destruct (H x (or_introl eq_refl)) as [y Hy].
  destruct IH as [ys Hys]; [intros z Hz; apply H; right; exact Hz|].
  exists (y :: ys). simpl. rewrite Hy. simpl. rewrite Hys. reflexivity.
Qed.

Lemma for_append_returns {A B} (body : A -> result (list B)) (items : list A) :
  (forall x, In x items -> exists step, body x = Ok step) ->
  exists out, for_append body items = Ok out.
Proof.
  intros H. destruct (mapM_returns body items H) as [steps Hs].
  unfold for_append. rewrite Hs. eexists; reflexivity.
Qed.

Lemma true_divide_returns (a : Q) (n : nat) :
  (0 < n)%nat -> exists q, true_divide a (sklearn.of_nat n) = Ok q.
Proof.
  intros Hn. unfold true_divide.
  destruct (Qeq_bool (sklearn.of_nat n) 0) eqn:E; [|eauto].
  apply Qeq_bool_eq in E. pose proof (of_nat_pos Hn) as Hpos.
  rewrite E in Hpos. exfalso. revert Hpos. apply Qlt_irrefl.
Qed.

Lemma calibration_step_returns (y_proba y_pred y_test : list Q) (bucket : string * Q * Q) :
  exists step, calibration_step y_proba y_pred y_test bucket = Ok step.
Proof.
  destruct bucket as [[label lo] hi]. unfold calibration_step. cbv zeta.
  destruct (0 <? _)%nat eqn:E; [|eauto].
  apply Nat.ltb_lt in E.
  destruct (true_divide_returns
              (sklearn.of_nat (correct_in
                 (map (fun v => Qle_bool lo v && np.Qlt_bool v hi) (prob_max y_proba))
                 y_pred y_test)) E) as [q Hq].
  rewrite Hq. eexists; reflexivity.
Qed.

Lemma trading_step_returns (y_proba y_pred y_test : list Q) (t : Q) :
  (0 < length y_test)%nat ->
  exists step, trading_step y_proba y_pred y_test t = Ok step.
Proof.
  intros Hn. unfold trading_step. cbv zeta.
  destruct (0 <? _)%nat eqn:E; [|eauto].
  apply Nat.ltb_lt in E.
  destruct (true_divide_returns
              (sklearn.of_nat (correct_in (trade_mask y_proba t) y_pred y_test)) E)
    as [q Hq].
  destruct (true_divide_returns
              (sklearn.of_nat (np.count_true (trade_mask y_proba t))) Hn) as [c Hc].
  rewrite Hq. cbn [rbind]. rewrite Hc. eexists; reflexivity.
Qed.

Lemma binary_labels_app (a b : list Q) :
  binary_labels a -> binary_labels b -> binary_labels (a ++ b).
Proof. intros Ha Hb. apply Forall_app. split; assumption. Qed.

Lemma count_label_app (c : Q) (a b : list Q) :
  count_label c (a ++ b) = (count_label c a + count_label c b)%nat.
Proof. unfold count_label. rewrite filter_app, length_app. reflexivity. Qed.

Lemma count_label_length (c : Q) (y : list Q) :
  count_label c y <> 0%nat -> (0 < length y)%nat.
Proof. destruct y; [intros H; exfalso; apply H; reflexivity | simpl; lia]. Qed.

Lemma check_targets_returns (y_true y_pred : list Q) :
  length y_true = length y_pred ->
  binary_labels y_true -> binary_labels y_pred ->
  sklearn.check_targets y_true y_pred = Ok sklearn.binary.
Proof.
  intros Hlen Ht Hp. unfold sklearn.check_targets.
  rewrite Hlen, Nat.eqb_refl. cbn [negb].
  rewrite (@type_of_target_binary _ Ht), (@type_of_target_binary _ Hp).
  pose proof (@unique_binary_length _ (@binary_labels_app _ _ Ht Hp)) as Hu.
  apply Nat.ltb_ge in Hu. unfold sklearn.unique_labels. rewrite Hu. reflexivity.
Qed.

Lemma check_set_wise_labels_returns (y_true y_pred : list Q) :
  length y_true = length y_pred ->
  binary_labels y_true -> binary_labels y_pred ->
  count_label 1 y_true <> 0%nat ->
  sklearn.check_set_wise_labels y_true y_pred = Ok tt.
Proof.
  intros Hlen Ht Hp H1. unfold sklearn.check_set_wise_labels.
  rewrite (@check_targets_returns _ _ Hlen Ht Hp). cbn [rbind].
  assert (Hin : existsb (Qeq_bool sklearn.pos_label)
                        (sklearn.unique_labels y_true y_pred) = true).
  { apply existsb_exists.
    assert (HinA : InA Qeq 1%Q (sklearn.unique_labels y_true y_pred)).
    { apply unique_InA, InA_app_iff. left. apply count_label_InA. exact H1. }
    apply InA_alt in HinA. destruct HinA as (v & Hv & Hin).
    exists v. split; [exact Hin | apply Qeq_eq_bool; exact Hv]. }
  rewrite Hin. reflexivity.
Qed.

(** With 0/1 test labels of both classes, one per test row, 0/1
    predictions, and importance indices within FEATURE_NAMES,
    [evaluate_model] returns. *)
Lemma evaluate_model_returns (env : Env) (model : XGBClassifier)
    (X_test : sklearn.matrix) (y_test : list Q) :
  length y_test = length X_test ->
  binary_labels y_test ->
  count_label 0 y_test <> 0%nat -> count_label 1 y_test <> 0%nat ->
  binary_labels (predict model X_test) ->
  (forall idx,
      In idx (firstn 10 (rev (np_argsort env (feature_importances_ model)))) ->
      (idx < length FEATURE_NAMES)%nat
      /\ (idx < length (feature_importances_ model))%nat) ->
  exists m, evaluate_model env model X_test y_test = Ok m.
Proof.
  intros Hlen Hbin H0 H1 Hpred Himp.
  assert (Hlp : length y_test = length (predict model X_test))
    by (unfold predict; rewrite length_map; exact Hlen).
  assert (Hlq : length y_test = length (predict_proba1 model X_test))
    by (unfold predict_proba1; rewrite length_map; exact Hlen).
  unfold evaluate_model. cbv zeta.
  unfold sklearn.accuracy_score, sklearn.precision_score, sklearn.recall_score,
    sklearn.f1_score, sklearn.confusion_matrix.
  rewrite (@check_targets_returns _ _ Hlp Hbin Hpred).
  rewrite (@check_set_wise_labels_returns _ _ Hlp Hbin Hpred H1). cbn [rbind].
  destruct (@roc_auc_score_returns _ _ Hbin H0 H1 Hlq) as [a Ha]. rewrite Ha. cbn [rbind].
  destruct (@unique_two_classes (y_test ++ predict model X_test)) as (l0 & l1 & E & _).
  { apply binary_labels_app; assumption. }
  { rewrite count_label_app. lia. }
  { rewrite count_label_app. lia. }
  unfold sklearn.unique_labels. rewrite E.
  cbn [map cm_getitem list_getitem nth_error rbind].
  destruct (@for_append_returns _ _
              (calibration_step (predict_proba1 model X_test) (predict model X_test) y_test)
              buckets) as [cal Hcal].
  { intros b _. apply calibration_step_returns. }
  rewrite Hcal. cbn [rbind].
  destruct (@for_append_returns _ _
              (trading_step (predict_proba1 model X_test) (predict model X_test) y_test)
              thresholds) as [trd Htrd].
  { intros t _. apply trading_step_returns. exact (@count_label_length _ _ H0). }
  rewrite Htrd. cbn [rbind].
  match goal with |- context [mapM ?f ?l] =>
    destruct (mapM_returns f l) as [imp Himp'] end.
  { intros idx Hidx. destruct (Himp idx Hidx) as [Hn Hi].
    unfold list_getitem.
    destruct (nth_error FEATURE_NAMES idx) eqn:En;
      [|apply nth_error_None in En; lia].
    destruct (nth_error (feature_importances_ model) idx) eqn:Ei;
      [|apply nth_error_None in Ei; lia].
    eexists; reflexivity. }
  rewrite Himp'. eexists; reflexivity.
Qed.

End Returns.

(** ** The properties on the example run *)

Lemma confusion_matrix_sums_to_test_size_witness :
  exists m,
    evaluate_model (Example.env Example.args) Example.model
                   Example.X_test_norm Example.y_test = Ok m
    /\ exists tn fp fn tp : nat,
         confusion_matrix m = [[tn; fp]; [fn; tp]]
         /\ cm_getitem (confusion_matrix m) 1 1 = Ok tp
         /\ cm_getitem (confusion_matrix m) 0 1 = Ok fp
         /\ cm_getitem (confusion_matrix m) 0 0 = Ok tn
         /\ cm_getitem (confusion_matrix m) 1 0 = Ok fn
         /\ (tp + fp + tn + fn = length Example.y_test)%nat.
Proof.
  eexists. split; [vm_compute; reflexivity|].
  apply (@confusion_matrix_sums_to_test_size
           (Example.env Example.args) Example.model Example.X_test_norm).
  vm_compute. reflexivity.
Defined.


Lemma trades_nonincreasing_in_threshold_witness :
  exists m,
    evaluate_model (Example.env Example.args) Example.model
                   Example.X_test_norm Example.y_test = Ok m
    /\ In (80 # 100)%Q thresholds /\ In (85 # 100)%Q thresholds
    /\ (80 # 100 <= 85 # 100)%Q
    /\ forall e2, In e2 (trading_simulation m) -> threshold e2 = (85 # 100)%Q ->
         exists e1, In e1 (trading_simulation m) /\ threshold e1 = (80 # 100)%Q
                    /\ (trades e2 <= trades e1)%nat /\ (wins e2 <= wins e1)%nat.
Proof.
  eexists. split; [vm_compute; reflexivity|].
  assert (H1 : In (80 # 100)%Q thresholds) by (cbn; tauto).
  assert (H2 : In (85 # 100)%Q thresholds) by (cbn; tauto).
  assert (H3 : (80 # 100 <= 85 # 100)%Q) by (unfold Qle; simpl; lia).
  repeat split; try assumption.
  apply (@trades_nonincreasing_in_threshold
           (Example.env Example.args) Example.model
           Example.X_test_norm Example.y_test _ (80 # 100)%Q (85 # 100)%Q
           ltac:(vm_compute; reflexivity) H1 H2 H3).
Defined.

Lemma class_weight_never_divides_by_zero_witness :
  binary_labels Example.y_train
  /\ exists w, class_weight Example.y_train = Ok w /\ (w == 1)%Q.
Proof.
  assert (Hbin : binary_labels Example.y_train).
  { unfold Example.y_train. repeat constructor; solve [left; reflexivity | right; reflexivity]. }
  split; [exact Hbin|].
  destruct (class_weight_never_divides_by_zero (Example.env Example.args)
              Example.X_train Example.X_train Example.y_train Example.y_train) as (w & Hw & _ & H).
  exists w. split; [exact Hw|].
  destruct (H Hbin) as [_ Hq]. rewrite Hq; [reflexivity | discriminate].
Defined.


Lemma pipeline_runs_in_order_witness :
  program (Example.env Example.args)
  = (fst (program (Example.env Example.args)), Returned tt)
  /\ filter bracket (fst (program (Example.env Example.args)))
     = [EvBegin Load; EvEnd Load;
        EvBegin Normalize; EvEnd Normalize;
        EvBegin Fit; EvEnd Fit;
        EvBegin Evaluate; EvEnd Evaluate;
        EvBegin CrossValidate; EvEnd CrossValidate;
        EvBegin Export; EvEnd Export].
Proof.
  split; [vm_compute; reflexivity|].
  apply (@pipeline_runs_in_order (Example.env Example.args) _ tt).
  vm_compute. reflexivity.
Defined.

Lemma model_export_contents_witness :
  program (Example.env Example.args)
  = (fst (program (Example.env Example.args)), Returned tt)
  /\ exists model_export trees,
       In (EvWrite "backtest/ml/models/xgboost_model.json" model_export)
          (fst (program (Example.env Example.args)))
       /\ field "trees" model_export = Some (JArr trees)
       /\ field "num_trees" model_export = Some (JInt (Z.of_nat (length trees))).
Proof.
  split; [vm_compute; reflexivity|].
  destruct (@model_export_contents (Example.env Example.args) _ tt
              ltac:(vm_compute; reflexivity))
    as (r & model_export & trees & _ & _ & Hin & _ & Htrees & Hnum & _).
  exists model_export, trees. auto.
Defined.




Lemma imports_ok_example (args : list string) : imports_ok (Example.env args).
Proof. repeat split. Qed.

Lemma exits_with_status_1_before_any_file_witness :
  (imports_ok (Example.env ["backtest/ml/trainModel.py"])
   /\ (length (argv (Example.env ["backtest/ml/trainModel.py"])) < 2)%nat
   /\ program (Example.env ["backtest/ml/trainModel.py"])
      = ([EvPrint MsgUsage], Exited 1%Z))
  /\ (import_module Example.env_without_xgboost numpy = Ok tt
      /\ guarded_import_fails Example.env_without_xgboost
                              (ImportError "No module named 'xgboost'")
      /\ program Example.env_without_xgboost
         = ([EvRaised (ImportError "No module named 'xgboost'");
             EvPrint (MsgMissingPackage (ImportError "No module named 'xgboost'"));
             EvPrint MsgInstallHint],
            Exited 1%Z)).
Proof.
  assert (H1 : imports_ok (Example.env ["backtest/ml/trainModel.py"]))
    by apply imports_ok_example.
  assert (H2 : (length (argv (Example.env ["backtest/ml/trainModel.py"])) < 2)%nat)
    by (simpl; lia).
  assert (H3 : import_module Example.env_without_xgboost numpy = Ok tt) by reflexivity.
  assert (H4 : guarded_import_fails Example.env_without_xgboost
                 (ImportError "No module named 'xgboost'")) by (left; reflexivity).
  split.
  - split; [exact H1|]. split; [exact H2|].
    apply (proj1 (exits_with_status_1_before_any_file
                    (Example.env ["backtest/ml/trainModel.py"])) H1 H2).
  - split; [exact H3|]. split; [exact H4|].
    apply (proj2 (exits_with_status_1_before_any_file Example.env_without_xgboost)
                 _ H3 H4 eq_refl).
Defined.

Lemma exceptions_propagate_uncaught_witness :
  In (EvRaised (FileNotFoundError "missing.json"))
     (fst (program (Example.env ["backtest/ml/trainModel.py"; "missing.json"])))
  /\ ready (Example.env ["backtest/ml/trainModel.py"; "missing.json"]) "missing.json"
  /\ read_text (Example.env ["backtest/ml/trainModel.py"; "missing.json"]) "missing.json"
     = Raise (FileNotFoundError "missing.json")
  /\ snd (program (Example.env ["backtest/ml/trainModel.py"; "missing.json"]))
     = Raised (FileNotFoundError "missing.json")
  /\ program (Example.env ["backtest/ml/trainModel.py"; "missing.json"])
     = ([EvPrint MsgBanner; EvBegin Load; EvPrint (MsgLoading "missing.json");
         EvOpenRead "missing.json"; EvRaised (FileNotFoundError "missing.json")],
        Raised (FileNotFoundError "missing.json")).
Proof.
  set (E := Example.env ["backtest/ml/trainModel.py"; "missing.json"]).
  assert (H1 : In (EvRaised (FileNotFoundError "missing.json")) (fst (program E)))
    by (vm_compute; tauto).
  assert (H2 : ready E "missing.json") by (split; [apply imports_ok_example | reflexivity]).
  assert (H3 : read_text E "missing.json" = Raise (FileNotFoundError "missing.json"))
    by reflexivity.
  split; [exact H1|]. split; [exact H2|]. split; [exact H3|]. split.
  - destruct (proj1 (exceptions_propagate_uncaught E) _ H1) as [[Ho _]|(Hi & _)].
    + exact Ho.
    + discriminate Hi.
  - apply (proj1 (proj2 (exceptions_propagate_uncaught E) _ H2) _ H3).
Defined.

(** * Further properties of the code *)

(** ** [load_dataset] *)

Lemma mapM_length {A B} (f : A -> result B) (l : list A) (rs : list B) :
  mapM f l = Ok rs -> length rs = length l.
Proof.
  intros H. apply mapM_Ok_inv in H. symmetry. eapply Forall2_length; eassumption.
Qed.






(** ** [normalize_data] *)

Section Normalize.

Local Open Scope Q_scope.

Lemma normalize_data_inv (env : Env) (X_train X_test Xn Xtn : sklearn.matrix)
    (scaler : sklearn.StandardScaler) :
  normalize_data env X_train X_test = Ok (Xn, Xtn, scaler) ->
  sklearn.fit (np_sqrt env) X_train = Ok scaler
  /\ Xn = map (sklearn.transform_row scaler) X_train
  /\ Xtn = map (sklearn.transform_row scaler) X_test
  /\ sklearn.n_features X_test = sklearn.n_features X_train
  /\ sklearn.n_features X_train <> 0%nat.
Proof.
  unfold normalize_data, sklearn.fit_transform. intros H.
  destruct (sklearn.fit (np_sqrt env) X_train) as [s|e] eqn:Efit; [|discriminate].
  cbn [rbind] in H.
  assert (Hn : sklearn.n_features_in_ s = sklearn.n_features X_train
               /\ sklearn.n_features X_train <> 0%nat).
  { unfold sklearn.fit in Efit.
    destruct (sklearn.n_features X_train =? 0)%nat eqn:E0; [discriminate|].
    injection Efit as <-. split; [reflexivity | apply Nat.eqb_neq; exact E0]. }
  destruct Hn as [Hn Hpos].
  unfold sklearn.transform in H. rewrite Hn, Nat.eqb_refl in H. cbn [negb rbind] in H.
  rewrite Hn in H.
  destruct (sklearn.n_features X_test =? sklearn.n_features X_train)%nat eqn:Et;
    cbn [negb rbind] in H; [|discriminate].
  injection H as <- <- <-.
  apply Nat.eqb_eq in Et. auto.
Qed.

Lemma nth_columns {B} (f : list Q -> B) (X : sklearn.matrix) (j : nat) (d : B) :
  (j < sklearn.n_features X)%nat ->
  nth j (map f (sklearn.columns X)) d = f (sklearn.column j X).
Proof.
  intros Hj. unfold sklearn.columns. rewrite map_map.
  rewrite nth_indep with (d' := f (sklearn.column 0%nat X))
    by (rewrite length_map, length_seq; exact Hj).
  rewrite (map_nth (fun k => f (sklearn.column k X)) (seq 0 (sklearn.n_features X)) 0%nat j).
  rewrite seq_nth by exact Hj. reflexivity.
Qed.

Lemma fit_features (sqrt : Q -> Q) (X : sklearn.matrix) (scaler : sklearn.StandardScaler) :
  sklearn.fit sqrt X = Ok scaler ->
  length (sklearn.mean_ scaler) = sklearn.n_features X
  /\ length (sklearn.scale_ scaler) = sklearn.n_features X
  /\ forall j, (j < sklearn.n_features X)%nat ->
       nth j (sklearn.mean_ scaler) 0 = feature_mean X j
       /\ nth j (sklearn.scale_ scaler) 0 = feature_scale sqrt X j.
Proof.
  unfold sklearn.fit. destruct (sklearn.n_features X =? 0)%nat; [discriminate|].
  intros H. injection H as <-. cbn [sklearn.mean_ sklearn.scale_].
  rewrite !length_map, length_columns.
  split; [reflexivity|]. split; [reflexivity|].
  intros j Hj. split.
  - apply (nth_columns np.mean). exact Hj.
  - apply (nth_columns (fun c => sklearn.handle_zeros_in_scale sqrt (np.var c))). exact Hj.
Qed.

Lemma transform_row_length (scaler : sklearn.StandardScaler) (row : list Q) (n : nat) :
  length (sklearn.mean_ scaler) = n -> length (sklearn.scale_ scaler) = n ->
  length row = n ->
  length (sklearn.transform_row scaler row) = n.
Proof.
  intros Hm Hs Hr. unfold sklearn.transform_row.
  rewrite length_map, !length_combine, Hm, Hs, Hr. lia.
Qed.

Lemma transform_row_nth (scaler : sklearn.StandardScaler) (row : list Q) (n j : nat) :
  length (sklearn.mean_ scaler) = n -> length (sklearn.scale_ scaler) = n ->
  length row = n -> (j < n)%nat ->
  nth j (sklearn.transform_row scaler row) 0
  = (nth j row 0 - nth j (sklearn.mean_ scaler) 0) / nth j (sklearn.scale_ scaler) 0.
Proof.
  intros Hm Hs Hr Hj. unfold sklearn.transform_row.
  set (f := fun p : Q * Q * Q => (fst (fst p) - snd (fst p)) / snd p).
  rewrite nth_indep with (d' := f (0, 0, 0))
    by (rewrite length_map, !length_combine, Hm, Hs, Hr; lia).
  rewrite (map_nth f).
  rewrite combine_nth by (rewrite length_combine, Hm, Hs, Hr; lia).
  rewrite combine_nth by (rewrite Hm, Hr; reflexivity).
  reflexivity.
Qed.

Lemma rectangular_nth (X : sklearn.matrix) (i : nat) :
  rectangular X -> (i < length X)%nat ->
  length (nth i X []) = sklearn.n_features X.
Proof.
  intros Hrect Hi. unfold rectangular in Hrect. rewrite Forall_forall in Hrect.
  apply Hrect, nth_In, Hi.
Qed.

Lemma entry_transform (scaler : sklearn.StandardScaler) (X : sklearn.matrix) (n i j : nat) :
  length (sklearn.mean_ scaler) = n -> length (sklearn.scale_ scaler) = n ->
  rectangular X -> sklearn.n_features X = n ->
  (i < length X)%nat -> (j < n)%nat ->
  entry (map (sklearn.transform_row scaler) X) i j
  = (entry X i j - nth j (sklearn.mean_ scaler) 0) / nth j (sklearn.scale_ scaler) 0.
Proof.
  intros Hm Hs Hrect Hn Hi Hj. unfold entry.
  rewrite nth_indep with (d' := sklearn.transform_row scaler [])
    by (rewrite length_map; exact Hi).
  rewrite (map_nth (sklearn.transform_row scaler)).
  apply transform_row_nth with (n := n); try assumption.
  rewrite <- Hn. apply rectangular_nth; assumption.
Qed.

Lemma normalize_data_uses_training_statistics_aux
    (env : Env) (X_train X_test Xn Xtn : sklearn.matrix)
    (scaler : sklearn.StandardScaler) (i j : nat) :
  normalize_data env X_train X_test = Ok (Xn, Xtn, scaler) ->
  rectangular X_train -> rectangular X_test ->
  (j < sklearn.n_features X_train)%nat ->
  ((i < length X_train)%nat ->
   entry Xn i j
   = (entry X_train i j - feature_mean X_train j)
     / feature_scale (np_sqrt env) X_train j)
  /\ ((i < length X_test)%nat ->
      entry Xtn i j
      = (entry X_test i j - feature_mean X_train j)
        / feature_scale (np_sqrt env) X_train j).
Proof.
  intros H Hrect Hrect' Hj.
  destruct (normalize_data_inv _ _ _ H) as (Hfit & -> & -> & Hn & _).
  destruct (fit_features _ _ Hfit) as (Hm & Hs & Hstat).
  destruct (Hstat j Hj) as [<- <-].
  split; intros Hi;
    apply entry_transform with (n := sklearn.n_features X_train);
    solve [assumption | reflexivity].
Qed.



(** X4: [normalize_data] returns exactly when the training matrix has a
    column and the test matrix has the width of the training matrix; the
    matrices it returns have the rows and the width of their inputs, and
    the scaler holds one mean and one scale per feature. *)
Theorem normalize_data_preserves_shapes
    (env : Env) (X_train X_test : sklearn.matrix) :
  ((exists r, normalize_data env X_train X_test = Ok r)
   <-> (sklearn.n_features X_train <> 0%nat
        /\ sklearn.n_features X_test = sklearn.n_features X_train))
  /\ forall Xn Xtn scaler,
       normalize_data env X_train X_test = Ok (Xn, Xtn, scaler) ->
       length Xn = length X_train
       /\ length Xtn = length X_test
       /\ length (sklearn.mean_ scaler) = sklearn.n_features X_train
       /\ length (sklearn.scale_ scaler) = sklearn.n_features X_train
       /\ (rectangular X_train ->
           rectangular Xn /\ sklearn.n_features Xn = sklearn.n_features X_train)
       /\ (rectangular X_test ->
           rectangular Xtn /\ sklearn.n_features Xtn = sklearn.n_features X_test).
Proof.
  split.
  - split.
    + intros [[[Xn Xtn] scaler] H].
      destruct (normalize_data_inv _ _ _ H) as (_ & _ & _ & Hn & Hpos). auto.
    + intros [Hpos Hn].
      unfold normalize_data, sklearn.fit_transform, sklearn.fit.
      apply Nat.eqb_neq in Hpos. rewrite Hpos. cbn [rbind].
      unfold sklearn.transform at 1. cbn [sklearn.n_features_in_].
      rewrite Nat.eqb_refl. cbn [negb rbind].
      unfold sklearn.transform. cbn [sklearn.n_features_in_].
      rewrite Hn, Nat.eqb_refl. cbn [negb rbind].
      eexists; reflexivity.
  - intros Xn Xtn scaler H.
    destruct (normalize_data_inv _ _ _ H) as (Hfit & -> & -> & Hn & Hpos).
    destruct (fit_features _ _ Hfit) as (Hm & Hs & _).
    assert (Hshape : forall X, sklearn.n_features X = sklearn.n_features X_train ->
              rectangular X ->
              rectangular (map (sklearn.transform_row scaler) X)
              /\ sklearn.n_features (map (sklearn.transform_row scaler) X)
                 = sklearn.n_features X).
    { intros X HX Hrect.
      assert (Hrows : Forall (fun row => length row = sklearn.n_features X)
                             (map (sklearn.transform_row scaler) X)).
      { apply Forall_map. eapply Forall_impl; [|exact Hrect].
        intros row Hrow. cbv beta. rewrite HX.
        apply transform_row_length; congruence. }
      assert (Hw : sklearn.n_features (map (sklearn.transform_row scaler) X)
                   = sklearn.n_features X).
      { destruct X as [|row0 rest]; [reflexivity|].
        inversion Hrows; subst. assumption. }
      split; [|exact Hw]. unfold rectangular. rewrite Hw. exact Hrows. }
    rewrite !length_map. repeat split; try assumption.
    + apply Hshape; [reflexivity | assumption].
    + apply Hshape; [reflexivity | assumption].
    + apply Hshape; assumption.
    + apply Hshape; assumption.
Qed.

Lemma normalize_data_preserves_shapes_witness :
  exists Xn Xtn scaler,
    normalize_data (Example.env Example.args) Example.X_train [[1; 1]; [1; 3]]
    = Ok (Xn, Xtn, scaler)
    /\ rectangular Example.X_train
    /\ length Xn = length Example.X_train
    /\ rectangular Xn
    /\ sklearn.n_features Xn = sklearn.n_features Example.X_train.
Proof.
  assert (Hr : rectangular Example.X_train) by (repeat constructor).
  do 3 eexists. split; [vm_compute; reflexivity|].
  split; [exact Hr|].
  destruct (proj2 (normalize_data_preserves_shapes
                     (Example.env Example.args) Example.X_train [[1; 1]; [1; 3]])
                  _ _ _ ltac:(vm_compute; reflexivity))
    as (Hl & _ & _ & _ & Htrain & _).
  destruct (Htrain Hr) as [Hrn Hw]. auto.
Defined.

End Normalize.

(** ** The normalised training features are standardised *)

Section Standardised.

Local Open Scope Q_scope.

Lemma len_pos (l : list Q) : l <> [] -> 0 < np.len l.
Proof.
  intros Hne. apply of_nat_pos. destruct l; [contradiction | simpl; lia].
Qed.




Lemma sum_map_shift (m s : Q) (l : list Q) :
  np.sum (map (fun x => (x - m) / s) l) == (np.sum l - np.len l * m) / s.
Proof.
  induction l as [|x l IH].
  - cbn [map np.sum]. unfold np.len. cbn. unfold Qdiv. ring.
  - cbn [map np.sum]. rewrite IH, len_cons. unfold Qdiv. ring.
Qed.

Lemma mean_times_len (l : list Q) : l <> [] -> np.len l * np.mean l == np.sum l.
Proof.
  intros Hne. pose proof (@len_pos _ Hne) as Hpos. unfold np.mean. field.
  intros E. rewrite E in Hpos. revert Hpos. apply Qlt_irrefl.
Qed.

(** The z-scores of a column have mean zero. *)
Lemma mean_shift_zero (s : Q) (l : list Q) :
  l <> [] -> np.mean (map (fun x => (x - np.mean l) / s) l) == 0.
Proof.
  intros Hne. unfold np.mean at 1. rewrite sum_map_shift, (@mean_times_len _ Hne).
  unfold Qdiv. ring.
Qed.


Lemma column_map (f : list Q -> list Q) (X : sklearn.matrix) (j : nat) :
  sklearn.column j (map f X) = map (fun row => nth j (f row) 0) X.
Proof. unfold sklearn.column. apply map_map. Qed.

(** Column [j] of the normalised training matrix, from column [j] of the
    training matrix. *)
Lemma normalized_column (env : Env) (X_train X_test Xn Xtn : sklearn.matrix)
    (scaler : sklearn.StandardScaler) (j : nat) :
  normalize_data env X_train X_test = Ok (Xn, Xtn, scaler) ->
  rectangular X_train ->
  (j < sklearn.n_features X_train)%nat ->
  sklearn.column j X_train <> []
  /\ sklearn.column j Xn
     = map (fun x => (x - np.mean (sklearn.column j X_train))
                     / feature_scale (np_sqrt env) X_train j)
           (sklearn.column j X_train).
Proof.
  intros H Hrect Hj.
  destruct (normalize_data_inv _ _ _ H) as (Hfit & -> & _ & _ & Hpos).
  destruct (fit_features _ _ Hfit) as (Hm & Hs & Hstat).
  destruct (Hstat j Hj) as [Emean Escale]. unfold feature_mean in Emean.
  split.
  - unfold sklearn.column. destruct X_train; [|discriminate].
    exfalso. apply Hpos. reflexivity.
  - rewrite column_map. unfold sklearn.column. rewrite map_map.
    apply map_ext_in. intros row Hrow.
    unfold rectangular in Hrect. rewrite Forall_forall in Hrect.
    rewrite (@transform_row_nth scaler row (sklearn.n_features X_train) j);
      auto.
    rewrite Emean, Escale. reflexivity.
Qed.

(** X5: every feature of the normalised training matrix has mean zero. *)
Theorem normalized_training_features_have_zero_mean
    (env : Env) (X_train X_test Xn Xtn : sklearn.matrix)
    (scaler : sklearn.StandardScaler) (j : nat) :
  normalize_data env X_train X_test = Ok (Xn, Xtn, scaler) ->
  rectangular X_train ->
  (j < sklearn.n_features X_train)%nat ->
  feature_mean Xn j == 0.
Proof.
  intros H Hrect Hj. unfold feature_mean.
  destruct (@normalized_column _ _ _ _ _ _ j H Hrect Hj) as [Hne ->].
  apply mean_shift_zero. exact Hne.
Qed.

Lemma normalized_training_features_have_zero_mean_witness :
  exists Xn Xtn scaler,
    normalize_data (Example.env Example.args) Example.X_train [[1; 1]; [1; 3]]
    = Ok (Xn, Xtn, scaler)
    /\ rectangular Example.X_train
    /\ (1 < sklearn.n_features Example.X_train)%nat
    /\ feature_mean Xn 1 == 0.
Proof.
  assert (Hr : rectangular Example.X_train) by (repeat constructor).
  assert (Hj : (1 < sklearn.n_features Example.X_train)%nat) by (cbn; lia).
  do 3 eexists. split; [vm_compute; reflexivity|].
  split; [exact Hr|]. split; [exact Hj|].
  apply (@normalized_training_features_have_zero_mean
           (Example.env Example.args) Example.X_train [[1; 1]; [1; 3]]
           _ _ _ 1%nat ltac:(vm_compute; reflexivity) Hr Hj).
Defined.



Lemma sum_constant (c : Q) (l : list Q) :
  Forall (fun x => x == c) l -> np.sum l == np.len l * c.
Proof.
  induction 1 as [|x l Hx _ IH].
  - unfold np.len. cbn. ring.
  - cbn [np.sum]. rewrite len_cons, IH, Hx. ring.
Qed.

Lemma mean_constant (c : Q) (l : list Q) :
  l <> [] -> Forall (fun x => x == c) l -> np.mean l == c.
Proof.
  intros Hne Hc. pose proof (@len_pos _ Hne) as Hpos.
  unfold np.mean. rewrite (@sum_constant _ _ Hc). field.
  intros E. rewrite E in Hpos. revert Hpos. apply Qlt_irrefl.
Qed.

Lemma var_constant (c : Q) (l : list Q) :
  l <> [] -> Forall (fun x => x == c) l -> np.var l == 0.
Proof.
  intros Hne Hc. unfold np.var. cbv zeta.
  apply mean_constant.
  - destruct l; [contradiction | discriminate].
  - apply Forall_map. eapply Forall_impl; [|exact Hc].
    intros x Hx. cbv beta. rewrite (@mean_constant _ _ Hne Hc), Hx. ring.
Qed.

Lemma column_constant (X : sklearn.matrix) (j : nat) (c : Q) :
  (forall i, (i < length X)%nat -> entry X i j == c) ->
  Forall (fun x => x == c) (sklearn.column j X).
Proof.
  intros H. unfold sklearn.column. apply Forall_map, Forall_forall.
  intros row Hrow. destruct (In_nth _ _ [] Hrow) as (i & Hi & <-).
  apply H. exact Hi.
Qed.

(** X7: a feature that is constant on the training matrix has the scale 1;
    it is zero throughout the normalised training matrix, and in the
    normalised test matrix it is the raw value minus the constant. *)
Theorem constant_feature_is_normalized_to_zero
    (env : Env) (X_train X_test Xn Xtn : sklearn.matrix)
    (scaler : sklearn.StandardScaler) (j : nat) (c : Q) :
  normalize_data env X_train X_test = Ok (Xn, Xtn, scaler) ->
  rectangular X_train -> rectangular X_test ->
  (j < sklearn.n_features X_train)%nat ->
  (forall i, (i < length X_train)%nat -> entry X_train i j == c) ->
  feature_scale (np_sqrt env) X_train j = 1
  /\ nth j (sklearn.scale_ scaler) 0 = 1
  /\ (forall i, (i < length X_train)%nat -> entry Xn i j == 0)
  /\ (forall i, (i < length X_test)%nat -> entry Xtn i j == entry X_test i j - c).
Proof.
  intros H Hrect Hrect' Hj Hconst.
  destruct (@normalized_column _ _ _ _ _ _ j H Hrect Hj) as [Hne _].
  pose proof (@column_constant _ _ _ Hconst) as Hcol.
  assert (Hmean : feature_mean X_train j == c) by (apply mean_constant; assumption).
  assert (Hscale : feature_scale (np_sqrt env) X_train j = 1).
  { unfold feature_scale, sklearn.handle_zeros_in_scale.
    rewrite (Qeq_eq_bool _ _ (@var_constant _ _ Hne Hcol)). reflexivity. }
  split; [exact Hscale|]. split.
  - destruct (normalize_data_inv _ _ _ H) as (Hfit & _).
    destruct (fit_features _ _ Hfit) as (_ & _ & Hstat).
    rewrite (proj2 (Hstat j Hj)). exact Hscale.
  - split; intros i Hi.
    + rewrite (proj1 (@normalize_data_uses_training_statistics_aux
                        _ _ _ _ _ _ i j H Hrect Hrect' Hj) Hi).
      rewrite Hscale, Hmean, (Hconst i Hi). field.
    + rewrite (proj2 (@normalize_data_uses_training_statistics_aux
                        _ _ _ _ _ _ i j H Hrect Hrect' Hj) Hi).
      rewrite Hscale, Hmean. field.
Qed.

Lemma constant_feature_is_normalized_to_zero_witness :
  exists Xn Xtn scaler,
    normalize_data (Example.env Example.args) Example.X_train [[1; 1]; [1; 3]]
    = Ok (Xn, Xtn, scaler)
    /\ rectangular Example.X_train /\ rectangular [[1; 1]; [1; 3]]
    /\ (0 < sklearn.n_features Example.X_train)%nat
    /\ (forall i, (i < length Example.X_train)%nat -> entry Example.X_train i 0 == 1)
    /\ nth 0 (sklearn.scale_ scaler) 0 = 1
    /\ (forall i, (i < length Example.X_train)%nat -> entry Xn i 0 == 0).
Proof.
  assert (Hr : rectangular Example.X_train) by (repeat constructor).
  assert (Hr' : rectangular [[1; 1]; [1; 3]]) by (repeat constructor).
  assert (Hj : (0 < sklearn.n_features Example.X_train)%nat) by (cbn; lia).
  assert (Hc : forall i, (i < length Example.X_train)%nat -> entry Example.X_train i 0 == 1).
  { intros i Hi. cbn in Hi.
    do 10 (destruct i as [|i]; [reflexivity|]). lia. }
  do 3 eexists. split; [vm_compute; reflexivity|].
  split; [exact Hr|]. split; [exact Hr'|]. split; [exact Hj|]. split; [exact Hc|].
  destruct (@constant_feature_is_normalized_to_zero
              (Example.env Example.args) Example.X_train [[1; 1]; [1; 3]]
              _ _ _ 0%nat 1 ltac:(vm_compute; reflexivity) Hr Hr' Hj Hc)
    as (_ & Hs & Hz & _).
  split; [exact Hs | exact Hz].
Defined.

End Standardised.

(** ** [train_xgboost]: the class weight balances the classes *)

Section Balance.

Local Open Scope Q_scope.

Lemma of_nat_zero_iff (n : nat) : sklearn.of_nat n == 0 <-> n = 0%nat.
Proof.
  split.
  - intros E. destruct n as [|n]; [reflexivity|].
    assert (Hpos : 0 < sklearn.of_nat (S n)) by (apply of_nat_pos; lia).
    rewrite E in Hpos. exfalso. revert Hpos. apply Qlt_irrefl.
  - intros ->. reflexivity.
Qed.

(** X8: on 0/1 labels with a positive label, the class weight times the
    number of positive labels is the number of negative labels; the weight
    is never negative, and it is zero exactly when a positive label exists
    and no negative one does. *)
Theorem class_weight_balances_the_classes (y_train : list Q) (w : Q) :
  binary_labels y_train ->
  class_weight y_train = Ok w ->
  (count_label 1 y_train <> 0%nat ->
   w * sklearn.of_nat (count_label 1 y_train) == sklearn.of_nat (count_label 0 y_train))
  /\ 0 <= w
  /\ (w == 0 <-> (count_label 1 y_train <> 0%nat /\ count_label 0 y_train = 0%nat)).
Proof.
  intros Hbin Hw. destruct (binary_sum Hbin) as [Hpos Hneg].
  unfold class_weight, true_divide in Hw. cbv zeta in Hw.
  destruct (np.Qlt_bool 0 (np.sum y_train)) eqn:E.
  - unfold np.Qlt_bool in E. apply negb_true_iff in E.
    assert (H0 : 0 < np.sum y_train).
    { apply Qnot_le_lt. intros Hle. apply Qle_bool_iff in Hle. congruence. }
    destruct (Qeq_bool (np.sum y_train) 0); [discriminate|].
    injection Hw as <-. rewrite Hneg, Hpos. rewrite Hpos in H0.
    assert (Hc1 : count_label 1 y_train <> 0%nat).
    { intros Ez. rewrite Ez in H0. revert H0. apply Qlt_irrefl. }
    assert (Hc0 : 0 <= sklearn.of_nat (count_label 0 y_train)).
    { destruct (count_label 0 y_train) as [|n]; [apply Qle_refl|].
      apply Qlt_le_weak, of_nat_pos. lia. }
    split; [intros _; field; intros Ez; rewrite Ez in H0; revert H0; apply Qlt_irrefl|].
    split; [apply Qle_shift_div_l; [exact H0 | lra]|].
    split.
    + intros Ew. split; [exact Hc1|]. apply of_nat_zero_iff.
      assert (Hz : sklearn.of_nat (count_label 0 y_train)
                   == sklearn.of_nat (count_label 0 y_train)
                      / sklearn.of_nat (count_label 1 y_train)
                      * sklearn.of_nat (count_label 1 y_train)).
      { field. intros Ez. rewrite Ez in H0. revert H0. apply Qlt_irrefl. }
      rewrite Hz, Ew. ring.
    + intros [_ Ez]. rewrite Ez. unfold Qdiv. change (sklearn.of_nat 0) with 0. ring.
  - injection Hw as <-.
    unfold np.Qlt_bool in E. apply negb_false_iff, Qle_bool_iff in E. rewrite Hpos in E.
    assert (Hc1 : count_label 1 y_train = 0%nat).
    { destruct (count_label 1 y_train) as [|n] eqn:En; [reflexivity|].
      assert (0 < sklearn.of_nat (S n)) by (apply of_nat_pos; lia). lra. }
    split; [intros Hne; contradiction|].
    split; [discriminate|].
    split; [intros Ew; discriminate Ew | intros [Hne _]; contradiction].
Qed.

Lemma class_weight_balances_the_classes_witness :
  binary_labels [1; 1; 0; 1]
  /\ class_weight [1; 1; 0; 1] = Ok (1 # 3)
  /\ (1 # 3) * sklearn.of_nat (count_label 1 [1; 1; 0; 1])
     == sklearn.of_nat (count_label 0 [1; 1; 0; 1]).
Proof.
  assert (Hbin : binary_labels [1; 1; 0; 1]).
  { repeat constructor; solve [left; reflexivity | right; reflexivity]. }
  assert (Hw : class_weight [1; 1; 0; 1] = Ok (1 # 3)) by reflexivity.
  split; [exact Hbin|]. split; [exact Hw|].
  apply (proj1 (@class_weight_balances_the_classes [1; 1; 0; 1] (1 # 3) Hbin Hw)).
  discriminate.
Defined.

End Balance.

(** ** [evaluate_model]: which test sets are evaluated *)

Section TwoClasses.

Local Open Scope Q_scope.

Lemma type_of_target_integral (y : list Q) :
  sklearn.type_of_target y <> sklearn.continuous ->
  Forall (fun v => sklearn.is_integral v = true) y.
Proof.
  unfold sklearn.type_of_target.
  destruct (existsb (fun v => negb (sklearn.is_integral v)) y) eqn:E;
    [intros H; exfalso; apply H; reflexivity|].
  intros _. apply Forall_forall. intros v Hv.
  destruct (sklearn.is_integral v) eqn:Ev; [reflexivity|].
  assert (Hex : existsb (fun v => negb (sklearn.is_integral v)) y = true).
  { apply existsb_exists. exists v. rewrite Ev. auto. }
  congruence.
Qed.

Lemma check_targets_integral (y_true y_pred : list Q) (t : sklearn.target_type) :
  sklearn.check_targets y_true y_pred = Ok t ->
  Forall (fun v => sklearn.is_integral v = true) (y_true ++ y_pred).
Proof.
  unfold sklearn.check_targets. destruct (negb _); [discriminate|].
  intros H. apply Forall_app.
  split; apply type_of_target_integral; intros Ec; rewrite Ec in H;
    destruct (sklearn.type_of_target _); discriminate.
Qed.

Lemma check_set_wise_labels_pos_label (y_true y_pred : list Q) :
  sklearn.check_set_wise_labels y_true y_pred = Ok tt ->
  (2 <= length (sklearn.unique_labels y_true y_pred))%nat ->
  existsb (Qeq_bool sklearn.pos_label) (sklearn.unique_labels y_true y_pred) = true.
Proof.
  unfold sklearn.check_set_wise_labels. intros H Hlen.
  destruct (sklearn.check_targets y_true y_pred) as [[| |]|e]; cbn [rbind] in H;
    try discriminate.
  apply Nat.leb_le in Hlen. rewrite Hlen, andb_true_r in H.
  destruct (existsb _ _); [reflexivity | discriminate].
Qed.

(** X9: a test set is evaluated only if it has one label per row of the
    test matrix and the labels and the predictions together take exactly
    two values, one of which is the positive label 1, all of them whole
    numbers. *)
Theorem evaluate_model_needs_two_classes
    (env : Env) (model : XGBClassifier) (X_test : sklearn.matrix)
    (y_test : list Q) (m : Metrics) :
  evaluate_model env model X_test y_test = Ok m ->
  length y_test = length X_test
  /\ (exists a b,
        sklearn.unique_labels y_test (predict model X_test) = [a; b]
        /\ a < b /\ (a == 1 \/ b == 1))
  /\ Forall (fun v => sklearn.is_integral v = true) (y_test ++ predict model X_test).
Proof.
  intros Heval. apply evaluate_model_inv in Heval. cbv zeta in Heval.
  destruct Heval as (_ & Hp & _ & _ & _ & Hcm & [tp Htp] & _).
  unfold sklearn.precision_score in Hp. rinv Hp. destruct v.
  pose proof (check_set_wise_labels_binary _ _ E) as Hbin.
  pose proof (check_targets_length _ _ Hbin) as Hlen.
  pose proof (check_targets_binary _ _ Hbin) as Hle.
  pose proof (check_targets_integral _ _ Hbin) as Hint.
  apply confusion_matrix_total in Hcm. destruct Hcm as [Hcm _].
  apply cm_getitem_rows in Htp. rewrite Hcm, length_map in Htp.
  split; [unfold predict in Hlen; rewrite length_map in Hlen; exact Hlen|].
  split; [|exact Hint].
  pose proof (check_set_wise_labels_pos_label _ _ E) as Hpos.
  pose proof (unique_sorted (y_test ++ predict model X_test)) as Hsorted.
  fold (sklearn.unique_labels y_test (predict model X_test)) in Hsorted.
  destruct (sklearn.unique_labels y_test (predict model X_test))
    as [|a [|b [|c l]]]; simpl in Htp, Hle; try lia.
  exists a, b. split; [reflexivity|]. split.
  - apply StronglySorted_inv in Hsorted. destruct Hsorted as [_ Hab].
    inversion Hab; subst. assumption.
  - specialize (Hpos ltac:(simpl; lia)). simpl in Hpos.
    rewrite orb_false_r in Hpos. apply orb_true_iff in Hpos.
    unfold sklearn.pos_label in Hpos.
    destruct Hpos as [Hq|Hq]; apply Qeq_bool_eq in Hq; [left | right];
      symmetry; exact Hq.
Qed.

Lemma evaluate_model_needs_two_classes_witness :
  exists m,
    evaluate_model (Example.env Example.args) Example.model
                   Example.X_test_norm Example.y_test = Ok m
    /\ length Example.y_test = length Example.X_test_norm
    /\ exists a b,
         sklearn.unique_labels Example.y_test
                               (predict Example.model Example.X_test_norm) = [a; b]
         /\ a < b /\ (a == 1 \/ b == 1).
Proof.
  eexists. split; [vm_compute; reflexivity|].
  destruct (@evaluate_model_needs_two_classes
              (Example.env Example.args) Example.model
              Example.X_test_norm Example.y_test _ ltac:(vm_compute; reflexivity))
    as (Hlen & Hlabels & _).
  split; assumption.
Defined.

End TwoClasses.

(** ** [evaluate_model]: the ratios and the confusion matrix *)

Section Cells.

Local Open Scope Q_scope.

Lemma cell_ext (samples : list (Q * Q)) (lt lp lt' lp' : Q) :
  lt == lt' -> lp == lp' -> cell samples lt lp = cell samples lt' lp'.
Proof.
  intros Ht Hp. unfold cell. f_equal. apply filter_ext. intros s.
  rewrite (Qeqb_comp (fst s) (fst s) (Qeq_refl _) lt lt' Ht).
  rewrite (Qeqb_comp (snd s) (snd s) (Qeq_refl _) lp lp' Hp).
  reflexivity.
Qed.

Lemma Qeq_bool_01 (v : Q) :
  v == 0 \/ v == 1 ->
  (Qeq_bool v 0 = true /\ Qeq_bool v 1 = false)
  \/ (Qeq_bool v 0 = false /\ Qeq_bool v 1 = true).
Proof.
  intros [E|E]; [left | right]; split;
    solve [ apply Qeq_eq_bool; exact E
          | destruct (Qeq_bool v _) eqn:Eb; [|reflexivity];
            apply Qeq_bool_eq in Eb; rewrite E in Eb; discriminate Eb ].
Qed.

Lemma Qeq_bool_diag_01 (t p : Q) :
  t == 0 \/ t == 1 -> p == 0 \/ p == 1 ->
  Qeq_bool t p = (Qeq_bool t 0 && Qeq_bool p 0) || (Qeq_bool t 1 && Qeq_bool p 1).
Proof.
  intros Ht Hp.
  destruct (Qeq_bool_01 Ht) as [[Et0 Et1]|[Et0 Et1]];
    destruct (Qeq_bool_01 Hp) as [[Ep0 Ep1]|[Ep0 Ep1]];
    rewrite Et0, Et1, Ep0, Ep1; cbn;
    apply Qeq_bool_eq in Et0 || apply Qeq_bool_eq in Et1;
    apply Qeq_bool_eq in Ep0 || apply Qeq_bool_eq in Ep1.
  - apply Qeq_eq_bool. rewrite Et0, Ep0. reflexivity.
  - destruct (Qeq_bool t p) eqn:Eb; [|reflexivity].
    apply Qeq_bool_eq in Eb. rewrite Et0, Ep1 in Eb. discriminate Eb.
  - destruct (Qeq_bool t p) eqn:Eb; [|reflexivity].
    apply Qeq_bool_eq in Eb. rewrite Et1, Ep0 in Eb. discriminate Eb.
  - apply Qeq_eq_bool. rewrite Et1, Ep1. reflexivity.
Qed.

(** The counts behind the four ratios, in the cells of a 0/1 table. *)
Lemma counts_in_cells (samples : list (Q * Q)) :
  Forall (fun s => (fst s == 0 \/ fst s == 1) /\ (snd s == 0 \/ snd s == 1)) samples ->
  length (filter (fun s => Qeq_bool (fst s) (snd s)) samples)
  = (cell samples 0 0 + cell samples 1 1)%nat
  /\ length (filter (fun s => Qeq_bool (fst s) 1 && Qeq_bool (snd s) 1) samples)
     = cell samples 1 1
  /\ length (filter (fun s => Qeq_bool (snd s) 1) samples)
     = (cell samples 0 1 + cell samples 1 1)%nat
  /\ length (filter (fun s => Qeq_bool (fst s) 1) samples)
     = (cell samples 1 0 + cell samples 1 1)%nat
  /\ length samples
     = (cell samples 0 0 + cell samples 0 1 + cell samples 1 0 + cell samples 1 1)%nat.
Proof.
  unfold cell.
  induction 1 as [|[t p] samples [Ht Hp] _ (IH1 & IH2 & IH3 & IH4 & IH5)];
    [repeat split|].
  cbn [fst snd] in Ht, Hp. cbn [filter fst snd].
  rewrite (Qeq_bool_diag_01 Ht Hp).
  destruct (Qeq_bool_01 Ht) as [[Et0 Et1]|[Et0 Et1]];
    destruct (Qeq_bool_01 Hp) as [[Ep0 Ep1]|[Ep0 Ep1]];
    rewrite Et0, Et1, Ep0, Ep1; cbn [andb orb length];
    repeat split; lia.
Qed.

Lemma count_where_filter (cond : Q -> Q -> bool) (a b : list Q) :
  np.count_where cond a b
  = length (filter (fun s => cond (fst s) (snd s)) (combine a b)).
Proof. reflexivity. Qed.

Lemma binary_samples (y_true y_pred : list Q) :
  binary_labels y_true -> binary_labels y_pred ->
  Forall (fun s => (fst s == 0 \/ fst s == 1) /\ (snd s == 0 \/ snd s == 1))
         (combine y_true y_pred).
Proof.
  unfold binary_labels. rewrite !Forall_forall. intros Ht Hp [t p] Hin. cbn [fst snd].
  split; [apply Ht; eapply in_combine_l | apply Hp; eapply in_combine_r]; eassumption.
Qed.

(** X10: on 0/1 labels and predictions the ratios are those of the cells
    the report prints as TN, FP, FN and TP: accuracy is (TP + TN) / n,
    precision TP / (TP + FP), recall TP / (TP + FN) and F1
    2 TP / (2 TP + FP + FN), the last three being 0 where the denominator
    is zero. *)
Theorem metrics_agree_with_confusion_matrix
    (env : Env) (model : XGBClassifier) (X_test : sklearn.matrix)
    (y_test : list Q) (m : Metrics) (tn fp fn tp : nat) :
  evaluate_model env model X_test y_test = Ok m ->
  binary_labels y_test -> binary_labels (predict model X_test) ->
  confusion_matrix m = [[tn; fp]; [fn; tp]] ->
  (tn + fp + fn + tp = length y_test)%nat
  /\ accuracy m = sklearn.of_nat (tn + tp) / sklearn.of_nat (length y_test)
  /\ precision m = sklearn.prf_divide tp (fp + tp) 0
  /\ recall m = sklearn.prf_divide tp (fn + tp) 0
  /\ f1 m = sklearn.prf_divide (2 * tp) ((fn + tp) + (fp + tp)) 0.
Proof.
  intros Heval Ht Hp Hcm. apply evaluate_model_inv in Heval. cbv zeta in Heval.
  destruct Heval as (Ha & Hpr & Hr & Hf & _ & Hcm' & _).
  set (y_pred := predict model X_test) in *.
  pose proof (counts_in_cells (binary_samples Ht Hp)) as (C1 & C2 & C3 & C4 & C5).
  apply confusion_matrix_total in Hcm'. destruct Hcm' as [Hcells _].
  rewrite Hcm in Hcells.
  assert (Hlabels : exists a b, sklearn.unique_labels y_test y_pred = [a; b]
                                /\ a == 0 /\ b == 1).
  { destruct (sklearn.unique_labels y_test y_pred) as [|a [|b [|c l]]] eqn:El;
      try discriminate Hcells.
    exists a, b. split; [reflexivity|].
    destruct (@sorted_binary [a; b]) as [E|[[x E]|(a' & b' & E & Ea & Eb)]];
      try discriminate E.
    - rewrite <- El. apply unique_sorted.
    - intros z Hz. rewrite <- El in Hz. unfold sklearn.unique_labels in Hz.
      apply (proj1 (unique_InA _ _)) in Hz.
      apply (@binary_labels_InA (y_test ++ y_pred)); [|exact Hz].
      apply binary_labels_app; assumption.
    - injection E as -> ->. auto. }
  destruct Hlabels as (a & b & El & Ea & Eb). rewrite El in Hcells.
  cbn [map] in Hcells. injection Hcells as -> -> -> ->.
  rewrite (cell_ext _ Ea Ea), (cell_ext _ Ea Eb), (cell_ext _ Eb Ea), (cell_ext _ Eb Eb).
  assert (Hlen : length (combine y_test y_pred) = length y_test).
  { unfold sklearn.accuracy_score in Ha. rinv Ha.
    rewrite length_combine, (check_targets_length _ _ E). apply Nat.min_id. }
  split; [rewrite <- Hlen; lia|].
  unfold sklearn.accuracy_score in Ha. rinv Ha. injection Ha as <-.
  unfold sklearn.precision_score in Hpr. rinv Hpr. injection Hpr as <-.
  unfold sklearn.recall_score in Hr. rinv Hr. injection Hr as <-.
  unfold sklearn.f1_score in Hf. rinv Hf. injection Hf as <-.
  unfold sklearn.tp_sum, sklearn.pred_sum, sklearn.true_sum, sklearn.pos_label.
  rewrite !count_where_filter. cbv beta.
  rewrite C1, C2, C3, C4. repeat split.
Qed.

Lemma metrics_agree_with_confusion_matrix_witness :
  exists m,
    evaluate_model (Example.env Example.args) Example.model
                   Example.X_test_norm Example.y_test = Ok m
    /\ binary_labels Example.y_test
    /\ binary_labels (predict Example.model Example.X_test_norm)
    /\ confusion_matrix m = [[1; 0]; [0; 1]]%nat
    /\ accuracy m = sklearn.of_nat (1 + 1) / sklearn.of_nat (length Example.y_test)
    /\ precision m = sklearn.prf_divide 1 (0 + 1) 0.
Proof.
  assert (Ht : binary_labels Example.y_test).
  { repeat constructor; solve [left; reflexivity | right; reflexivity]. }
  assert (Hp : binary_labels (predict Example.model Example.X_test_norm)).
  { repeat constructor; solve [left; reflexivity | right; reflexivity]. }
  eexists. split; [vm_compute; reflexivity|].
  split; [exact Ht|]. split; [exact Hp|]. split; [reflexivity|].
  destruct (@metrics_agree_with_confusion_matrix
              (Example.env Example.args) Example.model
              Example.X_test_norm Example.y_test _ 1%nat 0%nat 0%nat 1%nat
              ltac:(vm_compute; reflexivity) Ht Hp eq_refl)
    as (_ & Ha & Hpr & _).
  split; assumption.
Defined.

End Cells.

(** ** [evaluate_model]: the calibration table and the simulated trades *)

Section Tallies.

Local Open Scope Q_scope.

(** A boolean mask over the values [key x], and a count of the selected
    items that also satisfy [g]. *)
Lemma bucket_split (a b c v : Q) :
  a <= b -> b <= c ->
  (Qle_bool a v && np.Qlt_bool v c
   = (Qle_bool a v && np.Qlt_bool v b) || (Qle_bool b v && np.Qlt_bool v c))%bool
  /\ ((Qle_bool a v && np.Qlt_bool v b) && (Qle_bool b v && np.Qlt_bool v c) = false)%bool.
Proof.
  intros Hab Hbc. unfold np.Qlt_bool.
  destruct (Qle_bool a v) eqn:Ea, (Qle_bool b v) eqn:Eb, (Qle_bool c v) eqn:Ec;
    cbn; try (split; reflexivity); exfalso;
    repeat match goal with
    | H : Qle_bool _ _ = true |- _ => apply Qle_bool_iff in H
    | H : Qle_bool ?x ?y = false |- _ =>
        assert (~ x <= y) by (intros Hle; apply Qle_bool_iff in Hle; congruence);
        clear H
    end;
    match goal with H : ~ _ |- _ => apply H; lra end.
Qed.

Lemma filter_split {A} (key : A -> Q) (g : A -> bool) (a b c : Q) (z : list A) :
  a <= b -> b <= c ->
  length (filter (fun x => Qle_bool a (key x) && np.Qlt_bool (key x) c && g x) z)
  = (length (filter (fun x => Qle_bool a (key x) && np.Qlt_bool (key x) b && g x) z)
     + length (filter (fun x => Qle_bool b (key x) && np.Qlt_bool (key x) c && g x) z))%nat.
Proof.
  intros Hab Hbc. induction z as [|x z IH]; [reflexivity|].
  cbn [filter]. destruct (bucket_split (key x) Hab Hbc) as [Hor Hand].
  rewrite Hor.
  destruct (Qle_bool a (key x) && np.Qlt_bool (key x) b)%bool,
           (Qle_bool b (key x) && np.Qlt_bool (key x) c)%bool;
    try discriminate Hand; cbn [orb andb]; destruct (g x); cbn [length]; lia.
Qed.

Lemma count_true_filter (f : Q -> bool) (l : list Q) :
  np.count_true (map f l) = length (filter (fun v => f v && true) l).
Proof.
  unfold np.count_true. induction l as [|v l IH]; [reflexivity|].
  cbn [map filter]. rewrite andb_true_r. destruct (f v); cbn [length]; lia.
Qed.

(** [correct_in] counts aligned triples: a mask bit, a prediction and a
    label. *)
Lemma correct_in_filter (f : Q -> bool) (l y_pred y_test : list Q) :
  correct_in (map f l) y_pred y_test
  = length (filter (fun x => f (fst x) && Qeq_bool (fst (snd x)) (snd (snd x)))
                   (combine l (combine y_pred y_test))).
Proof.
  unfold correct_in, np.count_where.
  revert y_pred y_test. induction l as [|v l IH]; intros y_pred y_test.
  - destruct y_pred; reflexivity.
  - destruct y_pred as [|p y_pred]; [reflexivity|].
    destruct y_test as [|t y_test].
    + cbn [map np.index_mask combine]. destruct (f v); cbn [np.index_mask];
        rewrite ?combine_nil; reflexivity.
    + cbn [map combine filter fst snd]. specialize (IH y_pred y_test).
      destruct (f v); cbn [np.index_mask combine filter fst snd andb].
      * destruct (Qeq_bool p t); cbn [length]; rewrite IH; reflexivity.
      * exact IH.
Qed.

Lemma prob_max_map (y_proba : list Q) :
  prob_max y_proba = map (fun p => Qmax p (1 - p)) y_proba.
Proof.
  unfold prob_max, np.maximum. induction y_proba as [|p l IH]; [reflexivity|].
  cbn [map combine fst snd]. rewrite IH. reflexivity.
Qed.

Lemma prob_max_length (y_proba : list Q) : length (prob_max y_proba) = length y_proba.
Proof. rewrite prob_max_map. apply length_map. Qed.

(** The greater of [p] and [1 - p] is at least one half, and at most one
    for a probability. *)
Lemma prob_max_range (y_proba : list Q) :
  Forall in01 y_proba ->
  Forall (fun v => Qle_bool (50 # 100) v && np.Qlt_bool v (101 # 100) = true)
         (prob_max y_proba).
Proof.
  intros H. rewrite prob_max_map. apply Forall_map.
  eapply Forall_impl; [|exact H]. intros p [H0 H1]. cbv beta.
  pose proof (Q.le_max_l p (1 - p)). pose proof (Q.le_max_r p (1 - p)).
  assert (Hub : Qmax p (1 - p) <= 1) by (apply Q.max_lub; lra).
  apply andb_true_iff. split.
  - apply Qle_bool_iff. lra.
  - unfold np.Qlt_bool. apply negb_true_iff.
    destruct (Qle_bool (101 # 100) (Qmax p (1 - p))) eqn:E; [|reflexivity].
    apply Qle_bool_iff in E. lra.
Qed.

Lemma filter_all {A} (f : A -> bool) (l : list A) :
  Forall (fun x => f x = true) l -> filter f l = l.
Proof.
  induction 1 as [|x l Hx _ IH]; [reflexivity|].
  cbn [filter]. rewrite Hx, IH. reflexivity.
Qed.

Lemma Qeq_bool_sym (x y : Q) : Qeq_bool x y = Qeq_bool y x.
Proof.
  destruct (Qeq_bool x y) eqn:E1, (Qeq_bool y x) eqn:E2; try reflexivity.
  - apply Qeq_bool_eq in E1. symmetry in E1. apply Qeq_eq_bool in E1. congruence.
  - apply Qeq_bool_eq in E2. symmetry in E2. apply Qeq_eq_bool in E2. congruence.
Qed.

Lemma count_where_sym (a : list Q) :
  forall b, np.count_where Qeq_bool a b = np.count_where Qeq_bool b a.
Proof.
  unfold np.count_where.
  induction a as [|x a IH]; intros [|y b]; try reflexivity.
  cbn [combine filter fst snd]. rewrite (Qeq_bool_sym x y).
  destruct (Qeq_bool y x); cbn [length]; rewrite IH; reflexivity.
Qed.

(** Over masks that select everything, the aligned count is the count of
    equal pairs. *)
Lemma filter_pairs (l y_pred y_test : list Q) :
  length l = length y_pred -> length y_pred = length y_test ->
  length (filter (fun x => Qeq_bool (fst (snd x)) (snd (snd x)))
                 (combine l (combine y_pred y_test)))
  = np.count_where Qeq_bool y_pred y_test.
Proof.
  unfold np.count_where. revert y_pred y_test.
  induction l as [|v l IH]; intros [|p y_pred] [|t y_test] H1 H2;
    try discriminate; [reflexivity|].
  injection H1 as H1. injection H2 as H2.
  cbn [combine filter fst snd]. destruct (Qeq_bool p t); cbn [length];
    rewrite (IH _ _ H1 H2); reflexivity.
Qed.

(** What one turn of the calibration loop appends. *)
Lemma calibration_step_inv (y_proba y_pred y_test : list Q) (label : string)
    (lo hi : Q) (step : list CalibrationEntry) :
  calibration_step y_proba y_pred y_test (label, lo, hi) = Ok step ->
  let mask := map (fun v => Qle_bool lo v && np.Qlt_bool v hi) (prob_max y_proba) in
  (step = []
   \/ step = [{| cal_range := label;
                 cal_total := np.count_true mask;
                 cal_correct := correct_in mask y_pred y_test;
                 cal_accuracy :=
                   sklearn.of_nat (correct_in mask y_pred y_test)
                   / sklearn.of_nat (np.count_true mask) * 100 |}]
      /\ (0 < np.count_true mask)%nat)
  /\ list_sum (map cal_total step) = np.count_true mask.
Proof.
  unfold calibration_step. cbv zeta.
  destruct (0 <? _)%nat eqn:Epos.
  - unfold true_divide. destruct (Qeq_bool _ 0); [discriminate|].
    cbn [rbind]. intros H. injection H as <-.
    apply Nat.ltb_lt in Epos. split; [right; auto|]. cbn. lia.
  - intros H. injection H as <-. apply Nat.ltb_ge in Epos.
    split; [left; reflexivity|]. cbn. lia.
Qed.

Lemma correct_in_le_count_true (mask : list bool) :
  forall y_pred y_test, (correct_in mask y_pred y_test <= np.count_true mask)%nat.
Proof.
  unfold correct_in, np.count_where, np.count_true.
  induction mask as [|b mask IH]; intros y_pred y_test.
  - destruct y_pred; cbn; lia.
  - destruct y_pred as [|p y_pred]; [cbn; lia|].
    destruct y_test as [|t y_test].
    + destruct b; cbn [np.index_mask]; rewrite ?combine_nil; cbn; lia.
    + specialize (IH y_pred y_test).
      destruct b; cbn [np.index_mask combine filter fst snd length].
      * destruct (Qeq_bool p t); cbn [length]; lia.
      * lia.
Qed.

Lemma for_append_inv {A B} (body : A -> result (list B)) (items : list A)
    (out : list B) :
  for_append body items = Ok out ->
  exists steps, Forall2 (fun x step => body x = Ok step) items steps
                /\ out = concat steps.
Proof.
  unfold for_append. intros H. rinv H. injection H as <-.
  exists v. split; [apply mapM_Ok_inv; exact E | reflexivity].
Qed.

Lemma list_sum_concat {B} (f : B -> nat) (steps : list (list B)) :
  list_sum (map f (concat steps))
  = list_sum (map (fun step => list_sum (map f step)) steps).
Proof.
  induction steps as [|s steps IH]; [reflexivity|].
  cbn [concat map list_sum]. rewrite map_app, list_sum_app, IH. reflexivity.
Qed.

Lemma for_append_sum {A B} (body : A -> result (list B)) (items : list A)
    (out : list B) (f : B -> nat) (g : A -> nat) :
  for_append body items = Ok out ->
  (forall x step, In x items -> body x = Ok step -> list_sum (map f step) = g x) ->
  list_sum (map f out) = list_sum (map g items).
Proof.
  intros H Hstep. destruct (for_append_inv _ _ H) as (steps & HF & ->). clear H.
  induction HF as [|x step items steps Hx _ IH]; [reflexivity|].
  cbn [concat]. rewrite map_app, list_sum_app.
  rewrite (Hstep x step (or_introl eq_refl) Hx), IH; [reflexivity|].
  intros y s Hy. apply Hstep. right. exact Hy.
Qed.

(** The seven buckets are consecutive intervals from 0.50 to 1.01. *)
Lemma buckets_partition {A} (key : A -> Q) (g : A -> bool) (z : list A) :
  list_sum (map (fun b : string * Q * Q =>
                   length (filter (fun x => Qle_bool (snd (fst b)) (key x)
                                            && np.Qlt_bool (key x) (snd b) && g x) z))
                buckets)
  = length (filter (fun x => Qle_bool (50 # 100) (key x)
                             && np.Qlt_bool (key x) (101 # 100) && g x) z).
Proof.
  unfold buckets. cbn [map list_sum fst snd].
  rewrite (@filter_split A key g (50 # 100) (55 # 100) (101 # 100) z) by lra.
  rewrite (@filter_split A key g (55 # 100) (60 # 100) (101 # 100) z) by lra.
  rewrite (@filter_split A key g (60 # 100) (65 # 100) (101 # 100) z) by lra.
  rewrite (@filter_split A key g (65 # 100) (70 # 100) (101 # 100) z) by lra.
  rewrite (@filter_split A key g (70 # 100) (80 # 100) (101 # 100) z) by lra.
  rewrite (@filter_split A key g (80 # 100) (90 # 100) (101 # 100) z) by lra.
  unfold list_sum. cbn [fold_right]. lia.
Qed.

Lemma evaluate_model_lengths (env : Env) (model : XGBClassifier)
    (X_test : sklearn.matrix) (y_test : list Q) (m : Metrics) :
  evaluate_model env model X_test y_test = Ok m ->
  length (predict model X_test) = length y_test
  /\ length (predict_proba1 model X_test) = length y_test.
Proof.
  intros Heval. apply evaluate_model_inv in Heval. cbv zeta in Heval.
  destruct Heval as (Ha & _). unfold sklearn.accuracy_score in Ha. rinv Ha.
  apply check_targets_length in E. unfold predict, predict_proba1 in *.
  rewrite length_map in E. rewrite !length_map. auto.
Qed.

(** X11: when every predicted probability lies in [0, 1], each test sample
    falls in exactly one calibration bucket: the totals of the calibration
    entries add up to the size of the test set, their correct counts add up
    to the number of correct predictions, and the accuracy is the ratio of
    the two sums. *)
Theorem calibration_buckets_partition_the_test_set
    (env : Env) (model : XGBClassifier) (X_test : sklearn.matrix)
    (y_test : list Q) (m : Metrics) :
  evaluate_model env model X_test y_test = Ok m ->
  Forall in01 (predict_proba1 model X_test) ->
  list_sum (map cal_total (calibration m)) = length y_test
  /\ list_sum (map cal_correct (calibration m))
     = np.count_where Qeq_bool y_test (predict model X_test)
  /\ accuracy m
     = sklearn.of_nat (list_sum (map cal_correct (calibration m)))
       / sklearn.of_nat (list_sum (map cal_total (calibration m))).
Proof.
  intros Heval Hproba.
  destruct (evaluate_model_lengths _ _ _ _ Heval) as [Hlp Hlq].
  apply evaluate_model_inv in Heval. cbv zeta in Heval.
  destruct Heval as (Ha & _ & _ & _ & _ & _ & _ & Hcal & _).
  set (y_pred := predict model X_test) in *.
  set (y_proba := predict_proba1 model X_test) in *.
  pose proof (prob_max_range Hproba) as Hrange.
  pose proof (prob_max_length y_proba) as Hlm.
  assert (Htotal : list_sum (map cal_total (calibration m)) = length y_test).
  { rewrite (for_append_sum _ _ cal_total
               (fun b : string * Q * Q =>
                  length (filter (fun v => Qle_bool (snd (fst b)) v
                                           && np.Qlt_bool v (snd b) && true)
                                 (prob_max y_proba)))
               Hcal).
    - rewrite (buckets_partition (fun v : Q => v) (fun _ => true) (prob_max y_proba)).
      rewrite filter_all.
      + rewrite Hlm. exact Hlq.
      + eapply Forall_impl; [|exact Hrange]. intros v Hv. cbv beta.
        rewrite Hv. reflexivity.
    - intros [[label lo] hi] step _ Hstep.
      destruct (calibration_step_inv _ _ _ _ _ _ Hstep) as [_ Hsum].
      rewrite Hsum. cbn [fst snd]. apply count_true_filter. }
  assert (Hcorrect : list_sum (map cal_correct (calibration m))
                     = np.count_where Qeq_bool y_test y_pred).
  { rewrite (for_append_sum _ _ cal_correct
               (fun b : string * Q * Q =>
                  length (filter (fun x => Qle_bool (snd (fst b)) (fst x)
                                           && np.Qlt_bool (fst x) (snd b)
                                           && Qeq_bool (fst (snd x)) (snd (snd x)))
                                 (combine (prob_max y_proba) (combine y_pred y_test))))
               Hcal).
    - rewrite (buckets_partition (fun x : Q * (Q * Q) => fst x)
                 (fun x => Qeq_bool (fst (snd x)) (snd (snd x)))
                 (combine (prob_max y_proba) (combine y_pred y_test))).
      rewrite filter_ext_in
        with (g := fun x : Q * (Q * Q) => Qeq_bool (fst (snd x)) (snd (snd x))).
      + rewrite filter_pairs by congruence. apply count_where_sym.
      + intros [v pt] Hin. cbn [fst snd].
        rewrite Forall_forall in Hrange.
        rewrite (Hrange v (in_combine_l _ _ _ _ Hin)). reflexivity.
    - intros [[label lo] hi] step _ Hstep.
      destruct (calibration_step_inv _ _ _ _ _ _ Hstep) as [[->|[-> Hpos]] _].
      + pose proof (correct_in_filter (fun v => Qle_bool lo v && np.Qlt_bool v hi)
                      (prob_max y_proba) y_pred y_test) as Hc.
        cbv beta in Hc. unfold list_sum. cbn [map fold_right fst snd]. rewrite <- Hc.
        unfold calibration_step in Hstep. cbv zeta in Hstep.
        destruct (0 <? _)%nat eqn:Epos.
        * unfold true_divide in Hstep. destruct (Qeq_bool _ 0); discriminate Hstep.
        * apply Nat.ltb_ge in Epos.
          pose proof (correct_in_le_count_true
                        (map (fun v => Qle_bool lo v && np.Qlt_bool v hi)
                             (prob_max y_proba)) y_pred y_test).
          lia.
      + pose proof (correct_in_filter (fun v => Qle_bool lo v && np.Qlt_bool v hi)
                      (prob_max y_proba) y_pred y_test) as Hc.
        cbv beta in Hc. unfold list_sum. cbn [map fold_right cal_correct fst snd].
        rewrite <- Hc. lia. }
  split; [exact Htotal|]. split; [exact Hcorrect|].
  rewrite Htotal, Hcorrect.
  unfold sklearn.accuracy_score in Ha. rinv Ha. injection Ha as <-. reflexivity.
Qed.

Lemma calibration_buckets_partition_the_test_set_witness :
  exists m,
    evaluate_model (Example.env Example.args) Example.model
                   Example.X_test_norm Example.y_test = Ok m
    /\ Forall in01 (predict_proba1 Example.model Example.X_test_norm)
    /\ list_sum (map cal_total (calibration m)) = length Example.y_test.
Proof.
  assert (Hp : Forall in01 (predict_proba1 Example.model Example.X_test_norm)).
  { repeat constructor; vm_compute; discriminate. }
  eexists. split; [vm_compute; reflexivity|]. split; [exact Hp|].
  apply (@calibration_buckets_partition_the_test_set
           (Example.env Example.args) Example.model
           Example.X_test_norm Example.y_test _ ltac:(vm_compute; reflexivity) Hp).
Defined.

End Tallies.

Section Entries.

Local Open Scope Q_scope.

(** What one turn of the simulated-trading loop appends. *)
Lemma trading_step_cases (y_proba y_pred y_test : list Q) (t : Q)
    (step : list TradingEntry) :
  trading_step y_proba y_pred y_test t = Ok step ->
  let mask := trade_mask y_proba t in
  (step = [] /\ np.count_true mask = 0%nat)
  \/ (step = [{| threshold := t;
                 trades := np.count_true mask;
                 wins := correct_in mask y_pred y_test;
                 trade_accuracy :=
                   sklearn.of_nat (correct_in mask y_pred y_test)
                   / sklearn.of_nat (np.count_true mask) * 100;
                 coverage :=
                   sklearn.of_nat (np.count_true mask)
                   / sklearn.of_nat (length y_test) * 100 |}]
      /\ (0 < np.count_true mask)%nat).
Proof.
  unfold trading_step. cbv zeta.
  destruct (0 <? _)%nat eqn:Epos.
  - unfold true_divide. destruct (Qeq_bool _ 0); [discriminate|]. cbn [rbind].
    destruct (Qeq_bool _ 0); [discriminate|]. cbn [rbind].
    intros H. injection H as <-. apply Nat.ltb_lt in Epos. right. auto.
  - intros H. injection H as <-. apply Nat.ltb_ge in Epos. left. split; [reflexivity | lia].
Qed.

Lemma count_true_map_le {A} (f : A -> bool) (l : list A) :
  (np.count_true (map f l) <= length l)%nat.
Proof.
  unfold np.count_true. etransitivity; [apply filter_length_le|].
  rewrite length_map. apply Nat.le_refl.
Qed.

Lemma percent_range (a b : nat) :
  (a <= b)%nat ->
  0 <= sklearn.of_nat a / sklearn.of_nat b * 100
  /\ sklearn.of_nat a / sklearn.of_nat b * 100 <= 100.
Proof.
  intros H. destruct (of_nat_ratio_in01 H) as [H0 H1]. split; lra.
Qed.

Lemma percent_pos (a b : nat) :
  (0 < a)%nat -> (0 < b)%nat -> 0 < sklearn.of_nat a / sklearn.of_nat b * 100.
Proof.
  intros Ha Hb. pose proof (of_nat_pos Ha). pose proof (of_nat_pos Hb).
  assert (0 < sklearn.of_nat a / sklearn.of_nat b)
    by (apply Qlt_shift_div_l; [assumption | lra]).
  lra.
Qed.

Lemma evaluation_entries_aux
    (env : Env) (model : XGBClassifier) (X_test : sklearn.matrix)
    (y_test : list Q) (m : Metrics) :
  evaluate_model env model X_test y_test = Ok m ->
  Forall (fun e =>
            (0 < cal_total e)%nat /\ (cal_total e <= length y_test)%nat
            /\ (cal_correct e <= cal_total e)%nat
            /\ cal_accuracy e
               = sklearn.of_nat (cal_correct e) / sklearn.of_nat (cal_total e) * 100
            /\ 0 <= cal_accuracy e /\ cal_accuracy e <= 100
            /\ In (cal_range e) (map (fun b => fst (fst b)) buckets))
         (calibration m)
  /\ Forall (fun e =>
               (0 < trades e)%nat /\ (trades e <= length y_test)%nat
               /\ (wins e <= trades e)%nat
               /\ trade_accuracy e
                  = sklearn.of_nat (wins e) / sklearn.of_nat (trades e) * 100
               /\ 0 <= trade_accuracy e /\ trade_accuracy e <= 100
               /\ coverage e
                  = sklearn.of_nat (trades e) / sklearn.of_nat (length y_test) * 100
               /\ 0 < coverage e /\ coverage e <= 100
               /\ In (threshold e) thresholds)
            (trading_simulation m).
Proof.
  intros Heval.
  destruct (evaluate_model_lengths _ _ _ _ Heval) as [Hlp Hlq].
  apply evaluate_model_inv in Heval. cbv zeta in Heval.
  destruct Heval as (_ & _ & _ & _ & _ & _ & _ & Hcal & Htrd).
  set (y_pred := predict model X_test) in *.
  set (y_proba := predict_proba1 model X_test) in *.
  split; apply Forall_forall; intros e He.
  - apply (for_append_In _ _ e Hcal) in He.
    destruct He as ([[label lo] hi] & step & Hb & Hstep & Hin).
    destruct (calibration_step_inv _ _ _ _ _ _ Hstep) as [[->|[-> Hpos]] _];
      [contradiction|].
    destruct Hin as [<-|[]]. cbn [cal_total cal_correct cal_accuracy cal_range].
    set (mask := map (fun v => Qle_bool lo v && np.Qlt_bool v hi) (prob_max y_proba)) in *.
    pose proof (correct_in_le_count_true mask y_pred y_test) as Hle.
    assert (Hlen : (np.count_true mask <= length y_test)%nat).
    { rewrite <- Hlq, <- prob_max_length. apply count_true_map_le. }
    destruct (percent_range Hle) as [H0 H1].
    repeat split; try assumption.
    apply in_map_iff. exists (label, lo, hi). split; [reflexivity | exact Hb].
  - apply (for_append_In _ _ e Htrd) in He.
    destruct He as (t & step & Ht & Hstep & Hin).
    destruct (trading_step_cases _ _ _ _ Hstep) as [[-> _]|[-> Hpos]];
      [contradiction|].
    destruct Hin as [<-|[]].
    cbn [trades wins trade_accuracy coverage threshold].
    set (mask := trade_mask y_proba t) in *.
    pose proof (correct_in_le_count_true mask y_pred y_test) as Hle.
    assert (Hlen : (np.count_true mask <= length y_test)%nat).
    { rewrite <- Hlq, <- prob_max_length. apply count_true_map_le. }
    destruct (percent_range Hle) as [H0 H1].
    destruct (percent_range Hlen) as [_ H3].
    assert (H2 : 0 < sklearn.of_nat (np.count_true mask)
                     / sklearn.of_nat (length y_test) * 100)
      by (apply percent_pos; lia).
    repeat split; assumption.
Qed.

(** X12: every calibration entry and every simulated-trading entry of an
    evaluated run is well formed: its sample count is positive and at most
    the size of the test set, its count of correct predictions is at most
    its sample count, its accuracy is the percentage of the two and lies
    in [0, 100], and the coverage of a trading entry is the percentage of
    the test set it trades on, in (0, 100]. *)
Theorem evaluation_entries_are_well_formed
    (env : Env) (model : XGBClassifier) (X_test : sklearn.matrix)
    (y_test : list Q) (m : Metrics) :
  evaluate_model env model X_test y_test = Ok m ->
  Forall (fun e =>
            (0 < cal_total e)%nat /\ (cal_total e <= length y_test)%nat
            /\ (cal_correct e <= cal_total e)%nat
            /\ cal_accuracy e
               = sklearn.of_nat (cal_correct e) / sklearn.of_nat (cal_total e) * 100
            /\ 0 <= cal_accuracy e /\ cal_accuracy e <= 100
            /\ In (cal_range e) (map (fun b => fst (fst b)) buckets))
         (calibration m)
  /\ Forall (fun e =>
               (0 < trades e)%nat /\ (trades e <= length y_test)%nat
               /\ (wins e <= trades e)%nat
               /\ trade_accuracy e
                  = sklearn.of_nat (wins e) / sklearn.of_nat (trades e) * 100
               /\ 0 <= trade_accuracy e /\ trade_accuracy e <= 100
               /\ coverage e
                  = sklearn.of_nat (trades e) / sklearn.of_nat (length y_test) * 100
               /\ 0 < coverage e /\ coverage e <= 100
               /\ In (threshold e) thresholds)
            (trading_simulation m).
Proof. apply evaluation_entries_aux. Qed.

Lemma evaluation_entries_are_well_formed_witness :
  exists m,
    evaluate_model (Example.env Example.args) Example.model
                   Example.X_test_norm Example.y_test = Ok m
    /\ Forall (fun e => (0 < trades e)%nat /\ (wins e <= trades e)%nat
                        /\ 0 < coverage e /\ coverage e <= 100)
              (trading_simulation m).
Proof.
  eexists. split; [vm_compute; reflexivity|].
  destruct (@evaluation_entries_are_well_formed
              (Example.env Example.args) Example.model
              Example.X_test_norm Example.y_test _ ltac:(vm_compute; reflexivity))
    as [_ H].
  eapply Forall_impl; [|exact H]. cbv beta. intros e He. tauto.
Defined.

Lemma steps_all_empty (y_proba y_pred y_test : list Q) (ts : list Q)
    (steps : list (list TradingEntry)) :
  Forall2 (fun t step => trading_step y_proba y_pred y_test t = Ok step) ts steps ->
  Forall (fun t => np.count_true (trade_mask y_proba t) = 0%nat) ts ->
  concat steps = [].
Proof.
  induction 1 as [|t step ts steps Hstep _ IH]; intros Hz; [reflexivity|].
  inversion Hz as [|? ? Ht Hts]; subst.
  destruct (trading_step_cases _ _ _ _ Hstep) as [[-> _]|[_ Hpos]]; [|lia].
  cbn [concat app]. apply IH. exact Hts.
Qed.

Lemma trading_entries_prefix (y_proba y_pred y_test : list Q) (ts : list Q)
    (steps : list (list TradingEntry)) :
  StronglySorted Qle ts ->
  Forall2 (fun t step => trading_step y_proba y_pred y_test t = Ok step) ts steps ->
  exists k, map threshold (concat steps) = firstn k ts.
Proof.
  intros Hsorted HF. induction HF as [|t step ts steps Hstep HF IH].
  - exists 0%nat. reflexivity.
  - apply StronglySorted_inv in Hsorted. destruct Hsorted as [Hs Ht].
    destruct (trading_step_cases _ _ _ _ Hstep) as [[-> Hz]|[-> Hpos]].
    + exists 0%nat. cbn [concat app]. rewrite (@steps_all_empty _ _ _ _ _ HF); [reflexivity|].
      eapply Forall_impl; [|exact Ht]. intros t' Hle. cbv beta.
      pose proof (@count_true_subset _ _ (@trade_mask_subset y_proba _ _ Hle)). lia.
    + destruct (IH Hs) as [k Hk]. exists (S k).
      cbn [concat app map threshold firstn]. rewrite Hk. reflexivity.
Qed.

Lemma thresholds_sorted : StronglySorted Qle thresholds.
Proof.
  unfold thresholds. repeat constructor; unfold Qle; cbn; lia.
Qed.

(** X13: the simulated-trading entries of an evaluated run stand for an
    initial segment of the thresholds, in ascending order: once a threshold
    selects no sample, no higher threshold has an entry. *)
Theorem trading_entries_are_a_prefix_of_the_thresholds
    (env : Env) (model : XGBClassifier) (X_test : sklearn.matrix)
    (y_test : list Q) (m : Metrics) :
  evaluate_model env model X_test y_test = Ok m ->
  exists k,
    map threshold (trading_simulation m) = firstn k thresholds
    /\ k = length (trading_simulation m)
    /\ (k <= 8)%nat.
Proof.
  intros Heval. apply evaluate_model_inv in Heval. cbv zeta in Heval.
  destruct Heval as (_ & _ & _ & _ & _ & _ & _ & _ & Htrd).
  destruct (for_append_inv _ _ Htrd) as (steps & HF & ->).
  destruct (@trading_entries_prefix _ _ _ _ _ thresholds_sorted HF) as [k Hk].
  exists (length (concat steps)).
  assert (Hlen : length (concat steps) = Nat.min k (length thresholds)).
  { rewrite <- (length_map threshold), Hk. apply length_firstn. }
  assert (Hk' : firstn k thresholds = firstn (length (concat steps)) thresholds).
  { rewrite Hlen. destruct (Nat.le_ge_cases k (length thresholds)) as [Hle|Hge].
    - rewrite Nat.min_l by exact Hle. reflexivity.
    - rewrite Nat.min_r by exact Hge. rewrite !firstn_all2; [reflexivity | lia | exact Hge]. }
  split; [rewrite Hk; exact Hk'|]. split; [reflexivity|].
  rewrite Hlen. change (length thresholds) with 8%nat. lia.
Qed.

Lemma trading_entries_are_a_prefix_of_the_thresholds_witness :
  exists m,
    evaluate_model (Example.env Example.args) Example.model
                   Example.X_test_norm Example.y_test = Ok m
    /\ exists k, map threshold (trading_simulation m) = firstn k thresholds.
Proof.
  eexists. split; [vm_compute; reflexivity|].
  destruct (@trading_entries_are_a_prefix_of_the_thresholds
              (Example.env Example.args) Example.model
              Example.X_test_norm Example.y_test _ ltac:(vm_compute; reflexivity))
    as (k & Hk & _).
  exists k. exact Hk.
Defined.

End Entries.

(** ** [evaluate_model]: the feature importance list *)

Section Importance.

Local Open Scope Q_scope.

Lemma StronglySorted_snoc {A} (R : A -> A -> Prop) (l : list A) (x : A) :
  StronglySorted R l -> Forall (fun y => R y x) l -> StronglySorted R (l ++ [x]).
Proof.
  induction 1 as [|h t Hs IH Hh]; intros Hx; cbn [app].
  - repeat constructor.
  - inversion Hx as [|? ? Hhx Htx]; subst. constructor; [apply IH; exact Htx|].
    apply Forall_app. split; [exact Hh | repeat constructor; exact Hhx].
Qed.

Lemma StronglySorted_rev {A} (R : A -> A -> Prop) (l : list A) :
  StronglySorted R l -> StronglySorted (fun x y => R y x) (rev l).
Proof.
  induction 1 as [|h t Hs IH Hh]; cbn [rev]; [constructor|].
  apply StronglySorted_snoc; [exact IH|].
  apply Forall_rev. exact Hh.
Qed.

Lemma firstn_In {A} (n : nat) (l : list A) (x : A) : In x (firstn n l) -> In x l.
Proof.
  revert n. induction l as [|h t IH]; intros [|n]; cbn [firstn]; try contradiction.
  intros [E|Hin]; [left; exact E | right; eapply IH; exact Hin].
Qed.

Lemma StronglySorted_firstn {A} (R : A -> A -> Prop) (n : nat) (l : list A) :
  StronglySorted R l -> StronglySorted R (firstn n l).
Proof.
  intros Hs. revert n. induction Hs as [|h t Hs IH Hh]; intros [|n]; cbn [firstn];
    try constructor.
  - apply IH.
  - rewrite Forall_forall in *. intros y Hy. apply Hh.
    eapply firstn_In. exact Hy.
Qed.

Lemma StronglySorted_Forall2 {A B} (R : A -> A -> Prop) (S : B -> B -> Prop)
    (P : A -> B -> Prop) (l : list A) (l' : list B) :
  (forall a a' b b', P a b -> P a' b' -> R a a' -> S b b') ->
  Forall2 P l l' -> StronglySorted R l -> StronglySorted S l'.
Proof.
  intros HRS HF. induction HF as [|a b l l' Hab HF IH]; intros Hs; [constructor|].
  apply StronglySorted_inv in Hs. destruct Hs as [Hs Ha].
  constructor; [apply IH; exact Hs|].
  apply Forall_forall. intros b' Hb'.
  destruct (Forall2_In_r _ HF Hb') as (a' & Ha' & Pa').
  rewrite Forall_forall in Ha. eapply HRS; eauto.
Qed.

Lemma evaluate_model_importance (env : Env) (model : XGBClassifier)
    (X_test : sklearn.matrix) (y_test : list Q) (m : Metrics) :
  evaluate_model env model X_test y_test = Ok m ->
  Forall2 (fun idx e =>
             nth_error FEATURE_NAMES idx = Some (fst e)
             /\ nth_error (feature_importances_ model) idx = Some (snd e))
          (firstn 10 (rev (np_argsort env (feature_importances_ model))))
          (feature_importance m).
Proof.
  intros H. unfold evaluate_model in H. cbv zeta in H. rinv H. injection H as <-.
  cbn [feature_importance].
  match goal with Hm : mapM _ _ = Ok _ |- _ => apply mapM_Ok_inv in Hm; rename Hm into HF end.
  eapply Forall2_impl; [|exact HF]. cbv beta. intros idx [name imp] Hidx.
  unfold list_getitem in Hidx.
  destruct (nth_error FEATURE_NAMES idx); cbn [rbind] in Hidx; [|discriminate].
  destruct (nth_error (feature_importances_ model) idx); cbn [rbind] in Hidx;
    [|discriminate].
  injection Hidx as -> ->. auto.
Qed.

(** X14: the feature importance list of an evaluated run has one entry for
    each of the last ten indices of the argsort of the importances, taken
    from the end: at most ten entries, each pairing the name and the
    importance found at its index, every index lying within the 28 feature
    names; where the argsort is ascending, the list is in descending order
    of importance. *)
Theorem feature_importance_lists_the_top_ten
    (env : Env) (model : XGBClassifier) (X_test : sklearn.matrix)
    (y_test : list Q) (m : Metrics) :
  evaluate_model env model X_test y_test = Ok m ->
  let importance := feature_importances_ model in
  let top := firstn 10 (rev (np_argsort env importance)) in
  length (feature_importance m) = length top
  /\ (length (feature_importance m) <= 10)%nat
  /\ Forall2 (fun idx e =>
                nth_error FEATURE_NAMES idx = Some (fst e)
                /\ nth_error importance idx = Some (snd e))
             top (feature_importance m)
  /\ Forall (fun idx => (idx < 28)%nat /\ (idx < length importance)%nat) top
  /\ (ascending_by importance (np_argsort env importance) ->
      StronglySorted (fun e1 e2 => snd e2 <= snd e1) (feature_importance m)).
Proof.
  intros Heval importance top.
  pose proof (evaluate_model_importance _ _ _ _ Heval) as HF.
  fold importance in HF. fold top in HF.
  pose proof (Forall2_length HF) as Hlen.
  split; [symmetry; exact Hlen|].
  split; [rewrite <- Hlen; unfold top; rewrite length_firstn; lia|].
  split; [exact HF|]. split.
  - apply Forall_forall. intros idx Hidx.
    destruct (Forall2_In_l _ HF Hidx) as (e & _ & Hname & Himp).
    split.
    + change 28%nat with (length FEATURE_NAMES). apply nth_error_Some. congruence.
    + apply nth_error_Some. congruence.
  - intros Hasc.
    assert (Htop : StronglySorted
                     (fun i j => nth j importance 0 <= nth i importance 0) top).
    { unfold top. apply StronglySorted_firstn.
      apply (@StronglySorted_rev _ _ _ Hasc). }
    refine (@StronglySorted_Forall2 _ _ _ (fun e1 e2 => snd e2 <= snd e1)
              _ top (feature_importance m) _ HF Htop).
    intros i j e1 e2 [_ H1] [_ H2] Hij. cbv beta in Hij.
    rewrite (nth_error_nth _ _ 0 H1), (nth_error_nth _ _ 0 H2) in Hij. exact Hij.
Qed.

Lemma feature_importance_lists_the_top_ten_witness :
  exists m,
    evaluate_model (Example.env Example.args) Example.model
                   Example.X_test_norm Example.y_test = Ok m
    /\ ascending_by (feature_importances_ Example.model)
                    (np_argsort (Example.env Example.args)
                                (feature_importances_ Example.model))
    /\ (length (feature_importance m) <= 10)%nat
    /\ StronglySorted (fun e1 e2 => snd e2 <= snd e1) (feature_importance m).
Proof.
  assert (Hasc : ascending_by (feature_importances_ Example.model)
                   (np_argsort (Example.env Example.args)
                               (feature_importances_ Example.model))).
  { unfold ascending_by. cbn. repeat constructor. discriminate. }
  eexists. split; [vm_compute; reflexivity|]. split; [exact Hasc|].
  destruct (@feature_importance_lists_the_top_ten
              (Example.env Example.args) Example.model
              Example.X_test_norm Example.y_test _ ltac:(vm_compute; reflexivity))
    as (_ & Hten & _ & _ & Hsorted).
  split; [exact Hten | exact (Hsorted Hasc)].
Defined.

End Importance.

(** ** The bar of a calibration line *)

Section Bar.

Local Open Scope Q_scope.

Lemma py_round_nearest (x : Q) :
  inject_Z (py_round x) - x <= 1 # 2 /\ x - inject_Z (py_round x) <= 1 # 2.
Proof.
  unfold py_round. cbv zeta.
  pose proof (Qfloor_le x) as Hlo. pose proof (Qlt_floor x) as Hhi.
  rewrite inject_Z_plus in Hhi. change (inject_Z 1) with 1 in Hhi.
  unfold np.Qlt_bool.
  destruct (Qle_bool (1 # 2) (x - inject_Z (Qfloor x))) eqn:E1; cbn [negb].
  - apply Qle_bool_iff in E1.
    assert (Hup : inject_Z (Qfloor x + 1) - x <= 1 # 2
                  /\ x - inject_Z (Qfloor x + 1) <= 1 # 2).
    { rewrite inject_Z_plus. change (inject_Z 1) with 1. split; lra. }
    destruct (Qle_bool (x - inject_Z (Qfloor x)) (1 # 2)) eqn:E2; cbn [negb].
    + apply Qle_bool_iff in E2.
      destruct (Z.even (Qfloor x)); [split; lra | exact Hup].
    + exact Hup.
  - assert (Hlt : ~ (1 # 2) <= x - inject_Z (Qfloor x)).
    { intros Hle. apply Qle_bool_iff in Hle. congruence. }
    apply Qnot_le_lt in Hlt. split; lra.
Qed.

Lemma py_round_range (x : Q) (n : Z) :
  0 <= x -> x <= inject_Z n -> (0 <= py_round x <= n)%Z.
Proof.
  intros H0 Hn. destruct (py_round_nearest x) as [Hup Hdown].
  assert (Hlo : (-1 < py_round x)%Z).
  { rewrite Zlt_Qlt. change (inject_Z (-1)) with (-1). lra. }
  assert (Hhi : (py_round x < n + 1)%Z).
  { rewrite Zlt_Qlt, inject_Z_plus. change (inject_Z 1) with 1. lra. }
  lia.
Qed.

(** X15: the bar of every calibration line of an evaluated run has at most
    20 blocks, and their number is the integer nearest to a fifth of the
    accuracy of the line, in percent. *)
Theorem calibration_bar_has_at_most_twenty_blocks
    (env : Env) (model : XGBClassifier) (X_test : sklearn.matrix)
    (y_test : list Q) (m : Metrics) :
  evaluate_model env model X_test y_test = Ok m ->
  Forall (fun e =>
            (bar_blocks (cal_accuracy e) <= 20)%nat
            /\ sklearn.of_nat (bar_blocks (cal_accuracy e)) - cal_accuracy e / 5 <= 1 # 2
            /\ cal_accuracy e / 5 - sklearn.of_nat (bar_blocks (cal_accuracy e)) <= 1 # 2)
         (calibration m).
Proof.
  intros Heval. destruct (evaluation_entries_aux _ _ _ _ Heval) as [Hcal _].
  eapply Forall_impl; [|exact Hcal]. cbv beta.
  intros e (_ & _ & _ & _ & H0 & H100 & _).
  assert (Hx0 : 0 <= cal_accuracy e / 5) by (apply Qle_shift_div_l; lra).
  assert (Hx20 : cal_accuracy e / 5 <= inject_Z 20)
    by (apply Qle_shift_div_r; [lra|]; change (inject_Z 20) with 20; lra).
  pose proof (@py_round_range _ _ Hx0 Hx20) as Hr.
  destruct (py_round_nearest (cal_accuracy e / 5)) as [Hup Hdown].
  unfold bar_blocks, sklearn.of_nat. rewrite Z2Nat.id by lia.
  split; [lia|]. split; assumption.
Qed.

Lemma calibration_bar_has_at_most_twenty_blocks_witness :
  exists m,
    evaluate_model (Example.env Example.args) Example.model
                   Example.X_test_norm Example.y_test = Ok m
    /\ Forall (fun e => (bar_blocks (cal_accuracy e) <= 20)%nat) (calibration m)
    /\ map (fun e => bar_blocks (cal_accuracy e)) (calibration m) = [20; 20]%nat.
Proof.
  eexists. split; [vm_compute; reflexivity|]. split; [|vm_compute; reflexivity].
  pose proof (@calibration_bar_has_at_most_twenty_blocks
                (Example.env Example.args) Example.model
                Example.X_test_norm Example.y_test _ ltac:(vm_compute; reflexivity)) as H.
  eapply Forall_impl; [|exact H]. cbv beta. intros e He. tauto.
Defined.

End Bar.

(** ** [evaluate_model]: returning, and the area of a constant score *)

(** X16: [evaluate_model] returns on a test set with one 0/1 label per
    row of the test matrix and both classes present, when the predictions
    are 0 or 1 and the ten most important features lie within the 28
    feature names. *)
Theorem evaluate_model_returns_on_two_classes
    (env : Env) (model : XGBClassifier) (X_test : sklearn.matrix) (y_test : list Q) :
  length y_test = length X_test ->
  binary_labels y_test ->
  count_label 0 y_test <> 0%nat -> count_label 1 y_test <> 0%nat ->
  binary_labels (predict model X_test) ->
  (forall idx,
      In idx (firstn 10 (rev (np_argsort env (feature_importances_ model)))) ->
      (idx < length FEATURE_NAMES)%nat
      /\ (idx < length (feature_importances_ model))%nat) ->
  exists m, evaluate_model env model X_test y_test = Ok m.
Proof. apply evaluate_model_returns. Qed.

Lemma evaluate_model_returns_on_two_classes_witness :
  length Example.y_test = length Example.X_test_norm
  /\ binary_labels Example.y_test
  /\ count_label 0 Example.y_test <> 0%nat
  /\ count_label 1 Example.y_test <> 0%nat
  /\ binary_labels (predict Example.model Example.X_test_norm)
  /\ exists m, evaluate_model (Example.env Example.args) Example.model
                              Example.X_test_norm Example.y_test = Ok m.
Proof.
  assert (H1 : length Example.y_test = length Example.X_test_norm) by reflexivity.
  assert (H2 : binary_labels Example.y_test).
  { repeat constructor; solve [left; reflexivity | right; reflexivity]. }
  assert (H3 : count_label 0 Example.y_test <> 0%nat) by discriminate.
  assert (H4 : count_label 1 Example.y_test <> 0%nat) by discriminate.
  assert (H5 : binary_labels (predict Example.model Example.X_test_norm)).
  { repeat constructor; solve [left; reflexivity | right; reflexivity]. }
  repeat (split; [assumption|]).
  apply (@evaluate_model_returns_on_two_classes
           (Example.env Example.args) Example.model Example.X_test_norm Example.y_test
           H1 H2 H3 H4 H5).
  intros idx Hidx. cbn in Hidx.
  destruct Hidx as [<-|[<-|[]]]; cbn; lia.
Defined.

Section ConstantScore.





Local Open Scope Q_scope.




End ConstantScore.

(** ** [export_xgboost_to_json] *)

Lemma mapM_first_failure {A B} (f : A -> result B) (pre : list A) (x : A)
    (post : list A) (e : exn) :
  (forall y, In y pre -> exists b, f y = Ok b) ->
  f x = Raise e ->
  mapM f (pre ++ x :: post) = Raise e.
Proof.
  induction pre as [|y pre IH]; intros Hpre Hx; cbn [app mapM].
  - rewrite Hx. reflexivity.
  - destruct (Hpre y (or_introl eq_refl)) as [b Hb]. rewrite Hb. cbn [rbind].
    rewrite IH; [reflexivity | | exact Hx].
    intros z Hz. apply Hpre. right. exact Hz.
Qed.

(** X18: [export_xgboost_to_json] parses every dumped tree before it opens
    its output file: the first tree that is not JSON ends the call with
    the parse error and nothing opened, a file that cannot be opened ends
    it with nothing written, and otherwise the call writes one object, with
    one parsed tree per dumped tree, and returns the object it wrote.  The
    base score it writes is never zero: a base score that is missing or
    zero is written as 0.5. *)
Theorem export_parses_the_trees_before_it_opens_the_file
    (env : Env) (model : XGBClassifier) (path : string) :
  (forall pre tree post e,
      get_dump model = pre ++ tree :: post ->
      (forall t, In t pre -> exists j, json_loads env t = Ok j) ->
      json_loads env tree = Raise e ->
      export_xgboost_to_json env model path = ([EvRaised e], Raised e))
  /\ (forall trees e,
        mapM (json_loads env) (get_dump model) = Ok trees ->
        open_write env path = Raise e ->
        export_xgboost_to_json env model path = ([EvRaised e], Raised e))
  /\ (forall trees,
        mapM (json_loads env) (get_dump model) = Ok trees ->
        open_write env path = Ok tt ->
        export_xgboost_to_json env model path
        = ([EvWrite path (model_export_data env model trees);
            EvPrint (MsgModelExported path)],
           Returned (model_export_data env model trees))
        /\ length trees = length (get_dump model))
  /\ (~ base_score_or_default (get_params model) == 0)%Q
  /\ (forall b, base_score (get_params model) = Some b -> (b == 0)%Q ->
        base_score_or_default (get_params model) = (5 # 10)%Q)
  /\ (forall b, base_score (get_params model) = Some b -> (~ b == 0)%Q ->
        base_score_or_default (get_params model) = b)
  /\ (base_score (get_params model) = None ->
        base_score_or_default (get_params model) = (5 # 10)%Q).
Proof.
  unfold export_xgboost_to_json, write_json, write_json_of. cbv zeta.
  split; [|split; [|split]].
  - intros pre tree post e Hdump Hpre Htree.
    rewrite Hdump, (@mapM_first_failure _ _ _ pre tree post e Hpre Htree). reflexivity.
  - intros trees e Htrees Hopen. rewrite Htrees. cbn. rewrite Hopen. reflexivity.
  - intros trees Htrees Hopen. rewrite Htrees. cbn. rewrite Hopen.
    split; [reflexivity | eapply mapM_length; eassumption].
  - unfold base_score_or_default.
    destruct (base_score (get_params model)) as [b|].
    + destruct (Qeq_bool b 0) eqn:E.
      * apply Qeq_bool_eq in E.
        split; [intros H; discriminate H|]. split; [reflexivity|].
        split; [|discriminate]. intros b' Hb' Hne. injection Hb' as <-. contradiction.
      * apply Qeq_bool_neq in E.
        split; [exact E|]. split; [|split; [|discriminate]].
        -- intros b' Hb' Hz. injection Hb' as <-. contradiction.
        -- intros b' Hb' _. injection Hb' as <-. reflexivity.
    + split; [intros H; discriminate H|].
      split; [discriminate|]. split; [discriminate | reflexivity].
Qed.

Lemma export_parses_the_trees_before_it_opens_the_file_witness :
  get_dump Example.model = [] ++ "tree0" :: []
  /\ json_loads Scenario.bad_dump "tree0" = Raise (JSONDecodeError "tree0")
  /\ export_xgboost_to_json Scenario.bad_dump Example.model "model.json"
     = ([EvRaised (JSONDecodeError "tree0")], Raised (JSONDecodeError "tree0")).
Proof.
  assert (H1 : get_dump Example.model = [] ++ "tree0" :: []) by reflexivity.
  assert (H2 : json_loads Scenario.bad_dump "tree0" = Raise (JSONDecodeError "tree0"))
    by reflexivity.
  split; [exact H1|]. split; [exact H2|].
  apply (proj1 (export_parses_the_trees_before_it_opens_the_file
                  Scenario.bad_dump Example.model "model.json")
               [] "tree0" [] _ H1).
  - intros t [].
  - exact H2.
Defined.

(** ** Runs, whatever their outcome *)

Lemma program_cases (env : Env) : import_outcome env.
Proof.
  unfold import_outcome, program.
  destruct (import_module env numpy) as [[]|e0] eqn:E0;
    [|right; left; exists e0; reflexivity].
  destruct (import_module env xgboost) as [[]|e1] eqn:E1.
  - destruct (import_module env sklearn_metrics) as [[]|e2] eqn:E2.
    + destruct (import_module env sklearn_model_selection) as [[]|e3] eqn:E3.
      * destruct (import_module env sklearn_preprocessing) as [[]|e4] eqn:E4.
        -- left. split; [unfold imports_ok; auto|].
           rewrite (import_guard_ok env E1 E2 E3 E4). cbn.
           destruct (main env). reflexivity.
        -- right. rewrite (@import_guard_fails env e4) by (unfold guarded_import_fails; auto 10).
           destruct (is_ImportError e4); [right | left]; exists e4; reflexivity.
      * right. rewrite (@import_guard_fails env e3) by (unfold guarded_import_fails; auto 10).
        destruct (is_ImportError e3); [right | left]; exists e3; reflexivity.
    + right. rewrite (@import_guard_fails env e2) by (unfold guarded_import_fails; auto 10).
      destruct (is_ImportError e2); [right | left]; exists e2; reflexivity.
  - right. rewrite (@import_guard_fails env e1) by (unfold guarded_import_fails; auto 10).
    destruct (is_ImportError e1); [right | left]; exists e1; reflexivity.
Qed.

(** *** Stepping through a computation

    A property of the trace and the outcome of [bind m f] is reduced to
    properties of the runs that go on after [m] and of the runs that end in
    [m]; the events already performed move into the property. *)

Lemma bind_assoc {A B C} (m : M A) (g : A -> M B) (f : B -> M C) :
  bind (bind m g) f = bind m (fun x => bind (g x) f).
Proof.
  destruct m as [t [a|e|c]]; cbn; try reflexivity.
  destruct (g a) as [t1 [b|e|c]]; cbn; try reflexivity.
  destruct (f b) as [t2 o]. rewrite app_assoc. reflexivity.
Qed.

Lemma holds_bind_emit {B} (Q : list event -> outcome B -> Prop) (ev : event)
    (f : unit -> M B) :
  holds (fun t o => Q (ev :: t) o) (f tt) -> holds Q (bind (emit ev) f).
Proof. unfold holds. cbn. destruct (f tt) as [t o]. cbn. auto. Qed.

Lemma holds_bind_lift {A B} (Q : list event -> outcome B -> Prop) (r : result A)
    (f : A -> M B) :
  (forall a, r = Ok a -> holds Q (f a)) ->
  (forall e, r = Raise e -> Q [EvRaised e] (Raised e)) ->
  holds Q (bind (lift r) f).
Proof.
  unfold holds. intros Hok Hraise. destruct r as [a|e]; cbn.
  - specialize (Hok a eq_refl). destruct (f a) as [t o]. exact Hok.
  - apply Hraise. reflexivity.
Qed.

Lemma holds_bind_sys_exit {A B} (Q : list event -> outcome B -> Prop) (c : Z)
    (f : A -> M B) :
  Q [] (Exited c) -> holds Q (bind (sys_exit c) f).
Proof. unfold holds. cbn. auto. Qed.

Lemma holds_emit (Q : list event -> outcome unit -> Prop) (ev : event) :
  Q [ev] (Returned tt) -> holds Q (emit ev).
Proof. unfold holds. cbn. auto. Qed.

Lemma holds_ret {A} (Q : list event -> outcome A -> Prop) (a : A) :
  Q [] (Returned a) -> holds Q (ret a).
Proof. unfold holds. cbn. auto. Qed.

Ltac wp_step :=
  first
    [ rewrite bind_assoc
    | rewrite bind_ret_l
    | apply holds_bind_emit
    | apply holds_bind_lift; [intros ? ? | intros ? ?]
    | apply holds_bind_sys_exit
    | apply holds_emit
    | apply holds_ret
    | match goal with
      | |- holds _ (match ?p with pair _ _ => _ end) => destruct p
      | |- holds _ (bind (if ?c then _ else _) _) => destruct c eqn:?
      end ];
  cbv beta.

(** Every way [main] can go, with its trace and its outcome. *)
Ltac wp_main :=
  unfold main, in_stage, load_dataset, train_xgboost, save_artifacts,
    export_xgboost_to_json, write_json, write_json_of, print;
  cbv zeta;
  repeat wp_step.

(** *** The artifacts are written in a fixed order *)

Ltac written_leaf :=
  first
    [ exists 4%nat; split; [lia|]; split; [reflexivity|];
      split; [split; reflexivity|]; split; [split; reflexivity|]; left; reflexivity
    | exists 0%nat; split; [lia|]; split; [reflexivity|];
      split; [split; intros Hk; discriminate Hk|];
      split; [split; intros Hk; discriminate Hk|]; right; reflexivity
    | exists 1%nat; split; [lia|]; split; [reflexivity|];
      split; [split; intros Hk; discriminate Hk|];
      split; [split; intros Hk; discriminate Hk|]; right; reflexivity
    | exists 2%nat; split; [lia|]; split; [reflexivity|];
      split; [split; intros Hk; discriminate Hk|];
      split; [split; intros Hk; discriminate Hk|]; right; reflexivity
    | exists 3%nat; split; [lia|]; split; [reflexivity|];
      split; [split; intros Hk; discriminate Hk|];
      split; [split; intros Hk; discriminate Hk|]; right; reflexivity ].

Lemma main_writes_in_order (env : Env) :
  holds (fun t o =>
           exists k, (k <= 4)%nat
                     /\ written t = firstn k (artifact_paths env)
                     /\ (o = Returned tt <-> k = 4%nat)
                     /\ (exit_status o = 0%Z <-> k = 4%nat)
                     /\ (exit_status o = 0%Z \/ exit_status o = 1%Z))
        (main env).
Proof. wp_main; written_leaf. Qed.

(** X19: whatever happens, the files a run writes are the first k of
    xgboost_model.json, normalization.json, norm_browser.json and
    training_report.json, in this order and once each; the run has written
    all four exactly when it reaches its end, which is exactly when its
    exit status is 0, and the exit status is otherwise 1. *)
Theorem artifacts_are_written_in_order (env : Env) :
  exists k,
    (k <= 4)%nat
    /\ written (fst (program env)) = firstn k (artifact_paths env)
    /\ (snd (program env) = Returned tt <-> k = 4%nat)
    /\ (exit_status (snd (program env)) = 0%Z <-> k = 4%nat)
    /\ (exit_status (snd (program env)) = 0%Z \/ exit_status (snd (program env)) = 1%Z).
Proof.
  destruct (program_cases env) as [[_ ->]|[[e ->]|[e ->]]].
  - apply (main_writes_in_order env).
  - cbn [fst snd]. written_leaf.
  - cbn [fst snd]. written_leaf.
Qed.

Lemma artifacts_are_written_in_order_witness :
  written (fst (program Scenario.disk_full))
  = firstn 1 (artifact_paths Scenario.disk_full)
  /\ snd (program Scenario.disk_full) <> Returned tt
  /\ exit_status (snd (program Scenario.disk_full)) = 1%Z.
Proof.
  destruct (artifacts_are_written_in_order Scenario.disk_full)
    as (k & Hk & Hw & Hret & Hexit & Hstatus).
  assert (E : k = 1%nat).
  { vm_compute in Hw.
    destruct k as [|[|[|[|[|k]]]]]; try discriminate Hw; reflexivity. }
  subst k. split; [exact Hw|]. split.
  - intros Hr. apply Hret in Hr. discriminate Hr.
  - destruct Hstatus as [H0|H1]; [|exact H1].
    apply Hexit in H0. discriminate H0.
Defined.

(** *** No artifact before the end of cross-validation *)

Lemma preceded_sound (p : event -> bool) (t : list event) :
  forall seen,
    preceded p seen t = true ->
    forall pre ev post,
      t = pre ++ ev :: post -> is_write ev = true ->
      seen = true \/ exists x, In x pre /\ p x = true.
Proof.
  induction t as [|y t IH]; intros seen Hp pre ev post Ht Hw.
  - destruct pre; discriminate Ht.
  - cbn [preceded] in Hp. apply andb_true_iff in Hp. destruct Hp as [Hy Hp].
    destruct pre as [|z pre]; cbn [app] in Ht; injection Ht as -> Ht.
    + rewrite Hw in Hy. left. exact Hy.
    + destruct (IH _ Hp pre ev post Ht Hw) as [Hseen|(x & Hx & Hpx)].
      * apply orb_true_iff in Hseen. destruct Hseen as [Hseen|Hz]; [left; exact Hseen|].
        right. exists z. split; [left; reflexivity | exact Hz].
      * right. exists x. split; [right; exact Hx | exact Hpx].
Qed.

Lemma main_preceded (env : Env) :
  holds (fun t o =>
           preceded ends_evaluation false t = true
           /\ preceded ends_cross_validation false t = true
           /\ preceded is_makedirs false t = true
           /\ forall dir, In (EvMakedirs dir) t -> dir = models_dir env)
        (main env).
Proof.
  wp_main; (split; [reflexivity|]); (split; [reflexivity|]); (split; [reflexivity|]);
    intros dir Hin; cbn [In] in Hin;
    repeat (destruct Hin as [Hin|Hin]; [try discriminate Hin|]);
    try contradiction; injection Hin as <-; reflexivity.
Qed.

Lemma written_In (t : list event) (path : string) (content : json) :
  In (EvWrite path content) t -> In path (written t).
Proof.
  intros Hin. unfold written. apply in_flat_map.
  exists (EvWrite path content). split; [exact Hin | left; reflexivity].
Qed.

(** X20: whatever happens, a file is written only after the evaluation and
    the cross-validation stages have ended and the models directory has
    been created, and it is one of the four artifacts: a run that fails
    while loading, normalising, training, evaluating or cross-validating
    writes nothing. *)
Theorem no_artifact_before_cross_validation
    (env : Env) (pre post : list event) (path : string) (content : json) :
  fst (program env) = pre ++ EvWrite path content :: post ->
  In (EvEnd Evaluate) pre
  /\ In (EvEnd CrossValidate) pre
  /\ In (EvMakedirs (models_dir env)) pre
  /\ In path (artifact_paths env).
Proof.
  intros Ht.
  assert (Hmain : program env = main env).
  { destruct (program_cases env) as [[_ E]|[[e E]|[e E]]]; [exact E| |];
      rewrite E in Ht; cbn [fst] in Ht;
      destruct pre as [|? [|? [|? [|? pre]]]]; discriminate Ht. }
  rewrite Hmain in Ht.
  destruct (main_preceded env) as (He & Hc & Hm & Hdir).
  destruct (@preceded_sound _ _ _ He _ _ _ Ht eq_refl) as [Hf|(x & Hx & Hpx)];
    [discriminate Hf|].
  destruct (@preceded_sound _ _ _ Hc _ _ _ Ht eq_refl) as [Hf|(y & Hy & Hpy)];
    [discriminate Hf|].
  destruct (@preceded_sound _ _ _ Hm _ _ _ Ht eq_refl) as [Hf|(z & Hz & Hpz)];
    [discriminate Hf|].
  destruct x as [| |[]| | | | | |]; try discriminate Hpx.
  destruct y as [| |[]| | | | | |]; try discriminate Hpy.
  destruct z as [| | | |dir| | | |]; try discriminate Hpz.
  assert (Hdir' : dir = models_dir env).
  { apply Hdir. rewrite Ht. apply in_or_app. left. exact Hz. }
  subst dir. repeat split; try assumption.
  destruct (main_writes_in_order env) as (k & _ & Hk & _).
  apply firstn_In with (n := k). rewrite <- Hk, Ht.
  apply written_In with (content := content). apply in_or_app. right. left. reflexivity.
Qed.

Lemma no_artifact_before_cross_validation_witness :
  exists pre post content,
    fst (program (Example.env Example.args))
    = pre ++ EvWrite "backtest/ml/models/normalization.json" content :: post
    /\ In (EvEnd CrossValidate) pre
    /\ In (EvMakedirs "backtest/ml/models") pre.
Proof.
  set (tr := fst (program (Example.env Example.args))).
  set (content := match nth_error tr 24 with
                  | Some (EvWrite _ c) => c
                  | _ => JNull
                  end).
  assert (Ht : tr = firstn 24 tr
                    ++ EvWrite "backtest/ml/models/normalization.json" content
                    :: skipn 25 tr) by (vm_compute; reflexivity).
  exists (firstn 24 tr), (skipn 25 tr), content. split; [exact Ht|].
  destruct (@no_artifact_before_cross_validation
              (Example.env Example.args) _ _ _ _ Ht) as (_ & Hcv & Hmk & _).
  split; [exact Hcv | exact Hmk].
Defined.

(** ** The stages of a run, whatever its outcome *)

Ltac bracket_leaf k :=
  lazymatch k with
  | 13%nat => fail
  | _ =>
      first
        [ exists k; split; [lia|]; split; [reflexivity|];
          split; intros Hk; solve [reflexivity | discriminate Hk]
        | bracket_leaf (S k) ]
  end.

Lemma main_stages (env : Env) :
  holds (fun t o =>
           exists k, (k <= 12)%nat
                     /\ filter bracket t = firstn k stage_brackets
                     /\ (o = Returned tt <-> k = 12%nat))
        (main env).
Proof. wp_main; bracket_leaf 0%nat. Qed.

(** X21: whatever happens, the stages of a run are entered in the order
    load, normalize, fit, evaluate, cross-validate, export, each at most
    once and only after the stage before it has ended; the run goes
    through all of them exactly when it reaches its end. *)
Theorem stages_run_in_order_whatever_the_outcome (env : Env) :
  exists k,
    (k <= 12)%nat
    /\ filter bracket (fst (program env)) = firstn k stage_brackets
    /\ (snd (program env) = Returned tt <-> k = 12%nat).
Proof.
  destruct (program_cases env) as [[_ ->]|[[e ->]|[e ->]]].
  - apply (main_stages env).
  - cbn [fst snd]. bracket_leaf 0%nat.
  - cbn [fst snd]. bracket_leaf 0%nat.
Qed.

Lemma stages_run_in_order_whatever_the_outcome_witness :
  filter bracket (fst (program Scenario.without_test_labels))
  = firstn 1 stage_brackets
  /\ snd (program Scenario.without_test_labels) <> Returned tt.
Proof.
  destruct (stages_run_in_order_whatever_the_outcome Scenario.without_test_labels)
    as (k & Hk & Hb & Hret).
  assert (E : k = 1%nat).
  { vm_compute in Hb.
    destruct k as [|[|k]]; try discriminate Hb; reflexivity. }
  subst k. split; [exact Hb|].
  intros Hr. apply Hret in Hr. discriminate Hr.
Defined.

(** ** What the classifier is fitted on *)

Lemma main_fit (env : Env) :
  holds (fun t o =>
           forall params X y eval_set,
             In (EvXgbFit params X y eval_set) t ->
             exists X_train X_test y_test X_test_norm scaler w,
               training_matrix env X_train
               /\ (exists file text data,
                     list_getitem (argv env) 1 = Ok file
                     /\ read_text env file = Ok text
                     /\ json_loads env text = Ok data
                     /\ rbind (getitem data "trainLabels") np_array1 = Ok y
                     /\ rbind (getitem data "testFeatures") np_array2 = Ok X_test
                     /\ rbind (getitem data "testLabels") np_array1 = Ok y_test)
               /\ normalize_data env X_train X_test = Ok (X, X_test_norm, scaler)
               /\ class_weight y = Ok w
               /\ params = classifier_params w
               /\ eval_set = [(X, y); (X_test_norm, y_test)])
        (main env).
Proof.
  wp_main;
    intros params X y eval_set Hin; cbn [In] in Hin;
    repeat (destruct Hin as [Hin|Hin]; [try discriminate Hin|]);
    try contradiction;
    injection Hin as <- <- <- <-;
    match goal with
    | Hn : normalize_data _ ?X_train ?X_test = Ok (?Xn, ?Xtn, ?scaler),
      Hw : class_weight _ = Ok ?w,
      Hy : rbind (getitem _ "testLabels") _ = Ok ?y_test |- _ =>
        exists X_train, X_test, y_test, Xtn, scaler, w;
        split; [do 3 eexists; repeat split; eassumption|];
        split; [do 3 eexists; repeat split; eassumption|];
        split; [exact Hn|]; split; [exact Hw|];
        split; reflexivity
    end.
Qed.

(** X22: whenever a run fits the classifier, it fits it on the training
    matrix of the dataset file normalised by [normalize_data], with the
    training labels, with the hyperparameters of [train_xgboost] and the
    class weight of these labels, and with two evaluation sets: the
    training split and then the normalised test split, the one early
    stopping monitors. *)
Theorem the_classifier_is_fitted_on_normalized_data
    (env : Env) (params : XGBParams) (X : sklearn.matrix) (y : list Q)
    (eval_set : list (sklearn.matrix * list Q)) :
  In (EvXgbFit params X y eval_set) (fst (program env)) ->
  exists X_train X_test y_test X_test_norm scaler w,
    training_matrix env X_train
    /\ (exists file text data,
          list_getitem (argv env) 1 = Ok file
          /\ read_text env file = Ok text
          /\ json_loads env text = Ok data
          /\ rbind (getitem data "trainLabels") np_array1 = Ok y
          /\ rbind (getitem data "testFeatures") np_array2 = Ok X_test
          /\ rbind (getitem data "testLabels") np_array1 = Ok y_test)
    /\ normalize_data env X_train X_test = Ok (X, X_test_norm, scaler)
    /\ class_weight y = Ok w
    /\ params = classifier_params w
    /\ eval_set = [(X, y); (X_test_norm, y_test)].
Proof.
  destruct (program_cases env) as [[_ ->]|[[e ->]|[e ->]]].
  - apply (main_fit env).
  - cbn [fst In]. intros [Hin|[]]. discriminate Hin.
  - cbn [fst In]. intros [Hin|[Hin|[Hin|[]]]]; discriminate Hin.
Qed.

Lemma the_classifier_is_fitted_on_normalized_data_witness :
  exists params X y eval_set,
    In (EvXgbFit params X y eval_set) (fst (program (Example.env Example.args)))
    /\ exists X_train X_test X_test_norm scaler,
         training_matrix (Example.env Example.args) X_train
         /\ normalize_data (Example.env Example.args) X_train X_test
            = Ok (X, X_test_norm, scaler).
Proof.
  assert (Hin : exists params X y eval_set,
             In (EvXgbFit params X y eval_set)
                (fst (program (Example.env Example.args)))).
  { do 4 eexists. vm_compute. repeat (first [left; reflexivity | right]). }
  destruct Hin as (params & X & y & eval_set & Hin).
  exists params, X, y, eval_set. split; [exact Hin|].
  destruct (@the_classifier_is_fitted_on_normalized_data
              (Example.env Example.args) params X y eval_set Hin)
    as (X_train & X_test & y_test & Xtn & scaler & w & Htm & _ & Hn & _).
  exists X_train, X_test, Xtn, scaler. split; assumption.
Defined.

(** *** Cross-validation runs with the rounds found by early stopping *)

Ltac cv_leaf :=
  intros params X y cv Hin; cbn [In] in Hin;
  repeat (destruct Hin as [Hin|Hin]; [try discriminate Hin|]);
  try contradiction;
  injection Hin as <- <- <- <-;
  match goal with
  | Hb : get_best_iteration ?model = Ok ?n |- _ =>
      unfold get_best_iteration in Hb;
      destruct (best_iteration model) as [n'|] eqn:Ebest; [|discriminate Hb];
      injection Hb as ->;
      split; [reflexivity|];
      split; [exists n; split;
                [cbn [In]; repeat (first [left; reflexivity | right])
                | unfold cv_params; cbn [n_estimators]; rewrite Ebest; reflexivity]|];
      split; [reflexivity|]; split; [reflexivity|]; split; [reflexivity|];
      do 3 eexists; cbn [In]; repeat (first [left; reflexivity | right])
  end.

Lemma main_cross_validation (env : Env) :
  holds (fun t o =>
           forall params X y cv,
             In (EvCrossValScore params X y cv) t ->
             cv = 5%nat
             /\ (exists n, In (EvPrint (MsgBestIteration n)) t
                           /\ n_estimators params = (n + 1)%nat)
             /\ scale_pos_weight params = None
             /\ eval_metric params = None
             /\ early_stopping_rounds params = None
             /\ exists w X_test y_test,
                  In (EvXgbFit (classifier_params w) X y [(X, y); (X_test, y_test)]) t)
        (main env).
Proof. wp_main; cv_leaf. Qed.

(** X23: whenever a run reaches cross-validation, the cross-validated
    classifier has one round more than the best iteration found by early
    stopping (the fallback of 300 rounds is never used), it has no class
    weight, no evaluation metric and no early stopping, and it is
    cross-validated in 5 folds on the normalised training split the
    classifier was fitted on. *)
Theorem cross_validation_uses_the_best_iteration
    (env : Env) (params : XGBParams) (X : sklearn.matrix) (y : list Q) (cv : nat) :
  In (EvCrossValScore params X y cv) (fst (program env)) ->
  cv = 5%nat
  /\ (exists n, In (EvPrint (MsgBestIteration n)) (fst (program env))
                /\ n_estimators params = (n + 1)%nat)
  /\ scale_pos_weight params = None
  /\ eval_metric params = None
  /\ early_stopping_rounds params = None
  /\ exists w X_test y_test,
       In (EvXgbFit (classifier_params w) X y [(X, y); (X_test, y_test)])
          (fst (program env)).
Proof.
  destruct (program_cases env) as [[_ ->]|[[e ->]|[e ->]]].
  - apply (main_cross_validation env).
  - cbn [fst In]. intros [Hin|[]]. discriminate Hin.
  - cbn [fst In]. intros [Hin|[Hin|[Hin|[]]]]; discriminate Hin.
Qed.

Lemma cross_validation_uses_the_best_iteration_witness :
  exists params X y,
    In (EvCrossValScore params X y 5) (fst (program (Example.env Example.args)))
    /\ exists n, In (EvPrint (MsgBestIteration n)) (fst (program (Example.env Example.args)))
                 /\ n_estimators params = (n + 1)%nat.
Proof.
  assert (Hin : exists params X y,
             In (EvCrossValScore params X y 5)
                (fst (program (Example.env Example.args)))).
  { do 3 eexists. vm_compute. repeat (first [left; reflexivity | right]). }
  destruct Hin as (params & X & y & Hin).
  exists params, X, y. split; [exact Hin|].
  destruct (@cross_validation_uses_the_best_iteration
              (Example.env Example.args) params X y 5%nat Hin) as (_ & Hn & _).
  exact Hn.
Defined.

(** *** Imports outside the guard *)

(** X24: the import guard handles only an ImportError of xgboost or of a
    scikit-learn module: an exception raised by importing numpy, which
    is imported before the guard, and any other exception raised inside
    the guard end the run uncaught, without the missing-package
    message. *)
Theorem only_a_guarded_import_error_is_handled (env : Env) (e : exn) :
  (import_module env numpy = Raise e ->
   program env = ([EvRaised e], Raised e))
  /\ (import_module env numpy = Ok tt ->
      guarded_import_fails env e -> is_ImportError e = false ->
      program env = ([EvRaised e], Raised e)).
Proof.
  split.
  - intros H. unfold program. rewrite H. reflexivity.
  - intros H0 Hfail Hne. unfold program.
    rewrite H0, (import_guard_fails Hfail), Hne. reflexivity.
Qed.

Lemma only_a_guarded_import_error_is_handled_witness :
  (import_module Scenario.without_numpy numpy
   = Raise (ImportError "No module named 'numpy'")
   /\ program Scenario.without_numpy
      = ([EvRaised (ImportError "No module named 'numpy'")],
         Raised (ImportError "No module named 'numpy'")))
  /\ (import_module Scenario.broken_xgboost numpy = Ok tt
      /\ guarded_import_fails Scenario.broken_xgboost
           (OSError "libxgboost.so: cannot open shared object file")
      /\ program Scenario.broken_xgboost
         = ([EvRaised (OSError "libxgboost.so: cannot open shared object file")],
            Raised (OSError "libxgboost.so: cannot open shared object file"))).
Proof.
  assert (H1 : import_module Scenario.without_numpy numpy
               = Raise (ImportError "No module named 'numpy'")) by reflexivity.
  assert (H2 : import_module Scenario.broken_xgboost numpy = Ok tt) by reflexivity.
  assert (H3 : guarded_import_fails Scenario.broken_xgboost
                 (OSError "libxgboost.so: cannot open shared object file"))
    by (left; reflexivity).
  split.
  - split; [exact H1|].
    apply (proj1 (only_a_guarded_import_error_is_handled Scenario.without_numpy _) H1).
  - split; [exact H2|]. split; [exact H3|].
    apply (proj2 (only_a_guarded_import_error_is_handled Scenario.broken_xgboost _)
                 H2 H3 eq_refl).
Defined.

(** ** The paths of the artifacts *)

Section Paths.

Local Open Scope string_scope.

Lemma string_length_append (a b : string) :
  String.length (a ++ b) = (String.length a + String.length b)%nat.
Proof. induction a as [|c a IH]; cbn; [reflexivity | rewrite IH; reflexivity]. Qed.

Lemma string_append_assoc (a b c : string) : (a ++ b) ++ c = a ++ (b ++ c).
Proof. induction a as [|x a IH]; cbn; [reflexivity | rewrite IH; reflexivity]. Qed.

Lemma string_append_inj (a b c : string) : a ++ b = a ++ c -> b = c.
Proof.
  induction a as [|x a IH]; cbn; intros H; [exact H|].
  injection H as H. apply IH. exact H.
Qed.

(** A path that ends in "models" is not empty and does not end in a
    slash. *)
Lemma ends_in_models (x : string) :
  String.eqb (x ++ "models") "" = false /\ ends_with_slash (x ++ "models") = false.
Proof.
  split.
  - destruct x; reflexivity.
  - unfold ends_with_slash. rewrite string_length_append. cbn [String.length].
    replace (String.length x + 6 - 1)%nat with (5 + String.length x)%nat by lia.
    rewrite <- append_correct2. reflexivity.
Qed.

Lemma models_dir_ends_in_models (env : Env) :
  exists x, models_dir env = x ++ "models".
Proof.
  unfold models_dir, path_join.
  destruct (String.eqb (script_dir env) ""); [exists ""; reflexivity|].
  destruct (ends_with_slash (script_dir env)).
  - exists (script_dir env). reflexivity.
  - exists (script_dir env ++ "/"). rewrite string_append_assoc. reflexivity.
Qed.

Lemma path_join_models_dir (env : Env) (name : string) :
  path_join (models_dir env) name = models_dir env ++ "/" ++ name.
Proof.
  destruct (models_dir_ends_in_models env) as [x ->].
  destruct (ends_in_models x) as [Hne Hslash].
  unfold path_join. rewrite Hne, Hslash. reflexivity.
Qed.

(** X25: the four artifacts go to four different files directly under the
    models directory, which is the directory "models" next to the script
    (and the relative path "models" when the script directory is
    empty). *)
Theorem artifacts_go_to_four_different_files (env : Env) :
  artifact_paths env
  = map (fun name => models_dir env ++ "/" ++ name)
        ["xgboost_model.json"; "normalization.json"; "norm_browser.json";
         "training_report.json"]
  /\ NoDup (artifact_paths env)
  /\ (script_dir env = "" -> models_dir env = "models")
  /\ (script_dir env <> "" -> ends_with_slash (script_dir env) = false ->
      models_dir env = script_dir env ++ "/models").
Proof.
  assert (Hpaths : artifact_paths env
                   = map (fun name => models_dir env ++ "/" ++ name)
                         ["xgboost_model.json"; "normalization.json";
                          "norm_browser.json"; "training_report.json"]).
  { unfold artifact_paths, model_path, norm_path, norm_browser_path, report_path.
    rewrite !path_join_models_dir. reflexivity. }
  split; [exact Hpaths|]. split; [|split].
  - rewrite Hpaths. cbn [map].
    repeat constructor; cbn [In]; intros Hin;
      repeat (destruct Hin as [Hin|Hin];
              [apply string_append_inj in Hin; discriminate Hin|]);
      exact Hin.
  - intros E. unfold models_dir, path_join. rewrite E. reflexivity.
  - intros Hne Hslash. unfold models_dir, path_join.
    apply String.eqb_neq in Hne. rewrite Hne, Hslash. reflexivity.
Qed.

Lemma artifacts_go_to_four_different_files_witness :
  script_dir (Example.env Example.args) <> ""
  /\ ends_with_slash (script_dir (Example.env Example.args)) = false
  /\ models_dir (Example.env Example.args) = "backtest/ml/models".
Proof.
  assert (H1 : script_dir (Example.env Example.args) <> "") by discriminate.
  assert (H2 : ends_with_slash (script_dir (Example.env Example.args)) = false)
    by reflexivity.
  split; [exact H1|]. split; [exact H2|].
  apply (proj2 (proj2 (proj2 (artifacts_go_to_four_different_files
                                (Example.env Example.args)))) H1 H2).
Defined.

End Paths.

(** ** The training report *)

(** X26: the report of a run that reaches its end agrees with the run and
    with the other artifacts: 'num_trees' is one more than the best
    iteration, which is the number of rounds of the cross-validated
    classifier; 'test_samples' is the number of test labels, which is the
    number of rows of the test matrix and the sum of the confusion matrix;
    'num_features' is the width of the training matrix, which is the number
    of means and of scales in normalization.json; 'hyperparameters' holds
    the parameters of the fitted classifier and 'metrics' the result of the
    evaluation. *)
Theorem report_agrees_with_the_run (env : Env) (tr : list event) (u : unit) :
  program env = (tr, Returned u) ->
  exists (r : Run) (report_json : json),
    completed env r
    /\ In (EvWrite (report_path env) report_json) tr
    /\ keys report_json
       = ["metrics"; "cv_accuracy_mean"; "cv_accuracy_std"; "train_samples";
          "test_samples"; "num_features"; "num_trees"; "hyperparameters";
          "trained_at"]
    /\ field "num_trees" report_json = Some (JInt (Z.of_nat (run_rounds r + 1)))
    /\ n_estimators (cv_params (run_model r)) = (run_rounds r + 1)%nat
    /\ field "train_samples" report_json
       = Some (JInt (Z.of_nat (length (run_y_train r))))
    /\ field "test_samples" report_json
       = Some (JInt (Z.of_nat (length (run_y_test r))))
    /\ length (run_y_test r) = length (run_X_test r)
    /\ list_sum (map list_sum (confusion_matrix (run_metrics r)))
       = length (run_y_test r)
    /\ field "num_features" report_json
       = Some (JInt (Z.of_nat (sklearn.n_features (run_X_train r))))
    /\ length (sklearn.mean_ (run_scaler r)) = sklearn.n_features (run_X_train r)
    /\ length (sklearn.scale_ (run_scaler r)) = sklearn.n_features (run_X_train r)
    /\ field "cv_accuracy_mean" report_json
       = Some (JFloat (np.mean (run_cv_scores r)))
    /\ field "metrics" report_json = Some (metrics_json (run_metrics r))
    /\ field "hyperparameters" report_json
       = Some (params_json (get_params (run_model r))).
Proof.
  intros H. apply program_returns_inv in H. destruct H as (_ & r & Hr & ->).
  exists r, (report env (run_metrics r) (run_cv_scores r) (run_X_train r)
                    (run_y_train r) (run_y_test r) (run_model r) (run_rounds r + 1)).
  pose proof Hr as (_ & _ & _ & _ & _ & _ & Hnorm & _ & _ & Hbest & Heval & _).
  destruct (normalize_data_inv _ _ _ Hnorm) as (Hfit & _ & Etest & _ & _).
  destruct (fit_features _ _ Hfit) as (Hm & Hs & _).
  destruct (evaluate_model_lengths _ _ _ _ Heval) as [Hlp _].
  unfold predict in Hlp. rewrite length_map, Etest, length_map in Hlp.
  pose proof (evaluate_model_inv _ _ _ _ Heval) as Hinv. cbv zeta in Hinv.
  destruct Hinv as (_ & Hp & _ & _ & _ & Hcm & [tp Htp] & _).
  assert (Hsum : list_sum (map list_sum (confusion_matrix (run_metrics r)))
                 = length (run_y_test r)).
  { apply confusion_matrix_total in Hcm. destruct Hcm as [-> Htotal].
    rewrite <- Htotal. unfold table_total. rewrite map_map. reflexivity. }
  split; [exact Hr|].
  split; [unfold run_trace, export_trace; apply in_or_app; right;
          apply in_or_app; left; cbn [In]; tauto|].
  split; [reflexivity|]. split; [reflexivity|].
  split; [unfold cv_params; cbn [n_estimators]; rewrite Hbest; reflexivity|].
  split; [reflexivity|]. split; [reflexivity|].
  split; [symmetry; exact Hlp|]. split; [exact Hsum|].
  split; [reflexivity|]. split; [exact Hm|]. split; [exact Hs|].
  repeat split.
Qed.

Lemma report_agrees_with_the_run_witness :
  program (Example.env Example.args)
  = (fst (program (Example.env Example.args)), Returned tt)
  /\ exists report_json,
       In (EvWrite "backtest/ml/models/training_report.json" report_json)
          (fst (program (Example.env Example.args)))
       /\ field "num_trees" report_json = Some (JInt 1)
       /\ field "test_samples" report_json = Some (JInt 2).
Proof.
  split; [vm_compute; reflexivity|].
  destruct (@report_agrees_with_the_run (Example.env Example.args) _ tt
              ltac:(vm_compute; reflexivity))
    as (r & report_json & Hr & Hin & _ & Htrees & _ & _ & Htest & _).
  exists report_json. split; [exact Hin|].
  assert (Hrounds : run_rounds r = 0%nat).
  { destruct Hr as (_ & _ & _ & _ & _ & _ & _ & Hw & Hfit & Hbest & _).
    cbn in Hfit. injection Hfit as Hfit. rewrite <- Hfit in Hbest.
    cbn in Hbest. congruence. }
  assert (Hlen : length (run_y_test r) = 2%nat).
  { destruct Hr as (Hf & (text & Hread & Hload) & _ & _ & _ & Hy & _).
    cbn in Hf. injection Hf as Hf. rewrite <- Hf in Hread.
    cbn in Hread. injection Hread as Hread. rewrite <- Hread in Hload.
    cbn in Hload. injection Hload as Hload. rewrite <- Hload in Hy.
    cbn in Hy. injection Hy as Hy. rewrite <- Hy. reflexivity. }
  rewrite Hrounds in Htrees. rewrite Hlen in Htest. split; assumption.
Defined.

(** ** [evaluate_model]: the area of a separating score *)

Section Separation.

(** *** The samples in decreasing score order *)








Local Open Scope Z_scope.

(** *** The walk over the positive and then the negative samples *)



(** *** The corner of the curve is kept *)



(** *** The area under a curve that turns once *)

Local Open Scope Q_scope.




(** *** The area of a separating score *)







End Separation.


